(** * Promotion Studio: the prediction engine and the cohort profile mixer

    A shallow embedding of
      - [python/acquisition_model.py]   (Poisson acquisition model),
      - [python/churn_model.py]         (time-lagged repeat-loss model),
      - [python/migration_model.py]     (multinomial-logit tier migration),
      - [scripts/regenerate_data_option1.py] (archetype catalog, profile
        weights and profile mixing),
    followed by the properties of these functions.

    Numeric model.  Python floats are embedded as real numbers: [+], [-],
    [*], [/] are the field operations of [R], [np.exp] is [exp], [np.sqrt]
    is [sqrt], [abs] is [Rabs] and [max]/[min] are [Rmax]/[Rmin].  The
    rounding of binary64 is not part of the model.  Its range is, where
    the control flow depends on it:
      - an operation that raises OverflowError when its result is out of
        range does so in the model ([math.exp] and [**] in the validation
        script, the true division of an int segment size);
      - [predict_acquisition], whose confidence fallback is taken when
        [np.exp] underflows to 0.0, is embedded a second time over
        [Binary64], where results overflow to an infinity and underflow to
        zero.
    Elsewhere an overflow or underflow of [np.exp] raises nothing and
    selects no branch; it can turn a strict inequality between two
    results into an equality (0.0 = 0.0, 1.0 = 1.0).  The properties that
    compare two results of such a function are therefore stated with
    [<=], or for a bounded range of inputs in which the results are far
    from saturation.  A real-valued entry of a scenario or segment stands
    for a Python float, an integer entry for a Python int.

    Dictionaries with string keys are insertion-ordered association
    lists, a key that may be absent from an input dictionary is an [option]
    field, and a Python call either returns a value or raises. *)

From Stdlib Require Import Reals Lra Lia ZArith String Ascii List Bool.
Import ListNotations.
Open Scope string_scope.
Open Scope R_scope.

(** ** Python runtime: outcomes, dictionaries, strings *)

Module Py.

Inductive exn : Type :=
| KeyError (key : string)
| ValueError (msg : string)
| OverflowError.

(** The outcome of a call: a returned value or a raised exception. *)
Inductive outcome (A : Type) : Type :=
| Returns (a : A)
| Raises (e : exn).
Arguments Returns {A} a.
Arguments Raises {A} e.

Definition bind {A B : Type} (c : outcome A) (k : A -> outcome B) : outcome B :=
  match c with
  | Returns a => k a
  | Raises e => Raises e
  end.

Fixpoint for_each {A B : Type} (body : A -> outcome B) (xs : list A)
  : outcome (list B) :=
  match xs with
  | [] => Returns []
  | x :: rest =>
      bind (body x) (fun y =>
      bind (for_each body rest) (fun ys => Returns (y :: ys)))
  end.

(** [d.get(key, default)] on a key modelled as an optional field. *)
Definition get {A : Type} (field : option A) (default : A) : A :=
  match field with
  | Some v => v
  | None => default
  end.

(** [d[key]] on a key modelled as an optional field. *)
Definition item {A : Type} (key : string) (field : option A) : outcome A :=
  match field with
  | Some v => Returns v
  | None => Raises (KeyError key)
  end.

(** Comparisons of numbers, as booleans. *)
Definition gt (x y : R) : bool := if Rlt_dec y x then true else false.
Definition ge (x y : R) : bool := if Rle_dec y x then true else false.
Definition le (x y : R) : bool := if Rle_dec x y then true else false.
Definition lt (x y : R) : bool := if Rlt_dec x y then true else false.

(** Insertion-ordered dictionaries with string keys. *)
Definition dict (V : Type) : Type := list (string * V).

Fixpoint lookup {V : Type} (key : string) (d : dict V) : option V :=
  match d with
  | [] => None
  | (k, v) :: rest => if String.eqb k key then Some v else lookup key rest
  end.

Definition values {V : Type} (d : dict V) : list V := map snd d.
Definition keys {V : Type} (d : dict V) : list string := map fst d.

(** [d[key] = f(d[key])] for a key of [d] (the position is kept). *)
Fixpoint update {V : Type} (key : string) (f : V -> V) (d : dict V) : dict V :=
  match d with
  | [] => []
  | (k, v) :: rest =>
      if String.eqb k key then (k, f v) :: rest
      else (k, v) :: update key f rest
  end.

(** The builtin [sum] over numbers: left to right, from 0. *)
Definition sum (xs : list R) : R := fold_left Rplus xs 0.

(** [str.lower] on ASCII text. *)
Definition lower_ascii (c : ascii) : ascii :=
  let n := nat_of_ascii c in
  if (Nat.leb 65 n && Nat.leb n 90)%bool then ascii_of_nat (n + 32) else c.

Fixpoint lower (s : string) : string :=
  match s with
  | EmptyString => EmptyString
  | String c rest => String (lower_ascii c) (lower rest)
  end.

(** [s.replace(old, new)] for a one-character [old]. *)
Fixpoint replace (old : ascii) (new : string) (s : string) : string :=
  match s with
  | EmptyString => EmptyString
  | String c rest =>
      if Ascii.eqb c old then new ++ replace old new rest
      else String c (replace old new rest)
  end.

(** [d[key] = value]: the value of an existing key is replaced in place, a
    new key goes to the end. *)
Fixpoint setitem {V : Type} (key : string) (value : V) (d : dict V) : dict V :=
  match d with
  | [] => [(key, value)]
  | (k, v) :: rest =>
      if String.eqb k key then (k, value) :: rest
      else (k, v) :: setitem key value rest
  end.

End Py.

Notation "x <- c ;; k" := (Py.bind c (fun x => k))
  (at level 61, c at next level, right associativity).

(** ** Binary64 numbers and their range

    A binary64 value is a finite number, an infinity or NaN.  Of a finite
    value only the range is modelled, not the 53 bits of its significand:
    it is a real number, and the result of an operation is the exact
    result unless that is out of range.  The sign of a zero is not
    modelled. *)

Module Binary64.

Inductive float : Type :=
| Finite (r : R)
| PosInf
| NegInf
| NaN.

(** Rounding to nearest sends a magnitude of 2^1024 - 2^970 or more to an
    infinity and a magnitude of 2^-1075 or less to zero. *)
Definition overflow_threshold : R := IZR (2 ^ 1024 - 2 ^ 970).
Definition underflow_threshold : R := / IZR (2 ^ 1075).

Definition round (r : R) : float :=
  if Rle_dec overflow_threshold r then PosInf
  else if Rle_dec r (- overflow_threshold) then NegInf
  else if Rle_dec (Rabs r) underflow_threshold then Finite 0
  else Finite r.

(** The float of a number of a dictionary.  A Python float is in range;
    an int that is not makes the conversion, and so the first operation
    with a float, raise OverflowError. *)
Definition of_number (r : R) : Py.outcome float :=
  if Rle_dec overflow_threshold (Rabs r) then Py.Raises Py.OverflowError
  else Py.Returns (Finite r).

Definition opp (x : float) : float :=
  match x with
  | Finite a => Finite (- a)
  | PosInf => NegInf
  | NegInf => PosInf
  | NaN => NaN
  end.

Definition add (x y : float) : float :=
  match x, y with
  | NaN, _ | _, NaN => NaN
  | PosInf, NegInf | NegInf, PosInf => NaN
  | PosInf, _ | _, PosInf => PosInf
  | NegInf, _ | _, NegInf => NegInf
  | Finite a, Finite b => round (a + b)
  end.

Definition sub (x y : float) : float := add x (opp y).

(** The product of an infinity [inf] and a finite number. *)
Definition scale_infinity (inf : float) (b : R) : float :=
  if Rlt_dec 0 b then inf
  else if Rlt_dec b 0 then opp inf
  else NaN.

Definition mul (x y : float) : float :=
  match x, y with
  | NaN, _ | _, NaN => NaN
  | Finite a, Finite b => round (a * b)
  | Finite a, inf => scale_infinity inf a
  | inf, Finite b => scale_infinity inf b
  | PosInf, PosInf | NegInf, NegInf => PosInf
  | PosInf, NegInf | NegInf, PosInf => NegInf
  end.

(** Division of numpy floats: a zero divisor gives an infinity or NaN
    (with a warning), not an exception. *)
Definition div (x y : float) : float :=
  match x, y with
  | NaN, _ | _, NaN => NaN
  | Finite a, Finite b =>
      if Req_dec_T b 0 then
        if Rlt_dec 0 a then PosInf
        else if Rlt_dec a 0 then NegInf
        else NaN
      else round (a / b)
  | Finite _, _ => Finite 0
  | inf, Finite b => if Rlt_dec b 0 then opp inf else inf
  | _, _ => NaN
  end.

(** [np.sqrt] *)
Definition sqrt (x : float) : float :=
  match x with
  | Finite a => if Rlt_dec a 0 then NaN else Finite (R_sqrt.sqrt a)
  | PosInf => PosInf
  | NegInf | NaN => NaN
  end.

(** [np.exp]: overflow gives [inf] and underflow gives 0.0, neither raises. *)
Definition exp (x : float) : float :=
  match x with
  | Finite a => round (Rtrigo_def.exp a)
  | PosInf => PosInf
  | NegInf => Finite 0
  | NaN => NaN
  end.

(** [x > y]: false when either side is NaN. *)
Definition gt (x y : float) : bool :=
  match x, y with
  | NaN, _ | _, NaN => false
  | Finite a, Finite b => Py.gt a b
  | PosInf, PosInf | NegInf, NegInf => false
  | PosInf, _ | _, NegInf => true
  | _, PosInf | NegInf, _ => false
  end.

Definition lt (x y : float) : bool := gt y x.

(** [x <= y]: false when either side is NaN. *)
Definition le (x y : float) : bool :=
  match x, y with
  | NaN, _ | _, NaN => false
  | Finite a, Finite b => Py.le a b
  | NegInf, _ | _, PosInf => true
  | PosInf, _ | _, NegInf => false
  end.

(** The builtin [max(a, b)]: [b] when [b > a], else [a]. *)
Definition max (a b : float) : float := if gt b a then b else a.

End Binary64.

(** ** Inputs shared by the three predictors *)

(** A promotion dictionary: the [discount_pct] key and the names of the
    keys it has besides (duration, code, eligibility, ...). *)
Record Promotion : Type := mkPromotion {
  discount_pct : option R;
  other_keys : list string
}.

(** Truth value of a promotion dictionary: a dictionary is true when it is
    not empty. *)
Definition promotion_truthy (p : Promotion) : bool :=
  match discount_pct p, other_keys p with
  | None, [] => false
  | _, _ => true
  end.

(** The scenario dictionary: every key the models read, each optional. *)
Record Scenario : Type := mkScenario {
  new_price : option R;
  promotion : option Promotion;
  segment_elasticity : option R;
  tier : option string;
  ad_supported_price : option R;
  ad_free_price : option R;
  price_change_pct : option R;
  baseline_repeat_loss : option R
}.

(** [scenario.get('promotion')] as a condition. *)
Definition has_promotion (scenario : Scenario) : bool :=
  match promotion scenario with
  | Some p => promotion_truthy p
  | None => false
  end.

(** [{**scenario, 'segment_elasticity': e}] *)
Definition with_segment_elasticity (scenario : Scenario) (e : R) : Scenario :=
  {| new_price := new_price scenario;
     promotion := promotion scenario;
     segment_elasticity := Some e;
     tier := tier scenario;
     ad_supported_price := ad_supported_price scenario;
     ad_free_price := ad_free_price scenario;
     price_change_pct := price_change_pct scenario;
     baseline_repeat_loss := baseline_repeat_loss scenario |}.

(** A segment dictionary [{name, size, elasticity}]. *)
Record Segment : Type := mkSegment {
  seg_name : option string;
  seg_size : option Z;
  seg_elasticity : option R
}.

(** ** python/acquisition_model.py *)

Module AcquisitionModel.

Record Coefficients : Type := mkCoefficients {
  intercept : R;
  price : R;
  promo_discount : R;
  is_promo : R;
  segment_elasticity_factor : R
}.

Definition ACQUISITION_COEFFICIENTS : Coefficients :=
  {| intercept := 6.5;
     price := -0.25;
     promo_discount := 0.03;
     is_promo := 0.4;
     segment_elasticity_factor := 0.12 |}.

Record AcquisitionResult : Type := mkAcquisitionResult {
  predicted_adds : R;
  ci_lower : R;
  ci_upper : R;
  elasticity : R;
  confidence : R
}.

(** The promotion features [(promo_discount, is_promo)]. *)
Definition promo_features (scenario : Scenario) : R * R :=
  if has_promotion scenario then
    match promotion scenario with
    | Some promo => (Py.get (discount_pct promo) 0 / 100.0, 1)
    | None => (0, 0)
    end
  else (0, 0).

(** The linear predictor [log_adds]. *)
Definition log_adds (scenario : Scenario) : R :=
  let price_ := Py.get (new_price scenario) 8.99 in
  let '(promo_discount_, is_promo_) := promo_features scenario in
  let segment_elasticity_ := Py.get (segment_elasticity scenario) (-1.8) in
  intercept ACQUISITION_COEFFICIENTS +
  price ACQUISITION_COEFFICIENTS * price_ +
  promo_discount ACQUISITION_COEFFICIENTS * promo_discount_ * 100 +
  is_promo ACQUISITION_COEFFICIENTS * is_promo_ +
  segment_elasticity_factor ACQUISITION_COEFFICIENTS * Rabs segment_elasticity_.

Definition predict_acquisition (scenario : Scenario) : AcquisitionResult :=
  let price_ := Py.get (new_price scenario) 8.99 in
  let predicted_adds_ := exp (log_adds scenario) in
  let se := sqrt predicted_adds_ in
  let ci_lower_ := Rmax 0 (predicted_adds_ - 1.96 * se) in
  let ci_upper_ := predicted_adds_ + 1.96 * se in
  let elasticity_ := price ACQUISITION_COEFFICIENTS * price_ in
  {| predicted_adds := predicted_adds_;
     ci_lower := ci_lower_;
     ci_upper := ci_upper_;
     elasticity := elasticity_;
     confidence :=
       if Py.gt predicted_adds_ 0 then se / predicted_adds_ * 100 else 0 |}.

Record SegmentAcquisition : Type := mkSegmentAcquisition {
  sa_name : string;
  sa_size : Z;
  sa_predicted_adds : R;
  sa_elasticity : R;
  lift_at_minus_5pct : R;
  lift_at_plus_5pct : R;
  sa_confidence : R
}.

(** [size / 50000] on an int: true division of ints raises OverflowError
    when the quotient rounds to a magnitude beyond the binary64 range,
    that is from 2^1024 - 2^970 on. *)
Definition size_share (size_ : Z) : Py.outcome R :=
  if (50000 * (2 ^ 1024 - 2 ^ 970) <=? Z.abs size_)%Z
  then Py.Raises Py.OverflowError
  else Py.Returns (IZR size_ / 50000).

(** The body of the loop over [segments]; the keys of [segment] are read
    in the order of the source: size, elasticity, name. *)
Definition predict_segment (scenario : Scenario) (segment : Segment)
  : Py.outcome SegmentAcquisition :=
  let seg_scenario :=
    with_segment_elasticity scenario (Py.get (seg_elasticity segment) (-1.8)) in
  let prediction := predict_acquisition seg_scenario in
  size_ <- Py.item "size" (seg_size segment) ;;
  share <- size_share size_ ;;
  let segment_adds := predicted_adds prediction * share in
  elasticity_ <- Py.item "elasticity" (seg_elasticity segment) ;;
  let lift_minus_5 := -5.0 * elasticity_ in
  let lift_plus_5 := 5.0 * elasticity_ in
  let segment_confidence :=
    if Py.gt segment_adds 0
    then (1.0 / sqrt (Rmax segment_adds 1)) * 100
    else 10.0 in
  name_ <- Py.item "name" (seg_name segment) ;;
  Py.Returns
    {| sa_name := name_;
       sa_size := size_;
       sa_predicted_adds := segment_adds;
       sa_elasticity := elasticity_;
       lift_at_minus_5pct := lift_minus_5;
       lift_at_plus_5pct := lift_plus_5;
       sa_confidence := Rmin segment_confidence 15.0 |}.

Definition predict_acquisition_by_segment
    (scenario : Scenario) (segments : list Segment)
  : Py.outcome (list SegmentAcquisition) :=
  Py.for_each (predict_segment scenario) segments.

End AcquisitionModel.

(** ** python/acquisition_model.py, with the range of binary64

    [predict_acquisition] once more, over [Binary64]: a number of the
    scenario becomes a float where the source first multiplies or divides
    it by one, [np.exp] overflows to [inf] and underflows to 0.0, and the
    test [predicted_adds > 0] is the comparison of floats. *)

Module AcquisitionBinary64.

Record AcquisitionResult : Type := mkAcquisitionResult {
  predicted_adds : Binary64.float;
  ci_lower : Binary64.float;
  ci_upper : Binary64.float;
  elasticity : Binary64.float;
  confidence : Binary64.float
}.

(** An entry of [ACQUISITION_COEFFICIENTS]. *)
Definition coefficient (entry : AcquisitionModel.Coefficients -> R) : Binary64.float :=
  Binary64.Finite (entry AcquisitionModel.ACQUISITION_COEFFICIENTS).

(** The promotion features [(promo_discount, is_promo)]. *)
Definition promo_features (scenario : Scenario)
  : Py.outcome (Binary64.float * Binary64.float) :=
  if has_promotion scenario then
    match promotion scenario with
    | Some promo =>
        discount <- Binary64.of_number (Py.get (discount_pct promo) 0) ;;
        Py.Returns (Binary64.div discount (Binary64.Finite 100.0),
                    Binary64.Finite 1)
    | None => Py.Returns (Binary64.Finite 0, Binary64.Finite 0)
    end
  else Py.Returns (Binary64.Finite 0, Binary64.Finite 0).

(** The linear predictor [log_adds]. *)
Definition log_adds (scenario : Scenario) : Py.outcome Binary64.float :=
  features <- promo_features scenario ;;
  let '(promo_discount_, is_promo_) := features in
  price_ <- Binary64.of_number (Py.get (new_price scenario) 8.99) ;;
  segment_elasticity_ <-
    Binary64.of_number (Rabs (Py.get (segment_elasticity scenario) (-1.8))) ;;
  Py.Returns
    (Binary64.add
       (Binary64.add
          (Binary64.add
             (Binary64.add
                (coefficient AcquisitionModel.intercept)
                (Binary64.mul (coefficient AcquisitionModel.price) price_))
             (Binary64.mul
                (Binary64.mul (coefficient AcquisitionModel.promo_discount)
                              promo_discount_)
                (Binary64.Finite 100)))
          (Binary64.mul (coefficient AcquisitionModel.is_promo) is_promo_))
       (Binary64.mul (coefficient AcquisitionModel.segment_elasticity_factor)
                     segment_elasticity_)).

(** The price is a float by now: its conversion in [log_adds] has
    succeeded. *)
Definition predict_acquisition (scenario : Scenario)
  : Py.outcome AcquisitionResult :=
  log_adds_ <- log_adds scenario ;;
  let price_ := Binary64.Finite (Py.get (new_price scenario) 8.99) in
  let predicted_adds_ := Binary64.exp log_adds_ in
  let se := Binary64.sqrt predicted_adds_ in
  let ci_lower_ :=
    Binary64.max (Binary64.Finite 0)
      (Binary64.sub predicted_adds_ (Binary64.mul (Binary64.Finite 1.96) se)) in
  let ci_upper_ :=
    Binary64.add predicted_adds_ (Binary64.mul (Binary64.Finite 1.96) se) in
  let elasticity_ := Binary64.mul (coefficient AcquisitionModel.price) price_ in
  Py.Returns
    {| predicted_adds := predicted_adds_;
       ci_lower := ci_lower_;
       ci_upper := ci_upper_;
       elasticity := elasticity_;
       confidence :=
         if Binary64.gt predicted_adds_ (Binary64.Finite 0)
         then Binary64.mul (Binary64.div se predicted_adds_) (Binary64.Finite 100)
         else Binary64.Finite 0 |}.

End AcquisitionBinary64.

(** ** python/churn_model.py *)

Module ChurnModel.

Record Coefficients : Type := mkCoefficients {
  intercept : R;
  price_change_pct_coef : R;
  price_x_0_4wks : R;
  price_x_4_8wks : R;
  price_x_8_12wks : R;
  price_x_12plus : R
}.

Definition REPEAT_LOSS_COEFFICIENTS : Coefficients :=
  {| intercept := -2.944;
     price_change_pct_coef := 0.01;
     price_x_0_4wks := 0.006;
     price_x_4_8wks := 0.018;
     price_x_8_12wks := 0.028;
     price_x_12plus := 0.008 |}.

(** Logistic sigmoid function. *)
Definition logistic (x : R) : R := 1 / (1 + exp (- x)).

Record HorizonResult : Type := mkHorizonResult {
  repeat_loss_rate : R;
  repeat_loss_uplift : R;
  repeat_loss_uplift_pp : R
}.

(** The [horizons] dictionary: horizon name to interaction coefficient. *)
Definition horizons : Py.dict R :=
  [ ("0-4 Weeks", price_x_0_4wks REPEAT_LOSS_COEFFICIENTS);
    ("4-8 Weeks", price_x_4_8wks REPEAT_LOSS_COEFFICIENTS);
    ("8-12 Weeks", price_x_8_12wks REPEAT_LOSS_COEFFICIENTS);
    ("12+ Weeks", price_x_12plus REPEAT_LOSS_COEFFICIENTS) ].

(** The log-odds of one horizon. *)
Definition log_odds (price_change : R) (coef : R) : R :=
  intercept REPEAT_LOSS_COEFFICIENTS +
  price_change_pct_coef REPEAT_LOSS_COEFFICIENTS * price_change +
  coef * price_change.

(** The body of the loop over [horizons.items()]. *)
Definition horizon_result (price_change baseline : R) (coef : R) : HorizonResult :=
  let repeat_loss_prob := logistic (log_odds price_change coef) in
  let uplift := repeat_loss_prob - baseline in
  {| repeat_loss_rate := repeat_loss_prob;
     repeat_loss_uplift := uplift;
     repeat_loss_uplift_pp := uplift * 100 |}.

Definition predict_repeat_loss_by_horizon (scenario : Scenario)
  : Py.dict HorizonResult :=
  let price_change := Py.get (price_change_pct scenario) 0 in
  let baseline := Py.get (baseline_repeat_loss scenario) 0.05 in
  map (fun '(horizon_name, coef) =>
         (horizon_name, horizon_result price_change baseline coef))
      horizons.

(** [horizon.replace(' ', '_').replace('-', '_').replace('+', 'plus').lower()] *)
Definition horizon_key (horizon : string) : string :=
  Py.lower
    (Py.replace "+"%char "plus"
       (Py.replace "-"%char "_"
          (Py.replace " "%char "_" horizon))).

Record SegmentRepeatLoss : Type := mkSegmentRepeatLoss {
  sr_name : string;
  sr_size : Z;
  sr_by_horizon : Py.dict R
}.

Definition segment_multiplier (segment : Segment) : R :=
  let elasticity := Rabs (Py.get (seg_elasticity segment) (-2.0)) in
  0.7 + (Rmin elasticity 4.0 / 4.0) * 0.6.

(** The body of the loop over [segments]. *)
Definition predict_segment (scenario : Scenario) (segment : Segment)
  : Py.outcome SegmentRepeatLoss :=
  let horizons_ := predict_repeat_loss_by_horizon scenario in
  let multiplier := segment_multiplier segment in
  name_ <- Py.item "name" (seg_name segment) ;;
  size_ <- Py.item "size" (seg_size segment) ;;
  Py.Returns
    {| sr_name := name_;
       sr_size := size_;
       sr_by_horizon :=
         map (fun '(horizon, values) =>
                (("repeat_loss_" ++ horizon_key horizon)%string,
                 repeat_loss_uplift_pp values * multiplier))
             horizons_ |}.

Definition predict_repeat_loss_by_segment
    (scenario : Scenario) (segments : list Segment)
  : Py.outcome (list SegmentRepeatLoss) :=
  Py.for_each (predict_segment scenario) segments.

End ChurnModel.

(** ** python/migration_model.py *)

Module MigrationModel.

(** Rows of [BUNDLE_COEFFICIENTS] and [BASIC_COEFFICIENTS], one record
    per set of keys. *)
Record ValueRow : Type := mkValueRow {
  v_intercept : R;
  v_value_savings_pct : R;
  v_has_content_need : R;
  v_tenure_months : R
}.

Record PressureRow : Type := mkPressureRow {
  p_intercept : R;
  p_price_pressure : R;
  p_tenure_months : R
}.

Record SensitivityRow : Type := mkSensitivityRow {
  s_intercept : R;
  s_price_sensitivity : R;
  s_content_satisfaction : R;
  s_tenure_months : R
}.

Record NeedRow : Type := mkNeedRow {
  n_intercept : R;
  n_content_need : R;
  n_tenure_months : R
}.

(** [BUNDLE_COEFFICIENTS] *)
Definition ad_supp_to_bundle : ValueRow :=
  {| v_intercept := -2.6; v_value_savings_pct := 0.020;
     v_has_content_need := 0.5; v_tenure_months := 0.006 |}.
Definition ad_free_to_bundle : ValueRow :=
  {| v_intercept := -0.5; v_value_savings_pct := 0.03;
     v_has_content_need := 0.8; v_tenure_months := 0.012 |}.
Definition bundle_to_ad_free : PressureRow :=
  {| p_intercept := -4.0; p_price_pressure := 0.10;
     p_tenure_months := -0.018 |}.
Definition bundle_to_ad_supp : PressureRow :=
  {| p_intercept := -5.0; p_price_pressure := 0.15;
     p_tenure_months := -0.025 |}.

(** [BASIC_COEFFICIENTS] *)
Definition ad_supp_to_basic : SensitivityRow :=
  {| s_intercept := -1.4; s_price_sensitivity := 0.12;
     s_content_satisfaction := -0.18; s_tenure_months := -0.010 |}.
Definition basic_to_ad_supp : NeedRow :=
  {| n_intercept := -1.2; n_content_need := 0.22;
     n_tenure_months := 0.015 |}.
Definition ad_free_to_basic : PressureRow :=
  {| p_intercept := -2.8; p_price_pressure := 0.15;
     p_tenure_months := -0.018 |}.
Definition basic_to_ad_free : NeedRow :=
  {| n_intercept := -3.0; n_content_need := 0.20;
     n_tenure_months := 0.010 |}.

Record Row2 : Type := mkRow2 {
  intercept : R;
  price_gap : R;
  has_promo : R;
  tenure_months : R
}.

(** [MIGRATION_COEFFICIENTS_2TIER] *)
Definition upgrade : Row2 :=
  {| intercept := -1.5; price_gap := -0.08;
     has_promo := 0.4; tenure_months := 0.01 |}.
Definition downgrade : Row2 :=
  {| intercept := -2.8; price_gap := 0.08;
     has_promo := -0.3; tenure_months := -0.015 |}.
Definition cancel : Row2 :=
  {| intercept := -2.5; price_gap := 0.05;
     has_promo := -0.2; tenure_months := -0.02 |}.

(** [np.max] of an array (the source applies it to four-element arrays
    only; NumPy raises on an empty one). *)
Definition np_max (x : list R) : R :=
  match x with
  | [] => 0
  | x0 :: rest => fold_left Rmax rest x0
  end.

(** Softmax function for multinomial logit. *)
Definition softmax (x : list R) : list R :=
  let exp_x := map (fun v => exp (v - np_max x)) x in
  map (fun e => e / Py.sum exp_x) exp_x.

(** Detect which tier configuration we're in. *)
Definition detect_tier_config (scenario : Scenario) : string :=
  let tier_ := Py.lower (Py.get (tier scenario) "ad_supported") in
  let new_price_ := Py.get (new_price scenario) 0 in
  if (String.eqb tier_ "bundle"
      || (Py.ge new_price_ 13.99 && Py.le new_price_ 15.99))%bool
  then "3-tier-bundle"
  else if (String.eqb tier_ "basic"
           || (Py.ge new_price_ 1.99 && Py.le new_price_ 3.99))%bool
  then "3-tier-basic"
  else "2-tier".

(** The returned dictionary: one destination-probability dictionary per
    origin tier, and the [tier_config] entry. *)
Record MigrationMatrix : Type := mkMigrationMatrix {
  origins : Py.dict (Py.dict R);
  tier_config : string
}.

(** [probs[i]] *)
Definition at_ (probs : list R) (i : nat) : R := nth i probs 0.

Definition promo_flag (scenario : Scenario) : R :=
  if has_promotion scenario then 1 else 0.

Definition avg_tenure : R := 12.

(** *** 3-tier bundle model *)

Definition savings_pct : R := 21.0.

(** Utilities of [predict_3tier_bundle], in the order of the arrays
    given to [softmax]. *)
Definition bundle_utilities_from_ad_supported (scenario : Scenario) : list R :=
  let has_promo_ := promo_flag scenario in
  let u_stay_as := 0 in
  let u_to_af :=
    intercept upgrade +
    price_gap upgrade * 3.0 +
    has_promo upgrade * has_promo_ +
    tenure_months upgrade * avg_tenure in
  let u_to_bundle :=
    v_intercept ad_supp_to_bundle +
    v_value_savings_pct ad_supp_to_bundle * savings_pct +
    v_has_content_need ad_supp_to_bundle * 0.15 +
    v_tenure_months ad_supp_to_bundle * avg_tenure in
  let u_cancel_as :=
    intercept cancel +
    has_promo cancel * has_promo_ +
    tenure_months cancel * avg_tenure in
  [u_stay_as; u_to_af; u_to_bundle; u_cancel_as].

Definition bundle_utilities_from_ad_free (scenario : Scenario) : list R :=
  let has_promo_ := promo_flag scenario in
  let u_stay_af := 0 in
  let u_af_to_bundle :=
    v_intercept ad_free_to_bundle +
    v_value_savings_pct ad_free_to_bundle * savings_pct +
    v_has_content_need ad_free_to_bundle * 0.45 +
    v_tenure_months ad_free_to_bundle * avg_tenure in
  let u_af_to_as :=
    intercept downgrade +
    price_gap downgrade * 3.0 +
    has_promo downgrade * has_promo_ +
    tenure_months downgrade * avg_tenure in
  let u_cancel_af :=
    intercept cancel - 0.3 +
    has_promo cancel * has_promo_ +
    tenure_months cancel * avg_tenure in
  [u_stay_af; u_af_to_bundle; u_af_to_as; u_cancel_af].

Definition bundle_utilities_from_bundle (scenario : Scenario) : list R :=
  let has_promo_ := promo_flag scenario in
  let u_stay_bundle := 0 in
  let u_bundle_to_af :=
    p_intercept bundle_to_ad_free +
    p_price_pressure bundle_to_ad_free * 2.0 +
    p_tenure_months bundle_to_ad_free * avg_tenure in
  let u_bundle_to_as :=
    p_intercept bundle_to_ad_supp +
    p_price_pressure bundle_to_ad_supp * 3.0 +
    p_tenure_months bundle_to_ad_supp * avg_tenure in
  let u_cancel_bundle :=
    intercept cancel - 0.5 +
    has_promo cancel * has_promo_ +
    tenure_months cancel * avg_tenure in
  [u_stay_bundle; u_bundle_to_af; u_bundle_to_as; u_cancel_bundle].

Definition predict_3tier_bundle (scenario : Scenario) : MigrationMatrix :=
  let probs_as := softmax (bundle_utilities_from_ad_supported scenario) in
  let probs_af := softmax (bundle_utilities_from_ad_free scenario) in
  let probs_bundle := softmax (bundle_utilities_from_bundle scenario) in
  {| origins :=
       [ ("from_ad_supported",
          [ ("stay", at_ probs_as 0);
            ("to_ad_free", at_ probs_as 1);
            ("to_bundle", at_ probs_as 2);
            ("to_basic", 0.0);
            ("cancel", at_ probs_as 3) ]);
         ("from_ad_free",
          [ ("stay", at_ probs_af 0);
            ("to_bundle", at_ probs_af 1);
            ("to_ad_supported", at_ probs_af 2);
            ("to_basic", 0.0);
            ("cancel", at_ probs_af 3) ]);
         ("from_bundle",
          [ ("stay", at_ probs_bundle 0);
            ("to_ad_free", at_ probs_bundle 1);
            ("to_ad_supported", at_ probs_bundle 2);
            ("to_basic", 0.0);
            ("cancel", at_ probs_bundle 3) ]) ];
     tier_config := "3-tier-bundle" |}.

(** *** 3-tier basic model *)

Definition basic_utilities_from_basic (scenario : Scenario) : list R :=
  let has_promo_ := promo_flag scenario in
  let u_stay_basic := 0 in
  let u_basic_to_as :=
    n_intercept basic_to_ad_supp +
    n_content_need basic_to_ad_supp * 0.4 +
    n_tenure_months basic_to_ad_supp * avg_tenure in
  let u_basic_to_af :=
    n_intercept basic_to_ad_free +
    n_content_need basic_to_ad_free * 0.2 +
    n_tenure_months basic_to_ad_free * avg_tenure in
  let u_cancel_basic :=
    intercept cancel + 0.5 +
    has_promo cancel * has_promo_ +
    tenure_months cancel * avg_tenure in
  [u_stay_basic; u_basic_to_as; u_basic_to_af; u_cancel_basic].

Definition basic_utilities_from_ad_supported (scenario : Scenario) : list R :=
  let has_promo_ := promo_flag scenario in
  let u_stay_as := 0 in
  let u_as_to_af :=
    intercept upgrade +
    price_gap upgrade * 3.0 +
    has_promo upgrade * has_promo_ +
    tenure_months upgrade * avg_tenure in
  let u_as_to_basic :=
    s_intercept ad_supp_to_basic +
    s_price_sensitivity ad_supp_to_basic * 0.35 +
    s_content_satisfaction ad_supp_to_basic * 0.20 +
    s_tenure_months ad_supp_to_basic * avg_tenure in
  let u_cancel_as :=
    intercept cancel +
    has_promo cancel * has_promo_ +
    tenure_months cancel * avg_tenure in
  [u_stay_as; u_as_to_af; u_as_to_basic; u_cancel_as].

Definition basic_utilities_from_ad_free (scenario : Scenario) : list R :=
  let has_promo_ := promo_flag scenario in
  let u_stay_af := 0 in
  let u_af_to_as :=
    intercept downgrade +
    price_gap downgrade * 3.0 +
    has_promo downgrade * has_promo_ +
    tenure_months downgrade * avg_tenure in
  let u_af_to_basic :=
    p_intercept ad_free_to_basic +
    p_price_pressure ad_free_to_basic * 2.0 +
    p_tenure_months ad_free_to_basic * avg_tenure in
  let u_cancel_af :=
    intercept cancel - 0.3 +
    has_promo cancel * has_promo_ +
    tenure_months cancel * avg_tenure in
  [u_stay_af; u_af_to_as; u_af_to_basic; u_cancel_af].

Definition predict_3tier_basic (scenario : Scenario) : MigrationMatrix :=
  let probs_basic := softmax (basic_utilities_from_basic scenario) in
  let probs_as := softmax (basic_utilities_from_ad_supported scenario) in
  let probs_af := softmax (basic_utilities_from_ad_free scenario) in
  {| origins :=
       [ ("from_basic",
          [ ("stay", at_ probs_basic 0);
            ("to_ad_supported", at_ probs_basic 1);
            ("to_ad_free", at_ probs_basic 2);
            ("to_bundle", 0.0);
            ("cancel", at_ probs_basic 3) ]);
         ("from_ad_supported",
          [ ("stay", at_ probs_as 0);
            ("to_ad_free", at_ probs_as 1);
            ("to_basic", at_ probs_as 2);
            ("to_bundle", 0.0);
            ("cancel", at_ probs_as 3) ]);
         ("from_ad_free",
          [ ("stay", at_ probs_af 0);
            ("to_ad_supported", at_ probs_af 1);
            ("to_basic", at_ probs_af 2);
            ("to_bundle", 0.0);
            ("cancel", at_ probs_af 3) ]) ];
     tier_config := "3-tier-basic" |}.

(** *** 2-tier model *)

Definition tier_price_gap (scenario : Scenario) : R :=
  Py.get (ad_free_price scenario) 8.99 - Py.get (ad_supported_price scenario) 5.99.

Definition utilities_from_ad_supported (scenario : Scenario) : list R :=
  let price_gap_ := tier_price_gap scenario in
  let has_promo_ := promo_flag scenario in
  let u_stay_as := 0 in
  let u_upgrade :=
    intercept upgrade +
    price_gap upgrade * price_gap_ +
    has_promo upgrade * has_promo_ +
    tenure_months upgrade * avg_tenure in
  let u_cancel_as :=
    intercept cancel +
    price_gap cancel * price_gap_ +
    has_promo cancel * has_promo_ +
    tenure_months cancel * avg_tenure in
  [u_stay_as; u_upgrade; -999; u_cancel_as].

Definition utilities_from_ad_free (scenario : Scenario) : list R :=
  let price_gap_ := tier_price_gap scenario in
  let has_promo_ := promo_flag scenario in
  let u_stay_af := 0 in
  let u_downgrade :=
    intercept downgrade +
    price_gap downgrade * Rabs price_gap_ +
    has_promo downgrade * has_promo_ +
    tenure_months downgrade * avg_tenure in
  let u_cancel_af :=
    intercept cancel +
    price_gap cancel * Rabs price_gap_ +
    has_promo cancel * has_promo_ +
    tenure_months cancel * avg_tenure in
  [u_stay_af; -999; u_downgrade; u_cancel_af].

Definition predict_2tier (scenario : Scenario) : MigrationMatrix :=
  let probs_as := softmax (utilities_from_ad_supported scenario) in
  let probs_af := softmax (utilities_from_ad_free scenario) in
  {| origins :=
       [ ("from_ad_supported",
          [ ("stay", at_ probs_as 0);
            ("to_ad_free", at_ probs_as 1);
            ("to_bundle", 0.0);
            ("to_basic", 0.0);
            ("cancel", at_ probs_as 3) ]);
         ("from_ad_free",
          [ ("stay", at_ probs_af 0);
            ("to_ad_supported", at_ probs_af 2);
            ("to_bundle", 0.0);
            ("to_basic", 0.0);
            ("cancel", at_ probs_af 3) ]) ];
     tier_config := "2-tier" |}.

(** *** Main entry point *)

Definition predict_migration_matrix (scenario : Scenario) : MigrationMatrix :=
  let tier_config_ := detect_tier_config scenario in
  if String.eqb tier_config_ "3-tier-bundle" then predict_3tier_bundle scenario
  else if String.eqb tier_config_ "3-tier-basic" then predict_3tier_basic scenario
  else predict_2tier scenario.

End MigrationModel.

(** ** scripts/regenerate_data_option1.py *)

Module RegenerateData.

(** The five-bucket time-lag distribution of a profile (keys
    [0_4_weeks], [4_8_weeks], [8_12_weeks], [12_16_weeks], [16_20_weeks]). *)
Record TimeLag : Type := mkTimeLag {
  weeks_0_4 : R;
  weeks_4_8 : R;
  weeks_8_12 : R;
  weeks_12_16 : R;
  weeks_16_20 : R
}.

Definition buckets (d : TimeLag) : list R :=
  [weeks_0_4 d; weeks_4_8 d; weeks_8_12 d; weeks_12_16 d; weeks_16_20 d].

(** A behavioural archetype: the keys every entry of
    [ELASTICITY_PROFILES] has and the mixer reads. *)
Record Profile : Type := mkProfile {
  base_acquisition_elasticity : R;
  base_repeat_loss_elasticity : R;
  base_migration_upgrade : R;
  base_migration_downgrade : R;
  tenure_decay_rate : R;
  engagement_offset : R;
  price_history_habituation : R;
  repeat_loss_curve_type : string;
  migration_asymmetry_factor : R;
  time_lag_distribution : TimeLag
}.

Definition ultra_loyal : Profile :=
  {| base_acquisition_elasticity := (-0.65);
     base_repeat_loss_elasticity := 0.25;
     base_migration_upgrade := 1.4;
     base_migration_downgrade := 0.5;
     tenure_decay_rate := 0.08;
     engagement_offset := 0.4;
     price_history_habituation := 0.2;
     repeat_loss_curve_type := "delayed_ramp";
     migration_asymmetry_factor := 1.8;
     time_lag_distribution :=
       {| weeks_0_4 := 0.05; weeks_4_8 := 0.10;
          weeks_8_12 := 0.20; weeks_12_16 := 0.35;
          weeks_16_20 := 0.30 |} |}.

Definition value_conscious : Profile :=
  {| base_acquisition_elasticity := (-1.8);
     base_repeat_loss_elasticity := 0.9;
     base_migration_upgrade := 0.8;
     base_migration_downgrade := 1.3;
     tenure_decay_rate := 0.03;
     engagement_offset := 0.15;
     price_history_habituation := 0.05;
     repeat_loss_curve_type := "moderate";
     migration_asymmetry_factor := 2.2;
     time_lag_distribution :=
       {| weeks_0_4 := 0.15; weeks_4_8 := 0.25;
          weeks_8_12 := 0.30; weeks_12_16 := 0.20;
          weeks_16_20 := 0.10 |} |}.

Definition deal_hunter : Profile :=
  {| base_acquisition_elasticity := (-3.5);
     base_repeat_loss_elasticity := 1.6;
     base_migration_upgrade := 0.4;
     base_migration_downgrade := 2.0;
     tenure_decay_rate := 0.01;
     engagement_offset := 0.05;
     price_history_habituation := 0.0;
     repeat_loss_curve_type := "sharp_spike_plateau";
     migration_asymmetry_factor := 4.5;
     time_lag_distribution :=
       {| weeks_0_4 := 0.40; weeks_4_8 := 0.35;
          weeks_8_12 := 0.15; weeks_12_16 := 0.07;
          weeks_16_20 := 0.03 |} |}.

Definition content_driven : Profile :=
  {| base_acquisition_elasticity := (-1.2);
     base_repeat_loss_elasticity := 0.7;
     base_migration_upgrade := 1.1;
     base_migration_downgrade := 0.9;
     tenure_decay_rate := 0.05;
     engagement_offset := 0.25;
     price_history_habituation := 0.12;
     repeat_loss_curve_type := "conditional_spike";
     migration_asymmetry_factor := 2.0;
     time_lag_distribution :=
       {| weeks_0_4 := 0.12; weeks_4_8 := 0.22;
          weeks_8_12 := 0.30; weeks_12_16 := 0.25;
          weeks_16_20 := 0.11 |} |}.

Definition tier_flexible : Profile :=
  {| base_acquisition_elasticity := (-1.6);
     base_repeat_loss_elasticity := 0.85;
     base_migration_upgrade := 0.9;
     base_migration_downgrade := 2.7;
     tenure_decay_rate := 0.04;
     engagement_offset := 0.18;
     price_history_habituation := 0.08;
     repeat_loss_curve_type := "moderate";
     migration_asymmetry_factor := 3.8;
     time_lag_distribution :=
       {| weeks_0_4 := 0.18; weeks_4_8 := 0.28;
          weeks_8_12 := 0.28; weeks_12_16 := 0.18;
          weeks_16_20 := 0.08 |} |}.

Definition premium_seeker : Profile :=
  {| base_acquisition_elasticity := (-1.0);
     base_repeat_loss_elasticity := 0.4;
     base_migration_upgrade := 1.6;
     base_migration_downgrade := 0.4;
     tenure_decay_rate := 0.06;
     engagement_offset := 0.3;
     price_history_habituation := 0.15;
     repeat_loss_curve_type := "gentle_slope";
     migration_asymmetry_factor := 0.8;
     time_lag_distribution :=
       {| weeks_0_4 := 0.08; weeks_4_8 := 0.12;
          weeks_8_12 := 0.18; weeks_12_16 := 0.30;
          weeks_16_20 := 0.32 |} |}.

Definition at_risk : Profile :=
  {| base_acquisition_elasticity := (-2.0);
     base_repeat_loss_elasticity := 1.2;
     base_migration_upgrade := 0.5;
     base_migration_downgrade := 1.8;
     tenure_decay_rate := (-0.02);
     engagement_offset := 0.1;
     price_history_habituation := 0.03;
     repeat_loss_curve_type := "accelerating";
     migration_asymmetry_factor := 3.2;
     time_lag_distribution :=
       {| weeks_0_4 := 0.25; weeks_4_8 := 0.30;
          weeks_8_12 := 0.25; weeks_12_16 := 0.13;
          weeks_16_20 := 0.07 |} |}.

Definition ELASTICITY_PROFILES : Py.dict Profile :=
  [ ("ultra_loyal", ultra_loyal);
    ("value_conscious", value_conscious);
    ("deal_hunter", deal_hunter);
    ("content_driven", content_driven);
    ("tier_flexible", tier_flexible);
    ("premium_seeker", premium_seeker);
    ("at_risk", at_risk) ].

(** *** Segment-to-profile mapping *)

(** [weights[profile] += amount], for each pair in turn. *)
Definition add_all (increments : list (string * R)) (weights : Py.dict R)
  : Py.dict R :=
  fold_left (fun w '(profile, amount) => Py.update profile (fun x => x + amount) w)
            increments weights.

Definition initial_weights : Py.dict R :=
  [ ("ultra_loyal", 0.0);
    ("value_conscious", 0.0);
    ("deal_hunter", 0.0);
    ("content_driven", 0.0);
    ("tier_flexible", 0.0);
    ("premium_seeker", 0.0);
    ("at_risk", 0.0) ].

(** Acquisition axis mapping: the partial weights of an axis value. *)
Definition acquisition_axis (acquisition_segment : string) : list (string * R) :=
  if String.eqb acquisition_segment "habitual_streamers" then
    [("ultra_loyal", 0.6); ("content_driven", 0.2); ("value_conscious", 0.2)]
  else if String.eqb acquisition_segment "content_anchored_viewers" then
    [("content_driven", 0.6); ("ultra_loyal", 0.25); ("value_conscious", 0.15)]
  else if String.eqb acquisition_segment "at_risk_lapsers" then
    [("at_risk", 0.7); ("value_conscious", 0.2); ("tier_flexible", 0.1)]
  else if String.eqb acquisition_segment "promo_only_users" then
    [("deal_hunter", 0.7); ("value_conscious", 0.3)]
  else if String.eqb acquisition_segment "dormant_customers" then
    [("at_risk", 0.6); ("deal_hunter", 0.25); ("value_conscious", 0.15)]
  else [].

(** Engagement axis mapping. *)
Definition engagement_axis (engagement_segment : string) : list (string * R) :=
  if String.eqb engagement_segment "ad_value_seekers" then
    [("value_conscious", 0.5); ("deal_hunter", 0.3); ("tier_flexible", 0.2)]
  else if String.eqb engagement_segment "ad_tolerant_upgraders" then
    [("tier_flexible", 0.4); ("value_conscious", 0.3); ("premium_seeker", 0.3)]
  else if String.eqb engagement_segment "ad_free_loyalists" then
    [("premium_seeker", 0.6); ("ultra_loyal", 0.4)]
  else if String.eqb engagement_segment "price_triggered_downgraders" then
    [("tier_flexible", 0.5); ("deal_hunter", 0.3); ("at_risk", 0.2)]
  else if String.eqb engagement_segment "tvod_inclined_buyers" then
    [("content_driven", 0.5); ("premium_seeker", 0.3); ("value_conscious", 0.2)]
  else [].

(** Monetization axis mapping. *)
Definition monetization_axis (monetization_segment : string) : list (string * R) :=
  if String.eqb monetization_segment "platform_bundled_acquirers" then
    [("ultra_loyal", 0.4); ("value_conscious", 0.4); ("premium_seeker", 0.2)]
  else if String.eqb monetization_segment "tvod_to_svod_converters" then
    [("content_driven", 0.5); ("ultra_loyal", 0.3); ("premium_seeker", 0.2)]
  else if String.eqb monetization_segment "content_triggered_buyers" then
    [("content_driven", 0.6); ("value_conscious", 0.25); ("ultra_loyal", 0.15)]
  else if String.eqb monetization_segment "deal_responsive_acquirers" then
    [("deal_hunter", 0.6); ("value_conscious", 0.3); ("tier_flexible", 0.1)]
  else if String.eqb monetization_segment "value_perception_buyers" then
    [("value_conscious", 0.6); ("tier_flexible", 0.25); ("deal_hunter", 0.15)]
  else [].

(** The weights accumulated over the three axes, before normalization. *)
Definition accumulated_weights
    (acquisition_segment engagement_segment monetization_segment : string)
  : Py.dict R :=
  add_all (monetization_axis monetization_segment)
    (add_all (engagement_axis engagement_segment)
       (add_all (acquisition_axis acquisition_segment) initial_weights)).

(** Normalize weights to sum to 1.0, when the total is positive. *)
Definition normalize (weights : Py.dict R) : Py.dict R :=
  let total := Py.sum (Py.values weights) in
  if Py.gt total 0
  then map (fun '(profile, w) => (profile, w / total)) weights
  else weights.

Definition get_profile_weights
    (acquisition_segment engagement_segment monetization_segment : string)
  : Py.outcome (Py.dict R) :=
  Py.Returns
    (normalize
       (accumulated_weights acquisition_segment engagement_segment
          monetization_segment)).

(** *** Profile mixing *)

Record AcquisitionAxis : Type := mkAcquisitionAxis {
  aa_elasticity : R;
  aa_tenure_decay_rate : R;
  aa_engagement_offset : R;
  aa_price_history_habituation : R
}.

Record RepeatLossAxis : Type := mkRepeatLossAxis {
  rl_elasticity : R;
  rl_repeat_loss_curve_type : string;
  rl_time_lag_distribution : TimeLag
}.

Record MigrationAxis : Type := mkMigrationAxis {
  upgrade_willingness : R;
  downgrade_propensity : R;
  asymmetry_factor : R
}.

Record SegmentElasticity : Type := mkSegmentElasticity {
  acquisition_axis_of : AcquisitionAxis;
  repeat_loss_axis_of : RepeatLossAxis;
  migration_axis_of : MigrationAxis;
  profile_weights_of : Py.dict R
}.

(** [ELASTICITY_PROFILES[profile]] *)
Definition profile_item (profile : string) : Py.outcome Profile :=
  Py.item profile (Py.lookup profile ELASTICITY_PROFILES).

(** The items of [profile_weights] with their catalog entries; the first
    key that is not in the catalog raises [KeyError]. *)
Definition resolve (profile_weights : Py.dict R)
  : Py.outcome (list (Profile * R)) :=
  Py.for_each
    (fun '(profile, weight) =>
       p <- profile_item profile ;; Py.Returns (p, weight))
    profile_weights.

(** [sum(ELASTICITY_PROFILES[profile][field] * weight for ...)] *)
Definition mix (field : Profile -> R) (items : list (Profile * R)) : R :=
  Py.sum (map (fun '(p, weight) => field p * weight) items).

Definition zero_time_lag : TimeLag :=
  {| weeks_0_4 := 0.0; weeks_4_8 := 0.0; weeks_8_12 := 0.0;
     weeks_12_16 := 0.0; weeks_16_20 := 0.0 |}.

(** One turn of the loop over profiles:
    [time_lag_distribution[period] += profile_dist[period] * weight]
    for every period. *)
Definition add_time_lag (acc : TimeLag) (item : Profile * R) : TimeLag :=
  let '(p, weight) := item in
  let profile_dist := time_lag_distribution p in
  {| weeks_0_4 := weeks_0_4 acc + weeks_0_4 profile_dist * weight;
     weeks_4_8 := weeks_4_8 acc + weeks_4_8 profile_dist * weight;
     weeks_8_12 := weeks_8_12 acc + weeks_8_12 profile_dist * weight;
     weeks_12_16 := weeks_12_16 acc + weeks_12_16 profile_dist * weight;
     weeks_16_20 := weeks_16_20 acc + weeks_16_20 profile_dist * weight |}.

Definition mix_time_lag (items : list (Profile * R)) : TimeLag :=
  fold_left add_time_lag items zero_time_lag.

(** [max(d.items(), key=lambda x: x[1])]: the first item of largest
    value; [ValueError] on an empty dictionary. *)
Definition max_item (d : Py.dict R) : Py.outcome (string * R) :=
  match d with
  | [] => Py.Raises (Py.ValueError "max() arg is an empty sequence")
  | first :: rest =>
      Py.Returns
        (fold_left (fun best it => if Py.gt (snd it) (snd best) then it else best)
                   rest first)
  end.

(** [noise] is the draw of [random.uniform(-0.05, 0.05)]. *)
Definition calculate_segment_elasticity (noise : R) (profile_weights : Py.dict R)
  : Py.outcome SegmentElasticity :=
  items <- resolve profile_weights ;;
  let acquisition_elasticity := mix base_acquisition_elasticity items in
  let repeat_loss_elasticity := mix base_repeat_loss_elasticity items in
  let upgrade_willingness_ := mix base_migration_upgrade items in
  let downgrade_propensity_ := mix base_migration_downgrade items in
  let tenure_decay_rate_ := mix tenure_decay_rate items in
  let engagement_offset_ := mix engagement_offset items in
  let price_history_habituation_ := mix price_history_habituation items in
  let asymmetry_factor_ := mix migration_asymmetry_factor items in
  let time_lag := mix_time_lag items in
  dominant <- max_item profile_weights ;;
  dominant_profile <- profile_item (fst dominant) ;;
  Py.Returns
    {| acquisition_axis_of :=
         {| aa_elasticity := acquisition_elasticity * (1 + noise);
            aa_tenure_decay_rate := tenure_decay_rate_;
            aa_engagement_offset := engagement_offset_;
            aa_price_history_habituation := price_history_habituation_ |};
       repeat_loss_axis_of :=
         {| rl_elasticity := repeat_loss_elasticity * (1 + noise);
            rl_repeat_loss_curve_type := repeat_loss_curve_type dominant_profile;
            rl_time_lag_distribution := time_lag |};
       migration_axis_of :=
         {| upgrade_willingness := upgrade_willingness_;
            downgrade_propensity := downgrade_propensity_;
            asymmetry_factor := asymmetry_factor_ |};
       profile_weights_of := profile_weights |}.

(** *** Generation of the segment elasticity data *)

Definition acquisition_segments : list string :=
  [ "habitual_streamers";
    "content_anchored_viewers";
    "at_risk_lapsers";
    "promo_only_users";
    "dormant_customers" ].

Definition engagement_segments : list string :=
  [ "ad_value_seekers";
    "ad_tolerant_upgraders";
    "ad_free_loyalists";
    "price_triggered_downgraders";
    "tvod_inclined_buyers" ].

Definition monetization_segments : list string :=
  [ "platform_bundled_acquirers";
    "tvod_to_svod_converters";
    "content_triggered_buyers";
    "deal_responsive_acquirers";
    "value_perception_buyers" ].

Definition tiers : list string := ["ad_supported"; "ad_free"].

(** The three nested loops, as the list of their iterations in order. *)
Definition segment_combinations : list (string * string * string) :=
  flat_map (fun acq =>
    flat_map (fun eng =>
      map (fun mon => (acq, eng, mon)) monetization_segments)
      engagement_segments)
    acquisition_segments.

(** [f"{acq}|{eng}|{mon}"] *)
Definition composite_key (combination : string * string * string) : string :=
  let '(acq, eng, mon) := combination in
  (acq ++ "|" ++ eng ++ "|" ++ mon)%string.

(** Adjust for tier (ad_free is generally less elastic). *)
Definition adjust_for_tier (tier_ : string) (segment_data : SegmentElasticity)
  : SegmentElasticity :=
  if String.eqb tier_ "ad_free" then
    let a := acquisition_axis_of segment_data in
    let r := repeat_loss_axis_of segment_data in
    {| acquisition_axis_of :=
         {| aa_elasticity := aa_elasticity a * 0.75;
            aa_tenure_decay_rate := aa_tenure_decay_rate a;
            aa_engagement_offset := aa_engagement_offset a;
            aa_price_history_habituation := aa_price_history_habituation a |};
       repeat_loss_axis_of :=
         {| rl_elasticity := rl_elasticity r * 0.70;
            rl_repeat_loss_curve_type := rl_repeat_loss_curve_type r;
            rl_time_lag_distribution := rl_time_lag_distribution r |};
       migration_axis_of := migration_axis_of segment_data;
       profile_weights_of := profile_weights_of segment_data |}
  else segment_data.

(** The body of the innermost loop.  [draw] is the random source: its
    argument counts the calls of [random.uniform] made so far. *)
Definition generate_segment (draw : nat -> R) (tier_ : string) (calls : nat)
    (combination : string * string * string)
  : Py.outcome (string * SegmentElasticity) :=
  let '(acq, eng, mon) := combination in
  profile_weights <- get_profile_weights acq eng mon ;;
  segment_data <- calculate_segment_elasticity (draw calls) profile_weights ;;
  Py.Returns (composite_key combination, adjust_for_tier tier_ segment_data).

(** The loops of one tier: the dictionary [output[tier]["segment_elasticity"]]
    and the number of draws made. *)
Fixpoint generate_segments (draw : nat -> R) (tier_ : string) (calls : nat)
    (combinations : list (string * string * string))
    (segment_elasticity_ : Py.dict SegmentElasticity)
  : Py.outcome (Py.dict SegmentElasticity * nat) :=
  match combinations with
  | [] => Py.Returns (segment_elasticity_, calls)
  | combination :: rest =>
      entry <- generate_segment draw tier_ calls combination ;;
      generate_segments draw tier_ (S calls) rest
        (Py.setitem (fst entry) (snd entry) segment_elasticity_)
  end.

(** The loop over the tiers. *)
Fixpoint generate_tiers (draw : nat -> R) (calls : nat) (tiers_ : list string)
    (output : Py.dict (Py.dict SegmentElasticity))
  : Py.outcome (Py.dict (Py.dict SegmentElasticity)) :=
  match tiers_ with
  | [] => Py.Returns output
  | tier_ :: rest =>
      generated <- generate_segments draw tier_ calls segment_combinations [] ;;
      generate_tiers draw (snd generated) rest
        (Py.setitem tier_ (fst generated) output)
  end.

(** Generate segment_elasticity.json with profile-mixed elasticities; the
    result maps a tier to its [segment_elasticity] dictionary. *)
Definition generate_segment_elasticity_json (draw : nat -> R)
  : Py.outcome (Py.dict (Py.dict SegmentElasticity)) :=
  generate_tiers draw 0 tiers [].

End RegenerateData.

(** ** scripts/validate_migration_crossover.py *)

Module ValidateMigrationCrossover.

(** [math.exp(x)]: raises OverflowError when the result is beyond the
    binary64 range (an underflow gives 0.0 and does not raise). *)
Definition math_exp (x : R) : Py.outcome R :=
  if Rle_dec Binary64.overflow_threshold (exp x) then Py.Raises Py.OverflowError
  else Py.Returns (exp x).

(** [x ** 2] on a float: raises OverflowError when the result is beyond
    the binary64 range. *)
Definition square (x : R) : Py.outcome R :=
  if Rle_dec Binary64.overflow_threshold (x ^ 2) then Py.Raises Py.OverflowError
  else Py.Returns (x ^ 2).

(** Calculate upgrade and downgrade rates: [(upgrade_pct, downgrade_pct)]. *)
Definition calculate_migration_rates (price_gap : R) : Py.outcome (R * R) :=
  let upgrade_max := 10.0 in
  let upgrade_k := -0.75 in
  let upgrade_midpoint := 2.5 in
  e_upgrade <- math_exp (upgrade_k * (price_gap - upgrade_midpoint)) ;;
  let upgrade_pct := upgrade_max / (1 + e_upgrade) in
  let downgrade_base := 0.8 in
  let downgrade_threshold := 4.5 in
  downgrade_pct <-
    (if Py.lt price_gap downgrade_threshold
     then
       ratio_squared <- square (price_gap / downgrade_threshold) ;;
       Py.Returns (downgrade_base + 3.5 * ratio_squared)
     else
       e_downgrade <- math_exp (0.35 * (price_gap - downgrade_threshold)) ;;
       Py.Returns (downgrade_base + 3.5 + 4.0 * e_downgrade)) ;;
  Py.Returns (upgrade_pct, downgrade_pct).

(** The status of a price gap in the validation table. *)
Inductive status : Type := Equilibrium | NetUpgrade | NetDowngrade.

(** The body of the loop over the gaps, up to the status. *)
Definition flow_status (gap : R) : Py.outcome status :=
  rates <- calculate_migration_rates gap ;;
  let '(upgrade_, downgrade_) := rates in
  let net_flow := upgrade_ - downgrade_ in
  if Py.lt (Rabs net_flow) 0.5 then Py.Returns Equilibrium
  else if Py.gt net_flow 0 then Py.Returns NetUpgrade
  else Py.Returns NetDowngrade.

End ValidateMigrationCrossover.

(** ** Vocabulary of the properties *)

(** *** Certified bounds on [exp]

    Fixed-point numbers with denominator [D]: a number [n] stands for
    [n / D].  Squaring rounds down in [sq_down] and up in [sq_up]. *)

Module ExpBounds.
Definition sq_down (D n : Z) : Z := (n * n / D)%Z.

Definition sq_up (D n : Z) : Z := (n * n / D + 1)%Z.

Fixpoint iter (f : Z -> Z) (k : nat) (n : Z) : Z :=
  match k with
  | O => n
  | S k' => iter f k' (f n)
  end.
End ExpBounds.

(** *** Migration *)


(** The array [exp_x] of [softmax]. *)
Definition exps (x : list R) : list R :=
  map (fun v => exp (v - MigrationModel.np_max x)) x.

(** Tier-configuration detection in the words of the specification, over
    a tier label and a price. *)
Definition bundle_condition (label : string) (price_ : R) : Prop :=
  label = "bundle" \/ 13.99 <= price_ <= 15.99.

Definition basic_condition (label : string) (price_ : R) : Prop :=
  label = "basic" \/ 1.99 <= price_ <= 3.99.

(** The label and the price the detection works with: the lower-cased
    [tier] entry (["ad_supported"] when absent) and the [new_price] entry
    (0 when absent). *)
Definition tier_label (scenario : Scenario) : string :=
  Py.lower (Py.get (tier scenario) "ad_supported").

Definition tier_price (scenario : Scenario) : R :=
  Py.get (new_price scenario) 0.

(** *** Profile weights *)

Definition total (weights : Py.dict R) : R := Py.sum (Py.values weights).

Definition nonneg (weights : Py.dict R) : Prop :=
  Forall (fun w => 0 <= w) (Py.values weights).

(** Increments that name keys of the dictionary, by non-negative amounts. *)
Definition increments_for (d : Py.dict R) (incs : list (string * R)) : Prop :=
  Forall (fun '(profile, amount) => In profile (Py.keys d) /\ 0 <= amount) incs.

Definition archetypes : list string := Py.keys RegenerateData.initial_weights.

(** An entry of an axis table: increments on archetypes, by positive
    amounts that add up to 1. *)
Definition axis_entry (incs : list (string * R)) : Prop :=
  Forall (fun '(profile, amount) => In profile archetypes /\ 0 < amount) incs /\
  Py.sum (map snd incs) = 1.

(** The partial weights the three axis values of a segment contribute. *)
Definition contributions (a e m : string) : list (string * R) :=
  RegenerateData.acquisition_axis a ++ RegenerateData.engagement_axis e
    ++ RegenerateData.monetization_axis m.

Definition valid_distribution (d : RegenerateData.TimeLag) : Prop :=
  Forall (fun b => 0 <= b) (RegenerateData.buckets d) /\
  Py.sum (RegenerateData.buckets d) = 1.

(** A weight mapping over archetype names, with non-negative weights. *)
Definition profile_weights_ok (profile_weights : Py.dict R) : Prop :=
  Forall (fun '(profile, weight) =>
            In profile (Py.keys RegenerateData.ELASTICITY_PROFILES) /\ 0 <= weight)
         profile_weights.

(** *** Optional keys *)

(** Setting one key of a scenario or of a segment ([None]: the key is
    absent). *)
Definition set_new_price (v : option R) (s : Scenario) : Scenario :=
  {| new_price := v;
     promotion := promotion s;
     segment_elasticity := segment_elasticity s;
     tier := tier s;
     ad_supported_price := ad_supported_price s;
     ad_free_price := ad_free_price s;
     price_change_pct := price_change_pct s;
     baseline_repeat_loss := baseline_repeat_loss s |}.

Definition set_segment_elasticity (v : option R) (s : Scenario) : Scenario :=
  {| new_price := new_price s;
     promotion := promotion s;
     segment_elasticity := v;
     tier := tier s;
     ad_supported_price := ad_supported_price s;
     ad_free_price := ad_free_price s;
     price_change_pct := price_change_pct s;
     baseline_repeat_loss := baseline_repeat_loss s |}.

Definition set_baseline_repeat_loss (v : option R) (s : Scenario) : Scenario :=
  {| new_price := new_price s;
     promotion := promotion s;
     segment_elasticity := segment_elasticity s;
     tier := tier s;
     ad_supported_price := ad_supported_price s;
     ad_free_price := ad_free_price s;
     price_change_pct := price_change_pct s;
     baseline_repeat_loss := v |}.

Definition set_elasticity (v : option R) (g : Segment) : Segment :=
  {| seg_name := seg_name g; seg_size := seg_size g; seg_elasticity := v |}.

(** The first per-horizon value of the first segment result. *)
Definition first_horizon_value
    (out : Py.outcome (list ChurnModel.SegmentRepeatLoss)) : R :=
  match out with
  | Py.Returns (r :: _) =>
      match ChurnModel.sr_by_horizon r with
      | (_, v) :: _ => v
      | [] => 0
      end
  | _ => 0
  end.

(** *** Concrete inputs *)

Module Examples.
(** [{new_price: 8.99, segment_elasticity: -1.8}], no promotion. *)
Definition acquisition_scenario : Scenario :=
  {| new_price := Some 8.99; promotion := None;
     segment_elasticity := Some (-1.8);
     tier := None; ad_supported_price := None; ad_free_price := None;
     price_change_pct := None; baseline_repeat_loss := None |}.

(** [{price_change_pct: 16, baseline_repeat_loss: 0.05}] *)
Definition price_rise_scenario : Scenario :=
  {| new_price := None; promotion := None; segment_elasticity := None;
     tier := None; ad_supported_price := None; ad_free_price := None;
     price_change_pct := Some 16; baseline_repeat_loss := Some 0.05 |}.

(** [{ad_supported_price: 5.99, ad_free_price: 8.99}], no promotion. *)
Definition two_tier_scenario : Scenario :=
  {| new_price := None; promotion := None; segment_elasticity := None;
     tier := None; ad_supported_price := Some 5.99; ad_free_price := Some 8.99;
     price_change_pct := None; baseline_repeat_loss := None |}.

(** [{tier: 'BUNDLE', new_price: 8.99}] *)
Definition uppercase_bundle_scenario : Scenario :=
  {| new_price := Some 8.99; promotion := None; segment_elasticity := None;
     tier := Some "BUNDLE"; ad_supported_price := None; ad_free_price := None;
     price_change_pct := None; baseline_repeat_loss := None |}.

(** A scenario with the given [tier] entry and the price [p]. *)
Definition priced (tier_ : option string) (p : R) : Scenario :=
  {| new_price := Some p; promotion := None; segment_elasticity := None;
     tier := tier_; ad_supported_price := None; ad_free_price := None;
     price_change_pct := None; baseline_repeat_loss := None |}.

(** [{name: 'habitual_streamers', size: 12000}], no elasticity. *)
Definition segment_without_elasticity : Segment :=
  {| seg_name := Some "habitual_streamers"; seg_size := Some 12000%Z;
     seg_elasticity := None |}.

End Examples.

(** *** Vocabulary of the further properties *)

Definition set_promotion (v : option Promotion) (s : Scenario) : Scenario :=
  {| new_price := new_price s;
     promotion := v;
     segment_elasticity := segment_elasticity s;
     tier := tier s;
     ad_supported_price := ad_supported_price s;
     ad_free_price := ad_free_price s;
     price_change_pct := price_change_pct s;
     baseline_repeat_loss := baseline_repeat_loss s |}.


Module MoreExamples.
Definition spring_promotion : Promotion :=
  {| discount_pct := Some 20; other_keys := ["code"] |}.
Definition empty_promotion : Promotion :=
  {| discount_pct := None; other_keys := [] |}.
End MoreExamples.



(** The first key [predict_repeat_loss_by_segment] reads from a segment
    and does not find. *)
Definition repeat_loss_missing_key (g : Segment) : option string :=
  match seg_name g, seg_size g with
  | None, _ => Some "name"
  | Some _, None => Some "size"
  | Some _, Some _ => None
  end.

Definition set_price_change_pct (v : option R) (s : Scenario) : Scenario :=
  {| new_price := new_price s;
     promotion := promotion s;
     segment_elasticity := segment_elasticity s;
     tier := tier s;
     ad_supported_price := ad_supported_price s;
     ad_free_price := ad_free_price s;
     price_change_pct := v;
     baseline_repeat_loss := baseline_repeat_loss s |}.

(** The repeat-loss rate of a horizon, 0 for a name that is no horizon. *)
Definition rate_at (horizon : string) (by_horizon : Py.dict ChurnModel.HorizonResult) : R :=
  match Py.lookup horizon by_horizon with
  | Some r => ChurnModel.repeat_loss_rate r
  | None => 0
  end.

Definition set_ad_free_price (v : option R) (s : Scenario) : Scenario :=
  {| new_price := new_price s;
     promotion := promotion s;
     segment_elasticity := segment_elasticity s;
     tier := tier s;
     ad_supported_price := ad_supported_price s;
     ad_free_price := v;
     price_change_pct := price_change_pct s;
     baseline_repeat_loss := baseline_repeat_loss s |}.

(** The probability of a destination from an origin tier, 0 when the
    matrix has no such entry. *)
Definition probability (origin destination : string)
    (matrix : MigrationModel.MigrationMatrix) : R :=
  match Py.lookup origin (MigrationModel.origins matrix) with
  | Some dests => Py.get (Py.lookup destination dests) 0
  | None => 0
  end.

(** The origin tiers of a tier configuration. *)
Definition origins_of (config : string) : list string :=
  if String.eqb config "3-tier-bundle"
  then ["from_ad_supported"; "from_ad_free"; "from_bundle"]
  else if String.eqb config "3-tier-basic"
  then ["from_basic"; "from_ad_supported"; "from_ad_free"]
  else ["from_ad_supported"; "from_ad_free"].

(** The scalar parameters of every archetype of the catalog lie in these
    ranges. *)
Definition profile_in_range (p : RegenerateData.Profile) : Prop :=
  -3.5 <= RegenerateData.base_acquisition_elasticity p <= -0.65 /\
  0.25 <= RegenerateData.base_repeat_loss_elasticity p <= 1.6 /\
  0.4 <= RegenerateData.base_migration_upgrade p <= 1.6 /\
  0.4 <= RegenerateData.base_migration_downgrade p <= 2.7 /\
  0.8 <= RegenerateData.migration_asymmetry_factor p <= 4.5.

(** The blended scalars of a result lie in the ranges of the catalog, the
    two elasticities widened by the noise of at most 5%. *)
Definition elasticity_in_range (r : RegenerateData.SegmentElasticity) : Prop :=
  let a := RegenerateData.acquisition_axis_of r in
  let l := RegenerateData.repeat_loss_axis_of r in
  let m := RegenerateData.migration_axis_of r in
  -3.675 <= RegenerateData.aa_elasticity a <= -0.6175 /\
  0.2375 <= RegenerateData.rl_elasticity l <= 1.68 /\
  0.4 <= RegenerateData.upgrade_willingness m <= 1.6 /\
  0.4 <= RegenerateData.downgrade_propensity m <= 2.7 /\
  0.8 <= RegenerateData.asymmetry_factor m <= 4.5.

(** The fold of [max] over the items after the first. *)
Definition best (rest : Py.dict R) (first : string * R) : string * R :=
  fold_left (fun best it => if Py.gt (snd it) (snd best) then it else best)
            rest first.

Fixpoint distinct (l : list string) : bool :=
  match l with
  | [] => true
  | x :: rest => negb (existsb (String.eqb x) rest) && distinct rest
  end.

(** What holds of every generated segment when the draws are within 5%:
    a negative acquisition elasticity not below -3.675, a positive
    repeat-loss elasticity not above 1.68, and a time-lag distribution. *)
Definition generated_segment_ok (data : RegenerateData.SegmentElasticity) : Prop :=
  -3.675 <= RegenerateData.aa_elasticity (RegenerateData.acquisition_axis_of data) < 0 /\
  0 < RegenerateData.rl_elasticity (RegenerateData.repeat_loss_axis_of data) <= 1.68 /\
  valid_distribution (RegenerateData.rl_time_lag_distribution (RegenerateData.repeat_loss_axis_of data)).

(** The two rates as curves over the real numbers: what
    [calculate_migration_rates] returns where it does not raise. *)
Definition upgrade_pct (gap : R) : R := 10 / (1 + exp (-0.75 * (gap - 2.5))).

Definition downgrade_pct (gap : R) : R :=
  if Py.lt gap 4.5 then 0.8 + 3.5 * (gap / 4.5) ^ 2
  else 0.8 + 3.5 + 4.0 * exp (0.35 * (gap - 4.5)).

(** * Properties *)

(** ** The Python runtime *)

Example lower_example : Py.lower "Bundle" = "bundle".
Proof. reflexivity. Qed.

Example horizon_key_example :
  map ChurnModel.horizon_key (Py.keys ChurnModel.horizons)
  = ["0_4_weeks"; "4_8_weeks"; "8_12_weeks"; "12plus_weeks"].
Proof. reflexivity. Qed.

Lemma gt_true_iff x y : Py.gt x y = true <-> y < x.
Proof.
  unfold Py.gt. destruct (Rlt_dec y x); split; intros; try discriminate; tauto.
Qed.

Lemma ge_true_iff x y : Py.ge x y = true <-> y <= x.
Proof.
  unfold Py.ge. destruct (Rle_dec y x); split; intros; try discriminate; tauto.
Qed.

Lemma le_true_iff x y : Py.le x y = true <-> x <= y.
Proof.
  unfold Py.le. destruct (Rle_dec x y); split; intros; try discriminate; tauto.
Qed.

Lemma fold_left_Rplus_acc xs a : fold_left Rplus xs a = a + fold_left Rplus xs 0.
Proof.
  revert a. induction xs as [|x xs IH]; intros a; cbn [fold_left].
  - ring.
  - rewrite IH. rewrite (IH (0 + x)). ring.
Qed.

Lemma sum_nil : Py.sum [] = 0.
Proof. reflexivity. Qed.

Lemma sum_cons x xs : Py.sum (x :: xs) = x + Py.sum xs.
Proof.
  unfold Py.sum. cbn [fold_left]. rewrite fold_left_Rplus_acc. ring.
Qed.

Lemma sum_map_div (c : R) xs : Py.sum (map (fun e => e / c) xs) = Py.sum xs / c.
Proof.
  induction xs as [|x xs IH]; cbn [map].
  - rewrite sum_nil. unfold Rdiv. ring.
  - rewrite !sum_cons, IH. unfold Rdiv. ring.
Qed.

Lemma sum_nonneg xs : Forall (fun v => 0 <= v) xs -> 0 <= Py.sum xs.
Proof.
  induction 1 as [|x xs Hx _ IH].
  - rewrite sum_nil. lra.
  - rewrite sum_cons. lra.
Qed.

Lemma sum_ge_member xs v : Forall (fun v => 0 <= v) xs -> In v xs -> v <= Py.sum xs.
Proof.
  induction 1 as [|x xs Hx Hxs IH]; intros Hin.
  - destruct Hin.
  - rewrite sum_cons. pose proof (sum_nonneg xs Hxs).
    destruct Hin as [-> | Hin]; [lra | specialize (IH Hin); lra].
Qed.

Section Dictionaries.
Context {V : Type}.

Lemma keys_update key (f : V -> V) d : Py.keys (Py.update key f d) = Py.keys d.
Proof.
  induction d as [|[k v] d IH]; [reflexivity|].
  cbn [Py.update]. destruct (String.eqb k key); cbn; [reflexivity|].
  unfold Py.keys in IH. now rewrite IH.
Qed.

Lemma lookup_in_values key (d : Py.dict V) v :
  Py.lookup key d = Some v -> In v (Py.values d).
Proof.
  unfold Py.values. induction d as [|[k u] d IH]; cbn [Py.lookup]; [discriminate|].
  destruct (String.eqb k key); intros H.
  - injection H as <-. now left.
  - right. now apply IH.
Qed.

Lemma lookup_key key (d : Py.dict V) :
  In key (Py.keys d) -> exists v, Py.lookup key d = Some v.
Proof.
  unfold Py.keys. induction d as [|[k u] d IH]; intros Hin; [destruct Hin|].
  cbn [Py.lookup]. destruct (String.eqb_spec k key) as [-> | Hne].
  - now exists u.
  - destruct Hin as [Heq | Hin]; [contradiction | now apply IH].
Qed.
End Dictionaries.

Lemma for_each_replace {A B} (f : A -> Py.outcome B) x y before after :
  f x = f y ->
  Py.for_each f (before ++ x :: after) = Py.for_each f (before ++ y :: after).
Proof.
  intros H. induction before as [|b before IH]; cbn [app Py.for_each].
  - now rewrite H.
  - now rewrite IH.
Qed.

(** ** Bounds on [exp] *)

Import ExpBounds.

Lemma exp_le_compat x y : x <= y -> exp x <= exp y.
Proof.
  intros [Hlt | ->]; [left; now apply exp_increasing | right; reflexivity].
Qed.

Lemma exp_double y : exp (2 * y) = exp y * exp y.
Proof. replace (2 * y) with (y + y) by ring. apply exp_plus. Qed.

Lemma sq_down_nonneg D n : (0 < D)%Z -> (0 <= sq_down D n)%Z.
Proof.
  intros HD. unfold sq_down. apply Z.div_pos; [nia | assumption].
Qed.

Lemma sq_down_le D n : (0 < D)%Z -> IZR (sq_down D n) * IZR D <= IZR n * IZR n.
Proof.
  intros HD. unfold sq_down. rewrite <- !mult_IZR. apply IZR_le.
  rewrite Z.mul_comm. apply Z.mul_div_le. assumption.
Qed.

Lemma sq_up_ge D n : (0 < D)%Z -> IZR n * IZR n <= IZR (sq_up D n) * IZR D.
Proof.
  intros HD. unfold sq_up. rewrite <- !mult_IZR. apply IZR_le.
  pose proof (Z.mul_succ_div_gt (n * n) D HD). lia.
Qed.

(** Squaring [k] times, rounding down: from a lower bound of [exp y] to
    a lower bound of [exp (2^k * y)]. *)
Lemma iter_sq_down_le D k : (0 < D)%Z ->
  forall n y, (0 <= n)%Z -> IZR n / IZR D <= exp y ->
  IZR (iter (sq_down D) k n) / IZR D <= exp (2 ^ k * y).
Proof.
  intros HD. assert (HDr : 0 < IZR D) by (apply IZR_lt; assumption).
  induction k as [|k IH]; intros n y Hn Hle; cbn [iter pow].
  - now rewrite Rmult_1_l.
  - replace (2 * 2 ^ k * y) with (2 ^ k * (2 * y)) by ring.
    apply IH; [now apply sq_down_nonneg|].
    rewrite exp_double.
    pose proof (sq_down_le D n HD) as Hsq.
    assert (Hn' : 0 <= IZR n / IZR D).
    { apply Rmult_le_pos; [now apply IZR_le | left; now apply Rinv_0_lt_compat]. }
    apply Rle_trans with (IZR n / IZR D * (IZR n / IZR D)).
    + replace (IZR (sq_down D n) / IZR D)
        with (IZR (sq_down D n) * IZR D * (/ IZR D * / IZR D)) by (field; lra).
      replace (IZR n / IZR D * (IZR n / IZR D))
        with (IZR n * IZR n * (/ IZR D * / IZR D)) by (field; lra).
      apply Rmult_le_compat_r; [|assumption].
      apply Rlt_le, Rmult_lt_0_compat; now apply Rinv_0_lt_compat.
    + apply Rmult_le_compat; assumption.
Qed.

Lemma iter_sq_up_ge D k : (0 < D)%Z ->
  forall n y, exp y <= IZR n / IZR D ->
  exp (2 ^ k * y) <= IZR (iter (sq_up D) k n) / IZR D.
Proof.
  intros HD. assert (HDr : 0 < IZR D) by (apply IZR_lt; assumption).
  induction k as [|k IH]; intros n y Hle; cbn [iter pow].
  - now rewrite Rmult_1_l.
  - replace (2 * 2 ^ k * y) with (2 ^ k * (2 * y)) by ring.
    apply IH. rewrite exp_double.
    pose proof (sq_up_ge D n HD) as Hsq.
    pose proof (exp_pos y) as Hy.
    apply Rle_trans with (IZR n / IZR D * (IZR n / IZR D)).
    + apply Rmult_le_compat; lra.
    + replace (IZR (sq_up D n) / IZR D)
        with (IZR (sq_up D n) * IZR D * (/ IZR D * / IZR D)) by (field; lra).
      replace (IZR n / IZR D * (IZR n / IZR D))
        with (IZR n * IZR n * (/ IZR D * / IZR D)) by (field; lra).
      apply Rmult_le_compat_r; [|assumption].
      apply Rlt_le, Rmult_lt_0_compat; now apply Rinv_0_lt_compat.
Qed.

(** [exp x >= (1 + x / 2^k) ^ (2^k)], computed with rounding down. *)
Lemma exp_lower_bound D k n x c : (0 < D)%Z -> (0 <= n)%Z ->
  IZR n / IZR D <= 1 + x / 2 ^ k ->
  c <= IZR (iter (sq_down D) k n) / IZR D ->
  c <= exp x.
Proof.
  intros HD Hn Hbase Hc.
  assert (H2 : 2 ^ k <> 0) by (apply pow_nonzero; lra).
  replace x with (2 ^ k * (x / 2 ^ k)) by (field; assumption).
  eapply Rle_trans; [exact Hc|].
  apply iter_sq_down_le; try assumption.
  eapply Rle_trans; [exact Hbase|]. apply exp_ineq1_le.
Qed.

(** [exp x <= (1 - x / 2^k) ^ -(2^k)], computed with rounding up. *)
Lemma exp_upper_bound D k n x c : (0 < D)%Z ->
  x / 2 ^ k < 1 ->
  / (1 - x / 2 ^ k) <= IZR n / IZR D ->
  IZR (iter (sq_up D) k n) / IZR D <= c ->
  exp x <= c.
Proof.
  intros HD Hlt Hbase Hc.
  assert (H2 : 2 ^ k <> 0) by (apply pow_nonzero; lra).
  replace x with (2 ^ k * (x / 2 ^ k)) at 1 by (field; assumption).
  eapply Rle_trans; [|exact Hc].
  apply iter_sq_up_ge; try assumption.
  eapply Rle_trans; [|exact Hbase].
  set (y := x / 2 ^ k) in *.
  pose proof (exp_ineq1_le (- y)) as H1.
  rewrite exp_Ropp in H1.
  pose proof (exp_pos y) as Hy.
  assert (H3 : (1 - y) * exp y <= 1).
  { apply Rmult_le_reg_r with (/ exp y); [now apply Rinv_0_lt_compat|].
    rewrite Rmult_assoc, Rinv_r by lra. lra. }
  apply Rmult_le_reg_l with (1 - y); [lra|].
  rewrite Rinv_r by lra. lra.
Qed.

Ltac exp_lower D k n :=
  apply (exp_lower_bound D k n); [lia | lia | lra | ];
  let v := eval vm_compute in (iter (sq_down D) k n) in
  change (iter (sq_down D) k n) with v; lra.

Ltac exp_upper D k n :=
  apply (exp_upper_bound D k n); [lia | lra | lra | ];
  let v := eval vm_compute in (iter (sq_up D) k n) in
  change (iter (sq_up D) k n) with v; lra.

Lemma exp_4_4685_bounds : 87.0 <= exp 4.4685 <= 87.5.
Proof.
  split.
  - exp_lower 1000000000000%Z 12%nat 1001090942382%Z.
  - exp_upper 1000000000000%Z 12%nat 1001092133839%Z.
Qed.

Lemma exp_1_62_bounds : 5.05 <= exp 1.62 <= 5.06.
Proof.
  split.
  - exp_lower 1000000000000%Z 12%nat 1000395507812%Z.
  - exp_upper 1000000000000%Z 12%nat 1000395664302%Z.
Qed.

Lemma exp_2_59_bounds : 13.31 <= exp 2.59 <= 13.35.
Proof.
  split.
  - exp_lower 1000000000000%Z 12%nat 1000632324218%Z.
  - exp_upper 1000000000000%Z 12%nat 1000632724307%Z.
Qed.

Lemma exp_2_688_upper : exp 2.688 <= 14.72.
Proof. exp_upper 1000000000000%Z 12%nat 1000656680948%Z. Qed.

Lemma exp_minus_999 : exp (-999) <= 1e-6.
Proof.
  replace (-999) with (- (333 + 333 + 333)) by lra.
  rewrite exp_Ropp, !exp_plus.
  pose proof (exp_ineq1_le 333) as H.
  assert (H3 : 1000000 <= exp 333 * exp 333 * exp 333) by nra.
  replace 1e-6 with (/ 1000000) by lra.
  apply Rinv_le_contravar; lra.
Qed.

Lemma Rdiv_bounds e s a b c d :
  0 <= a -> a <= e <= b -> 0 < c -> c <= s <= d -> a / d <= e / s <= b / c.
Proof.
  intros Ha [Hae Heb] Hc [Hcs Hsd].
  assert (Hs : 0 < s) by lra. assert (Hd : 0 < d) by lra.
  assert (Hi1 : / d <= / s) by (apply Rinv_le_contravar; lra).
  assert (Hi2 : / s <= / c) by (apply Rinv_le_contravar; lra).
  assert (Hinvd : 0 < / d) by now apply Rinv_0_lt_compat.
  assert (Hinvs : 0 < / s) by now apply Rinv_0_lt_compat.
  unfold Rdiv. split.
  - apply Rmult_le_compat; lra.
  - apply Rmult_le_compat; lra.
Qed.

(** ** The binary64 range *)

Lemma overflow_threshold_bounds : 1e308 <= Binary64.overflow_threshold <= 1e309.
Proof.
  unfold Binary64.overflow_threshold.
  let z := eval vm_compute in (2 ^ 1024 - 2 ^ 970)%Z in
  change (2 ^ 1024 - 2 ^ 970)%Z with z.
  lra.
Qed.









Lemma exp_1_bounds : 2.7 <= exp 1 <= 2.72.
Proof.
  split.
  - exp_lower 1000000000000%Z 12%nat 1000244140625%Z.
  - exp_upper 1000000000000%Z 12%nat 1000244200245%Z.
Qed.

Lemma exp_INR n : exp (INR n) = exp 1 ^ n.
Proof.
  induction n as [|n IH].
  - cbn [INR pow]. apply exp_0.
  - rewrite S_INR, exp_plus, IH. cbn [pow]. ring.
Qed.

Lemma exp_le_pow (n : nat) x : x <= INR n -> exp x <= 2.72 ^ n.
Proof.
  intros Hx. apply Rle_trans with (exp (INR n)); [now apply exp_le_compat|].
  rewrite exp_INR. pose proof exp_1_bounds. pose proof (exp_pos 1).
  apply pow_incr. lra.
Qed.

Lemma exp_ge_pow (n : nat) x : INR n <= x -> 2.7 ^ n <= exp x.
Proof.
  intros Hx. apply Rle_trans with (exp (INR n)); [|now apply exp_le_compat].
  rewrite exp_INR. pose proof exp_1_bounds.
  apply pow_incr. lra.
Qed.

Lemma pow_ratio_le (a b c : Z) (n : nat) :
  (0 < b)%Z -> (a ^ Z.of_nat n <=? c * b ^ Z.of_nat n)%Z = true ->
  (IZR a / IZR b) ^ n <= IZR c.
Proof.
  intros Hb H. apply Z.leb_le in H. apply IZR_le in H.
  rewrite mult_IZR, <- !pow_IZR in H.
  assert (Hbn : 0 < IZR b ^ n) by (apply pow_lt; now apply IZR_lt).
  unfold Rdiv. rewrite Rpow_mult_distr, pow_inv.
  apply Rmult_le_reg_r with (IZR b ^ n); [assumption|].
  rewrite Rmult_assoc, Rinv_l by lra. lra.
Qed.

Lemma pow_ratio_ge (a b c : Z) (n : nat) :
  (0 < b)%Z -> (c * b ^ Z.of_nat n <=? a ^ Z.of_nat n)%Z = true ->
  IZR c <= (IZR a / IZR b) ^ n.
Proof.
  intros Hb H. apply Z.leb_le in H. apply IZR_le in H.
  rewrite mult_IZR, <- !pow_IZR in H.
  assert (Hbn : 0 < IZR b ^ n) by (apply pow_lt; now apply IZR_lt).
  unfold Rdiv. rewrite Rpow_mult_distr, pow_inv.
  apply Rmult_le_reg_r with (IZR b ^ n); [assumption|].
  rewrite Rmult_assoc, Rinv_l by lra. lra.
Qed.

Lemma pow_2_72_700 : 2.72 ^ 700 <= 1e305.
Proof.
  replace 2.72 with (IZR 272 / IZR 100) by lra.
  replace 1e305 with (IZR (10 ^ 305)).
  - apply pow_ratio_le; [lia | vm_compute; reflexivity].
  - let z := eval vm_compute in (10 ^ 305)%Z in change (10 ^ 305)%Z with z. lra.
Qed.

Lemma pow_2_7_720 : 1e309 <= 2.7 ^ 720.
Proof.
  replace 2.7 with (IZR 27 / IZR 10) by lra.
  replace 1e309 with (IZR (10 ^ 309)).
  - apply pow_ratio_ge; [lia | vm_compute; reflexivity].
  - let z := eval vm_compute in (10 ^ 309)%Z in change (10 ^ 309)%Z with z. lra.
Qed.


Lemma INR_literal (n : nat) (z : Z) : Z.of_nat n = z -> INR n = IZR z.
Proof. intros <-. apply INR_IZR_INZ. Qed.

(** [exp] of a number between -700 and 700 is a binary64 number: it
    neither overflows nor underflows. *)
Lemma exp_in_range x : -700 <= x <= 700 -> 1e-305 <= exp x <= 1e305.
Proof.
  intros [Hlo Hhi].
  assert (H700 : INR 700 = 700) by (apply INR_literal; reflexivity).
  assert (Hup : forall y, y <= 700 -> exp y <= 1e305).
  { intros y Hy. apply Rle_trans with (2.72 ^ 700); [|apply pow_2_72_700].
    apply exp_le_pow. lra. }
  split; [|now apply Hup].
  replace x with (- - x) by ring. rewrite exp_Ropp.
  pose proof (exp_pos (- x)). pose proof (Hup (- x) ltac:(lra)).
  replace 1e-305 with (/ 1e305) by lra.
  apply Rinv_le_contravar; lra.
Qed.

(** From 720 on [exp] overflows. *)
Lemma exp_overflows x : 720 <= x -> Binary64.overflow_threshold <= exp x.
Proof.
  intros Hx.
  assert (H720 : INR 720 = 720) by (apply INR_literal; reflexivity).
  pose proof overflow_threshold_bounds. pose proof pow_2_7_720.
  pose proof (exp_ge_pow 720 x ltac:(lra)). lra.
Qed.


(** ** Acquisition *)

Section Acquisition.
Import AcquisitionModel.

Lemma log_adds_acquisition_scenario :
  log_adds Examples.acquisition_scenario = 4.4685.
Proof.
  unfold log_adds, Examples.acquisition_scenario, promo_features, has_promotion.
  cbn -[Rabs].
  replace (Rabs (-1.8)) with 1.8.
  - lra.
  - rewrite Rabs_left; lra.
Qed.

(** C7.  For the scenario [{new_price: 8.99, segment_elasticity: -1.8}]
    without promotion, the linear predictor is
    [6.5 - 0.25 * 8.99 + 0.12 * 1.8] (4.4685, within 0.001 of 4.469), and
    [predicted_adds] is its exponential, within 1 of 87.2. *)
Theorem predict_acquisition_concrete_scenario :
  log_adds Examples.acquisition_scenario = 6.5 - 0.25 * 8.99 + 0.12 * 1.8 /\
  Rabs (log_adds Examples.acquisition_scenario - 4.469) <= 0.001 /\
  predicted_adds (predict_acquisition Examples.acquisition_scenario)
    = exp (log_adds Examples.acquisition_scenario) /\
  Rabs (predicted_adds (predict_acquisition Examples.acquisition_scenario) - 87.2) <= 1.
Proof.
  pose proof exp_4_4685_bounds as [Hlo Hhi].
  cbn [predict_acquisition predicted_adds].
  rewrite log_adds_acquisition_scenario.
  repeat split.
  - lra.
  - apply Rabs_le. lra.
  - apply Rabs_le. lra.
Qed.

(** A segment without [elasticity] makes [predict_acquisition_by_segment]
    raise: the key is read with a default for the segment scenario and
    without one for the lifts. *)
Lemma acquisition_segment_without_elasticity_raises (scenario : Scenario) :
  predict_acquisition_by_segment scenario [Examples.segment_without_elasticity]
  = Py.Raises (Py.KeyError "elasticity").
Proof. reflexivity. Qed.

End Acquisition.

(** ** Acquisition, with the range of binary64 *)

Section AcquisitionRange.
Import AcquisitionBinary64.

















End AcquisitionRange.

(** ** Repeat loss *)

Section RepeatLoss.
Import ChurnModel.

Lemma logistic_monotone x y : x <= y -> logistic x <= logistic y.
Proof.
  intros Hxy. unfold logistic.
  pose proof (exp_pos (- x)) as Hx. pose proof (exp_pos (- y)) as Hy.
  assert (Hexp : exp (- y) <= exp (- x)) by (apply exp_le_compat; lra).
  unfold Rdiv. rewrite !Rmult_1_l.
  apply Rinv_le_contravar; lra.
Qed.

(** C6.  For every scenario with a positive [price_change_pct], the
    uplift of the "8-12 Weeks" horizon is at least the uplift of the
    "0-4 Weeks" horizon. *)
Theorem repeat_loss_uplift_peak_horizon (scenario : Scenario) :
  0 < Py.get (price_change_pct scenario) 0 ->
  exists early peak,
    Py.lookup "0-4 Weeks" (predict_repeat_loss_by_horizon scenario) = Some early /\
    Py.lookup "8-12 Weeks" (predict_repeat_loss_by_horizon scenario) = Some peak /\
    repeat_loss_uplift early <= repeat_loss_uplift peak.
Proof.
  intros Hpos.
  unfold predict_repeat_loss_by_horizon, horizons.
  set (pc := Py.get (price_change_pct scenario) 0) in *.
  set (bl := Py.get (baseline_repeat_loss scenario) 0.05).
  cbn [map Py.lookup String.eqb Ascii.eqb Bool.eqb].
  do 2 eexists. split; [reflexivity|]. split; [reflexivity|].
  cbn [horizon_result repeat_loss_uplift].
  apply Rplus_le_compat_r. apply logistic_monotone.
  unfold log_odds. cbn [REPEAT_LOSS_COEFFICIENTS price_x_0_4wks price_x_8_12wks
    intercept price_change_pct_coef].
  nra.
Qed.

Lemma repeat_loss_uplift_peak_horizon_witness :
  0 < Py.get (price_change_pct Examples.price_rise_scenario) 0 /\
  exists early peak,
    Py.lookup "0-4 Weeks"
      (predict_repeat_loss_by_horizon Examples.price_rise_scenario) = Some early /\
    Py.lookup "8-12 Weeks"
      (predict_repeat_loss_by_horizon Examples.price_rise_scenario) = Some peak /\
    repeat_loss_uplift early <= repeat_loss_uplift peak.
Proof.
  assert (H : 0 < Py.get (price_change_pct Examples.price_rise_scenario) 0)
    by (cbn; lra).
  split; [exact H | exact (repeat_loss_uplift_peak_horizon _ H)].
Defined.

End RepeatLoss.

(** ** Migration *)

Section Migration.
Import MigrationModel.

(** *** [np_max] *)






(** *** [softmax] *)

Lemma softmax_unfold x : softmax x = map (fun e => e / Py.sum (exps x)) (exps x).
Proof. reflexivity. Qed.










(** *** The three topologies *)










(** *** Tier-configuration detection *)

Lemma bundle_test_iff label p :
  (String.eqb label "bundle" || (Py.ge p 13.99 && Py.le p 15.99))%bool = true
  <-> bundle_condition label p.
Proof.
  unfold bundle_condition.
  rewrite orb_true_iff, andb_true_iff, String.eqb_eq, ge_true_iff, le_true_iff.
  tauto.
Qed.

Lemma basic_test_iff label p :
  (String.eqb label "basic" || (Py.ge p 1.99 && Py.le p 3.99))%bool = true
  <-> basic_condition label p.
Proof.
  unfold basic_condition.
  rewrite orb_true_iff, andb_true_iff, String.eqb_eq, ge_true_iff, le_true_iff.
  tauto.
Qed.

Lemma detect_tier_config_cases scenario :
  (bundle_condition (tier_label scenario) (tier_price scenario) /\
   detect_tier_config scenario = "3-tier-bundle") \/
  (~ bundle_condition (tier_label scenario) (tier_price scenario) /\
   basic_condition (tier_label scenario) (tier_price scenario) /\
   detect_tier_config scenario = "3-tier-basic") \/
  (~ bundle_condition (tier_label scenario) (tier_price scenario) /\
   ~ basic_condition (tier_label scenario) (tier_price scenario) /\
   detect_tier_config scenario = "2-tier").
Proof.
  unfold detect_tier_config.
  fold (tier_label scenario). fold (tier_price scenario).
  pose proof (bundle_test_iff (tier_label scenario) (tier_price scenario)) as Hb.
  pose proof (basic_test_iff (tier_label scenario) (tier_price scenario)) as Hc.
  destruct (String.eqb (tier_label scenario) "bundle"
            || (Py.ge (tier_price scenario) 13.99 && Py.le (tier_price scenario) 15.99))%bool.
  - left. split; [now apply Hb | reflexivity].
  - right.
    assert (Hnb : ~ bundle_condition (tier_label scenario) (tier_price scenario)).
    { intros H. apply Hb in H. discriminate. }
    destruct (String.eqb (tier_label scenario) "basic"
              || (Py.ge (tier_price scenario) 1.99 && Py.le (tier_price scenario) 3.99))%bool.
    + left. repeat split; [assumption | now apply Hc].
    + right. repeat split; [assumption|].
      intros H. apply Hc in H. discriminate.
Qed.

Lemma detect_tier_config_characterisation s :
  (detect_tier_config s = "3-tier-bundle" <->
     bundle_condition (tier_label s) (tier_price s)) /\
  (detect_tier_config s = "3-tier-basic" <->
     ~ bundle_condition (tier_label s) (tier_price s) /\
     basic_condition (tier_label s) (tier_price s)) /\
  (detect_tier_config s = "2-tier" <->
     ~ bundle_condition (tier_label s) (tier_price s) /\
     ~ basic_condition (tier_label s) (tier_price s)).
Proof.
  destruct (detect_tier_config_cases s) as [[Hb ->] | [[Hnb [Hc ->]] | [Hnb [Hnc ->]]]];
    repeat split; intros; try discriminate; try tauto.
Qed.

(** C2, amended.  With the label taken as the lower-cased [tier] entry
    (["ad_supported"] when absent) and the price as the [new_price] entry
    (0 when absent), detection returns 3-tier-bundle iff the label is
    "bundle" or the price is in [13.99,15.99]; otherwise 3-tier-basic iff
    the label is "basic" or the price is in [1.99,3.99]; otherwise
    2-tier.  Prices 13.99 and 15.99 select 3-tier-bundle; price 13.98
    selects 2-tier exactly when the label is neither "bundle" nor
    "basic". *)
Theorem detect_tier_config_spec (scenario : Scenario) :
  let label := tier_label scenario in
  let p := tier_price scenario in
  (detect_tier_config scenario = "3-tier-bundle" <-> bundle_condition label p) /\
  (detect_tier_config scenario = "3-tier-basic" <->
     ~ bundle_condition label p /\ basic_condition label p) /\
  (detect_tier_config scenario = "2-tier" <->
     ~ bundle_condition label p /\ ~ basic_condition label p) /\
  (forall t, detect_tier_config (Examples.priced t 13.99) = "3-tier-bundle") /\
  (forall t, detect_tier_config (Examples.priced t 15.99) = "3-tier-bundle") /\
  (forall t, detect_tier_config (Examples.priced t 13.98) = "2-tier" <->
     tier_label (Examples.priced t 13.98) <> "bundle" /\
     tier_label (Examples.priced t 13.98) <> "basic").
Proof.
  cbn zeta.
  destruct (detect_tier_config_characterisation scenario) as (H1 & H2 & H3).
  split; [exact H1|]. split; [exact H2|]. split; [exact H3|].
  split; [|split].
  - intros t. apply detect_tier_config_characterisation. right. cbn. lra.
  - intros t. apply detect_tier_config_characterisation. right. cbn. lra.
  - intros t.
    destruct (detect_tier_config_characterisation (Examples.priced t 13.98))
      as (_ & _ & ->).
    unfold bundle_condition, basic_condition.
    change (tier_price (Examples.priced t 13.98)) with 13.98.
    split.
    + intros [Hnb Hnc]. split; intros Heq; [apply Hnb | apply Hnc]; now left.
    + intros [Hnb Hnc]. split; intros [? | ?]; try contradiction; lra.
Qed.

(** C2 as stated fails on [{tier: 'BUNDLE', new_price: 8.99}]: the label
    is not "bundle" and the price is outside [13.99,15.99], and detection
    returns 3-tier-bundle. *)
Lemma detect_tier_config_uppercase_label :
  detect_tier_config Examples.uppercase_bundle_scenario = "3-tier-bundle" /\
  ~ (forall scenario,
       detect_tier_config scenario = "3-tier-bundle" <->
       (tier scenario = Some "bundle" \/
        exists p, new_price scenario = Some p /\ 13.99 <= p <= 15.99)).
Proof.
  assert (Hd : detect_tier_config Examples.uppercase_bundle_scenario = "3-tier-bundle").
  { apply detect_tier_config_characterisation. left. reflexivity. }
  split; [exact Hd|].
  intros H. specialize (H Examples.uppercase_bundle_scenario).
  destruct H as [H _].
  destruct (H Hd) as [Heq | [p [Hp Hr]]].
  - discriminate.
  - cbn in Hp. injection Hp as <-. lra.
Qed.

(** *** The concrete 2-tier scenario *)

Lemma two_tier_utilities :
  utilities_from_ad_supported Examples.two_tier_scenario = [0; -1.62; -999; -2.59].
Proof.
  unfold utilities_from_ad_supported, tier_price_gap, promo_flag, has_promotion,
    avg_tenure.
  cbn [Examples.two_tier_scenario ad_free_price ad_supported_price promotion Py.get
       upgrade cancel intercept price_gap has_promo tenure_months].
  repeat (f_equal; try lra).
Qed.

Lemma two_tier_detected :
  predict_migration_matrix Examples.two_tier_scenario
  = predict_2tier Examples.two_tier_scenario.
Proof.
  unfold predict_migration_matrix.
  assert (H : detect_tier_config Examples.two_tier_scenario = "2-tier").
  { apply detect_tier_config_characterisation.
    unfold bundle_condition, basic_condition. cbn.
    split; intros [? | ?]; try discriminate; lra. }
  rewrite H. reflexivity.
Qed.

(** C8.  For [{ad_supported_price: 5.99, ad_free_price: 8.99}] without
    promotion (tenure 12), the utilities from ad-supported are stay 0,
    upgrade -1.62, bundle -999 and cancel -2.59, and the returned
    probabilities are within 0.01 of stay 0.786, to_ad_free 0.155,
    to_bundle 0.0 and cancel 0.059. *)
Theorem two_tier_concrete_scenario :
  utilities_from_ad_supported Examples.two_tier_scenario = [0; -1.62; -999; -2.59] /\
  exists dests stay to_ad_free to_bundle cancel_,
    Py.lookup "from_ad_supported"
      (origins (predict_migration_matrix Examples.two_tier_scenario)) = Some dests /\
    Py.lookup "stay" dests = Some stay /\
    Py.lookup "to_ad_free" dests = Some to_ad_free /\
    Py.lookup "to_bundle" dests = Some to_bundle /\
    Py.lookup "cancel" dests = Some cancel_ /\
    Rabs (stay - 0.786) <= 0.01 /\
    Rabs (to_ad_free - 0.155) <= 0.01 /\
    Rabs (to_bundle - 0.0) <= 0.01 /\
    Rabs (cancel_ - 0.059) <= 0.01.
Proof.
  split; [exact two_tier_utilities|].
  rewrite two_tier_detected.
  unfold predict_2tier. cbn [origins Py.lookup String.eqb Ascii.eqb Bool.eqb].
  do 5 eexists.
  do 5 (split; [reflexivity|]).
  rewrite two_tier_utilities.
  assert (Hmax : np_max [0; -1.62; -999; -2.59] = 0).
  { cbn [np_max fold_left].
    rewrite (Rmax_left 0 (-1.62)) by lra.
    rewrite (Rmax_left 0 (-999)) by lra.
    rewrite (Rmax_left 0 (-2.59)) by lra. reflexivity. }
  rewrite softmax_unfold. unfold exps. rewrite Hmax.
  cbn [map]. unfold at_. cbn [nth].
  rewrite !sum_cons, sum_nil.
  replace (0 - 0) with 0 by ring. rewrite exp_0.
  replace (-1.62 - 0) with (-1.62) by lra.
  replace (-999 - 0) with (-999) by lra.
  replace (-2.59 - 0) with (-2.59) by lra.
  replace (exp (-1.62)) with (/ exp 1.62)
    by (rewrite <- exp_Ropp; f_equal; lra).
  replace (exp (-2.59)) with (/ exp 2.59)
    by (rewrite <- exp_Ropp; f_equal; lra).
  pose proof exp_1_62_bounds as [Hu1 Hu2].
  pose proof exp_2_59_bounds as [Hc1 Hc2].
  pose proof exp_minus_999 as Hb. pose proof (exp_pos (-999)) as Hb0.
  assert (Hiu : 0.197 <= / exp 1.62 <= 0.199).
  { split.
    - apply Rle_trans with (/ 5.06); [lra | apply Rinv_le_contravar; lra].
    - apply Rle_trans with (/ 5.05); [apply Rinv_le_contravar; lra | lra]. }
  assert (Hic : 0.0749 <= / exp 2.59 <= 0.0752).
  { split.
    - apply Rle_trans with (/ 13.35); [lra | apply Rinv_le_contravar; lra].
    - apply Rle_trans with (/ 13.31); [apply Rinv_le_contravar; lra | lra]. }
  set (eu := / exp 1.62) in *. set (ec := / exp 2.59) in *.
  set (eb := exp (-999)) in *.
  assert (HS : 1.2719 <= 1 + (eu + (eb + (ec + 0))) <= 1.2743) by lra.
  set (S := 1 + (eu + (eb + (ec + 0)))) in *.
  pose proof (Rdiv_bounds 1 S 1 1 1.2719 1.2743) as D0.
  pose proof (Rdiv_bounds eu S 0.197 0.199 1.2719 1.2743) as D1.
  pose proof (Rdiv_bounds ec S 0.0749 0.0752 1.2719 1.2743) as D3.
  repeat split; apply Rabs_le; lra.
Qed.

End Migration.

(** ** Profile weights *)

Section ProfileWeights.
Import RegenerateData.

Lemma total_update key a d :
  In key (Py.keys d) -> total (Py.update key (fun x => x + a) d) = total d + a.
Proof.
  unfold total, Py.values.
  induction d as [|[k v] d IH]; intros Hin; [destruct Hin|].
  cbn [Py.update]. destruct (String.eqb_spec k key) as [-> | Hne].
  - cbn [map snd]. rewrite !sum_cons. ring.
  - cbn [map snd]. rewrite !sum_cons, IH; [ring|].
    destruct Hin as [Heq | Hin]; [contradiction | assumption].
Qed.

Lemma nonneg_update key a d :
  0 <= a -> nonneg d -> nonneg (Py.update key (fun x => x + a) d).
Proof.
  unfold nonneg, Py.values. intros Ha.
  induction d as [|[k v] d IH]; intros Hd; [constructor|].
  cbn [Py.update]. inversion_clear Hd as [|? ? Hv Hrest].
  destruct (String.eqb k key); cbn [map snd] in *; constructor; auto; lra.
Qed.

(** [add_all] keeps the keys and the sign of the weights, and raises the
    total by the sum of the increments. *)
Lemma add_all_spec incs : forall d,
  increments_for d incs -> nonneg d ->
  Py.keys (add_all incs d) = Py.keys d /\
  nonneg (add_all incs d) /\
  total (add_all incs d) = total d + Py.sum (map snd incs).
Proof.
  unfold add_all, increments_for.
  induction incs as [|[profile amount] incs IH]; intros d Hincs Hd.
  - cbn [fold_left map]. rewrite sum_nil. repeat split; [assumption | ring].
  - inversion_clear Hincs as [|? ? Hhd Hrest]. destruct Hhd as [Hin Ha].
    cbn [fold_left map snd]. rewrite sum_cons.
    destruct (IH (Py.update profile (fun x => x + amount) d)) as (Hk & Hn & Ht).
    + rewrite keys_update. assumption.
    + now apply nonneg_update.
    + rewrite Hk, keys_update, Ht, total_update by assumption.
      repeat split; [assumption | ring].
Qed.

(** *** The three axis tables *)

Ltac axis_entry_solve :=
  split;
  [ repeat (apply Forall_cons || apply Forall_nil);
    (split; [cbn; tauto | lra])
  | cbn [map snd]; rewrite !sum_cons, sum_nil; lra ].

Ltac axis_cases :=
  repeat (match goal with
          | |- context [String.eqb ?x ?y] => destruct (String.eqb x y)
          end;
          [right; axis_entry_solve|]);
  now left.

Lemma acquisition_axis_entry a :
  acquisition_axis a = [] \/ axis_entry (acquisition_axis a).
Proof. unfold acquisition_axis. axis_cases. Qed.

Lemma engagement_axis_entry e :
  engagement_axis e = [] \/ axis_entry (engagement_axis e).
Proof. unfold engagement_axis. axis_cases. Qed.

Lemma monetization_axis_entry m :
  monetization_axis m = [] \/ axis_entry (monetization_axis m).
Proof. unfold monetization_axis. axis_cases. Qed.

Lemma axis_increments d incs :
  Py.keys d = archetypes -> incs = [] \/ axis_entry incs -> increments_for d incs.
Proof.
  intros Hk [-> | [Hall Hsum]].
  - apply Forall_nil.
  - unfold increments_for. rewrite Hk.
    eapply Forall_impl; [|exact Hall]. intros [p a]; cbn. intuition lra.
Qed.

(** An axis value contributes nothing, or partial weights of sum 1. *)
Lemma axis_sum_cases incs :
  incs = [] \/ axis_entry incs ->
  (incs = [] /\ Py.sum (map snd incs) = 0) \/ (incs <> [] /\ Py.sum (map snd incs) = 1).
Proof.
  intros [-> | [Hall Hsum]].
  - left. split; [reflexivity | apply sum_nil].
  - right. split; [|assumption]. intros ->. cbn [map] in Hsum.
    rewrite sum_nil in Hsum. lra.
Qed.

Lemma initial_weights_nonneg : nonneg initial_weights.
Proof. unfold nonneg. cbn. repeat constructor; lra. Qed.

Lemma initial_weights_total : total initial_weights = 0.
Proof.
  unfold total. cbn [initial_weights Py.values map snd].
  rewrite !sum_cons, sum_nil. lra.
Qed.

(** The accumulated weights are non-negative, over the seven archetypes,
    and their total is the sum of the partial weights of the three axes. *)
Lemma accumulated_weights_spec a e m :
  Py.keys (accumulated_weights a e m) = archetypes /\
  nonneg (accumulated_weights a e m) /\
  total (accumulated_weights a e m)
  = Py.sum (map snd (acquisition_axis a))
    + Py.sum (map snd (engagement_axis e))
    + Py.sum (map snd (monetization_axis m)).
Proof.
  unfold accumulated_weights.
  pose proof (axis_increments initial_weights (acquisition_axis a) eq_refl
                (acquisition_axis_entry a)) as Ha.
  destruct (add_all_spec _ _ Ha initial_weights_nonneg) as (Hk1 & Hn1 & Ht1).
  pose proof (axis_increments _ (engagement_axis e) Hk1 (engagement_axis_entry e))
    as He.
  destruct (add_all_spec _ _ He Hn1) as (Hk2 & Hn2 & Ht2).
  rewrite Hk1 in Hk2.
  pose proof (axis_increments _ (monetization_axis m) Hk2 (monetization_axis_entry m))
    as Hm.
  destruct (add_all_spec _ _ Hm Hn2) as (Hk3 & Hn3 & Ht3).
  rewrite Hk2 in Hk3.
  repeat split; try assumption.
  rewrite Ht3, Ht2, Ht1, initial_weights_total. ring.
Qed.

(** The total is 0 when no axis value is in its table, and at least 1
    otherwise. *)
Lemma accumulated_total_cases a e m :
  (contributions a e m = [] /\ total (accumulated_weights a e m) = 0) \/
  (contributions a e m <> [] /\ 1 <= total (accumulated_weights a e m)).
Proof.
  destruct (accumulated_weights_spec a e m) as (_ & _ & ->).
  unfold contributions.
  destruct (axis_sum_cases _ (acquisition_axis_entry a)) as [[Ea Sa] | [Ea Sa]];
  destruct (axis_sum_cases _ (engagement_axis_entry e)) as [[Ee Se] | [Ee Se]];
  destruct (axis_sum_cases _ (monetization_axis_entry m)) as [[Em Sm] | [Em Sm]];
  rewrite Sa, Se, Sm;
  try (left; rewrite Ea, Ee, Em; split; [reflexivity | lra]);
  right; (split; [|lra]); intros Happ;
  apply app_eq_nil in Happ; destruct Happ as [H1 Happ];
  apply app_eq_nil in Happ; destruct Happ as [H2 H3]; contradiction.
Qed.

(** *** Normalization *)

Lemma values_normalized c d :
  Py.values (map (fun '(profile, w) => (profile, w / c)) d)
  = map (fun w => w / c) (Py.values d).
Proof.
  unfold Py.values. rewrite !map_map. apply map_ext. now intros [k v].
Qed.

Lemma normalize_spec d :
  nonneg d -> 0 < total d ->
  Forall (fun w => 0 <= w <= 1) (Py.values (normalize d)) /\
  total (normalize d) = 1.
Proof.
  intros Hn Ht. unfold normalize. fold (total d).
  destruct (gt_true_iff (total d) 0) as [_ ->]; [|assumption].
  assert (Hmem : forall v, In v (Py.values d) -> 0 <= v <= total d).
  { intros v Hv. split.
    - unfold nonneg in Hn. rewrite Forall_forall in Hn. auto.
    - now apply sum_ge_member. }
  remember (total d) as c eqn:Hc.
  unfold total. rewrite values_normalized. split.
  - apply Forall_forall. intros w Hin. apply in_map_iff in Hin.
    destruct Hin as [v [<- Hv]]. destruct (Hmem v Hv) as [H0 H1].
    split.
    + apply Rmult_le_pos; [assumption | left; now apply Rinv_0_lt_compat].
    + apply Rmult_le_reg_r with c; [assumption|].
      unfold Rdiv. rewrite Rmult_assoc, Rinv_l by lra. lra.
  - rewrite sum_map_div. fold (total d). rewrite <- Hc. field. lra.
Qed.

Lemma normalize_zero_total d : total d = 0 -> normalize d = d.
Proof.
  intros Ht. unfold normalize. fold (total d). rewrite Ht.
  unfold Py.gt. destruct (Rlt_dec 0 0); [lra | reflexivity].
Qed.

(** C3.  When some axis value of the segment contributes a positive
    partial weight to some archetype, [get_profile_weights] returns
    weights that lie in [0,1] and add up to 1 within 1e-9. *)
Theorem profile_weights_normalized (a e m : string) :
  (exists profile amount, In (profile, amount) (contributions a e m) /\ 0 < amount) ->
  exists weights,
    get_profile_weights a e m = Py.Returns weights /\
    Forall (fun w => 0 <= w <= 1) (Py.values weights) /\
    Rabs (Py.sum (Py.values weights) - 1.0) <= 1e-9.
Proof.
  intros (profile & amount & Hin & Hpos).
  destruct (accumulated_weights_spec a e m) as (_ & Hn & _).
  assert (Htot : 0 < total (accumulated_weights a e m)).
  { destruct (accumulated_total_cases a e m) as [[Hnil _] | [_ Hone]]; [|lra].
    rewrite Hnil in Hin. destruct Hin. }
  destruct (normalize_spec _ Hn Htot) as [Hw Hs].
  eexists. split; [reflexivity|]. split; [exact Hw|].
  fold (total (normalize (accumulated_weights a e m))). rewrite Hs.
  apply Rabs_le. lra.
Qed.

Lemma profile_weights_normalized_witness :
  exists weights,
    get_profile_weights "habitual_streamers" "ad_free_loyalists"
      "platform_bundled_acquirers" = Py.Returns weights /\
    Forall (fun w => 0 <= w <= 1) (Py.values weights) /\
    Rabs (Py.sum (Py.values weights) - 1.0) <= 1e-9.
Proof.
  apply profile_weights_normalized.
  exists "ultra_loyal", 0.6. split; [cbn; now left | lra].
Defined.

Lemma unknown_axes_total :
  total (accumulated_weights "unknown" "unknown" "unknown") = 0.
Proof.
  change (accumulated_weights "unknown" "unknown" "unknown") with initial_weights.
  apply initial_weights_total.
Qed.

(** C4, amended.  When the accumulated total is zero, the weights are not
    normalized and [get_profile_weights] returns the initial mapping, in
    which every archetype has weight 0.0; no error is raised. *)
Theorem profile_weights_zero_total (a e m : string) :
  total (accumulated_weights a e m) = 0 ->
  get_profile_weights a e m = Py.Returns initial_weights.
Proof.
  intros Hz. unfold get_profile_weights. f_equal.
  rewrite (normalize_zero_total _ Hz).
  destruct (accumulated_total_cases a e m) as [[Hnil _] | [_ Hone]]; [|lra].
  unfold contributions in Hnil.
  apply app_eq_nil in Hnil. destruct Hnil as [Ea Hnil].
  apply app_eq_nil in Hnil. destruct Hnil as [Ee Em].
  unfold accumulated_weights. rewrite Ea, Ee, Em. reflexivity.
Qed.

Lemma profile_weights_zero_total_witness :
  total (accumulated_weights "unknown" "unknown" "unknown") = 0 /\
  get_profile_weights "unknown" "unknown" "unknown" = Py.Returns initial_weights.
Proof.
  split.
  - exact unknown_axes_total.
  - exact (profile_weights_zero_total "unknown" "unknown" "unknown" unknown_axes_total).
Defined.

(** C4 as stated fails on three axis values that are in no table: the
    total is zero and the call returns. *)
Lemma profile_weights_zero_total_not_rejected :
  ~ (forall a e m,
       total (accumulated_weights a e m) = 0 ->
       exists err, get_profile_weights a e m = Py.Raises err).
Proof.
  intros H.
  destruct (H "unknown" "unknown" "unknown" unknown_axes_total) as [err Herr].
  discriminate.
Qed.

(** *** The archetype catalog *)

Ltac catalog_unfold :=
  cbv [buckets time_lag_distribution
       weeks_0_4 weeks_4_8 weeks_8_12 weeks_12_16 weeks_16_20
       ultra_loyal value_conscious deal_hunter content_driven tier_flexible
       premium_seeker at_risk].

(** Every archetype carries a time-lag distribution: non-negative
    buckets of sum 1. *)
Lemma catalog_distributions :
  Forall (fun p => valid_distribution (time_lag_distribution p))
         (Py.values ELASTICITY_PROFILES).
Proof.
  unfold ELASTICITY_PROFILES, Py.values. cbn [map snd].
  repeat (apply Forall_cons || apply Forall_nil);
    (split;
     [ catalog_unfold; repeat (apply Forall_cons || apply Forall_nil); lra
     | catalog_unfold; rewrite !sum_cons, sum_nil; lra ]).
Qed.

Lemma profile_item_catalog profile :
  In profile (Py.keys ELASTICITY_PROFILES) ->
  exists p, profile_item profile = Py.Returns p /\
            valid_distribution (time_lag_distribution p).
Proof.
  intros Hin. destruct (lookup_key _ _ Hin) as [p Hp].
  exists p. unfold profile_item. rewrite Hp. split; [reflexivity|].
  pose proof catalog_distributions as Hcat. rewrite Forall_forall in Hcat.
  apply Hcat. eapply lookup_in_values. eassumption.
Qed.

Lemma resolve_returns profile_weights :
  profile_weights_ok profile_weights ->
  exists items,
    resolve profile_weights = Py.Returns items /\
    map snd items = Py.values profile_weights /\
    Forall (fun '(p, weight) =>
              valid_distribution (time_lag_distribution p) /\ 0 <= weight) items.
Proof.
  unfold resolve, profile_weights_ok.
  induction profile_weights as [|[profile weight] rest IH]; intros Hok.
  - exists []. repeat split. apply Forall_nil.
  - inversion_clear Hok as [|? ? Hhd Hrest]. destruct Hhd as [Hin Hw].
    destruct (profile_item_catalog _ Hin) as (p & Hp & Hvalid).
    destruct (IH Hrest) as (items & Hitems & Hsnd & Hall).
    exists ((p, weight) :: items).
    cbn [Py.for_each]. rewrite Hp. cbn [Py.bind]. rewrite Hitems. cbn [Py.bind].
    repeat split.
    + cbn [map snd Py.values]. f_equal. exact Hsnd.
    + apply Forall_cons; [split; assumption | assumption].
Qed.

(** *** Mixing the time-lag distributions *)

(** The loop over profiles keeps the buckets non-negative and adds the
    weight of each profile to their sum. *)
Lemma mix_time_lag_fold items : forall acc,
  Forall (fun '(p, weight) =>
            valid_distribution (time_lag_distribution p) /\ 0 <= weight) items ->
  Forall (fun b => 0 <= b) (buckets acc) ->
  Forall (fun b => 0 <= b) (buckets (fold_left add_time_lag items acc)) /\
  Py.sum (buckets (fold_left add_time_lag items acc))
  = Py.sum (buckets acc) + Py.sum (map snd items).
Proof.
  induction items as [|[p weight] items IH]; intros acc Hall Hacc.
  - cbn [fold_left map]. rewrite sum_nil. split; [assumption | ring].
  - inversion_clear Hall as [|? ? Hhd Hrest]. destruct Hhd as [[Hnn Hone] Hw].
    cbn [fold_left map snd]. rewrite sum_cons.
    unfold buckets in Hnn, Hone, Hacc.
    rewrite !sum_cons, sum_nil in Hone.
    repeat match goal with
           | H : Forall _ (_ :: _) |- _ => inversion_clear H
           end.
    destruct (IH (add_time_lag acc (p, weight)) Hrest) as [Hn' Hs'].
    + unfold add_time_lag, buckets.
      cbn [weeks_0_4 weeks_4_8 weeks_8_12 weeks_12_16 weeks_16_20].
      repeat (apply Forall_cons || apply Forall_nil); nra.
    + split; [exact Hn'|]. rewrite Hs'.
      unfold add_time_lag, buckets.
      cbn [weeks_0_4 weeks_4_8 weeks_8_12 weeks_12_16 weeks_16_20].
      rewrite !sum_cons, sum_nil. nra.
Qed.

Lemma mix_time_lag_valid items :
  Forall (fun '(p, weight) =>
            valid_distribution (time_lag_distribution p) /\ 0 <= weight) items ->
  Py.sum (map snd items) = 1 ->
  valid_distribution (mix_time_lag items).
Proof.
  intros Hall Hsum. unfold mix_time_lag.
  destruct (mix_time_lag_fold items zero_time_lag Hall) as [Hn Hs].
  - cbv [buckets zero_time_lag
         weeks_0_4 weeks_4_8 weeks_8_12 weeks_12_16 weeks_16_20].
    repeat (apply Forall_cons || apply Forall_nil); lra.
  - split; [exact Hn|]. rewrite Hs, Hsum.
    unfold buckets, zero_time_lag.
    cbn [weeks_0_4 weeks_4_8 weeks_8_12 weeks_12_16 weeks_16_20].
    rewrite !sum_cons, sum_nil. lra.
Qed.

(** *** The dominant profile *)

Lemma fold_best_in (rest : Py.dict R) : forall first,
  In (fold_left (fun best it => if Py.gt (snd it) (snd best) then it else best)
                rest first)
     (first :: rest).
Proof.
  induction rest as [|it rest IH]; intros first; cbn [fold_left].
  - now left.
  - destruct (Py.gt (snd it) (snd first)).
    + right. apply IH.
    + destruct (IH first) as [<- | Hin]; [now left | right; now right].
Qed.

Lemma max_item_returns (d : Py.dict R) :
  d <> [] -> exists it, max_item d = Py.Returns it /\ In it d.
Proof.
  destruct d as [|first rest]; intros Hne; [contradiction|].
  eexists. split; [reflexivity | apply fold_best_in].
Qed.

Example calculate_segment_elasticity_empty (noise : R) :
  calculate_segment_elasticity noise []
  = Py.Raises (Py.ValueError "max() arg is an empty sequence").
Proof. reflexivity. Qed.

Example calculate_segment_elasticity_unknown_profile (noise : R) :
  calculate_segment_elasticity noise [("ultra_loyal", 0.5); ("nobody", 0.5)]
  = Py.Raises (Py.KeyError "nobody").
Proof. reflexivity. Qed.

(** C9.  For every weight mapping over archetype names whose weights
    are non-negative and add up to 1, and for every draw of the noise,
    [calculate_segment_elasticity] returns, and the blended time-lag
    distribution has non-negative buckets that add up to 1 within 1e-9. *)
Theorem blended_time_lag_is_distribution (noise : R) (profile_weights : Py.dict R) :
  profile_weights_ok profile_weights ->
  Py.sum (Py.values profile_weights) = 1 ->
  exists result,
    calculate_segment_elasticity noise profile_weights = Py.Returns result /\
    let blended := rl_time_lag_distribution (repeat_loss_axis_of result) in
    Forall (fun b => 0 <= b) (buckets blended) /\
    Rabs (Py.sum (buckets blended) - 1.0) <= 1e-9.
Proof.
  intros Hok Hsum.
  destruct (resolve_returns _ Hok) as (items & Hitems & Hsnd & Hall).
  assert (Hne : profile_weights <> []).
  { intros ->. cbn in Hsum. lra. }
  destruct (max_item_returns _ Hne) as ([dominant w] & Hmax & Hin).
  assert (Hdom : In dominant (Py.keys ELASTICITY_PROFILES)).
  { unfold profile_weights_ok in Hok. rewrite Forall_forall in Hok.
    apply (Hok _ Hin). }
  destruct (profile_item_catalog _ Hdom) as (pd & Hpd & _).
  unfold calculate_segment_elasticity.
  rewrite Hitems. cbn [Py.bind]. rewrite Hmax. cbn [Py.bind fst].
  rewrite Hpd. cbn [Py.bind].
  eexists. split; [reflexivity|].
  cbn [repeat_loss_axis_of rl_time_lag_distribution].
  destruct (mix_time_lag_valid items Hall) as [Hn Hs].
  - now rewrite Hsnd.
  - split; [exact Hn|]. rewrite Hs. apply Rabs_le. lra.
Qed.

Lemma blended_time_lag_is_distribution_witness :
  exists result,
    calculate_segment_elasticity 0.01 [("ultra_loyal", 0.5); ("deal_hunter", 0.5)]
    = Py.Returns result /\
    let blended := rl_time_lag_distribution (repeat_loss_axis_of result) in
    Forall (fun b => 0 <= b) (buckets blended) /\
    Rabs (Py.sum (buckets blended) - 1.0) <= 1e-9.
Proof.
  apply blended_time_lag_is_distribution.
  - repeat (apply Forall_cons || apply Forall_nil); (split; [cbn; tauto | lra]).
  - cbn [Py.values map snd]. rewrite !sum_cons, sum_nil. lra.
Defined.

End ProfileWeights.

(** ** Defaults of optional keys *)

Section Defaults.

Lemma detect_tier_config_new_price_default s :
  MigrationModel.detect_tier_config (set_new_price None s)
  = MigrationModel.detect_tier_config (set_new_price (Some 8.99) s).
Proof.
  unfold MigrationModel.detect_tier_config.
  cbn [set_new_price tier new_price Py.get].
  assert (E1 : Py.ge 0 13.99 = false)
    by (unfold Py.ge; destruct (Rle_dec 13.99 0); [lra | reflexivity]).
  assert (E2 : Py.ge 8.99 13.99 = false)
    by (unfold Py.ge; destruct (Rle_dec 13.99 8.99); [lra | reflexivity]).
  assert (E3 : Py.ge 0 1.99 = false)
    by (unfold Py.ge; destruct (Rle_dec 1.99 0); [lra | reflexivity]).
  assert (E4 : Py.le 8.99 3.99 = false)
    by (unfold Py.le; destruct (Rle_dec 8.99 3.99); [lra | reflexivity]).
  rewrite E1, E2, E3, E4. now rewrite andb_false_r.
Qed.

(** C5, amended.  Absence of an optional key is not an error and has the
    effect of a default: a scenario without [new_price] behaves as one
    with [new_price = 8.99] in every prediction entry point; a scenario
    without [segment_elasticity] behaves as one with -1.8 in
    [predict_acquisition]; a scenario without [baseline_repeat_loss]
    behaves as one with 0.05 in both repeat-loss entry points; and a
    segment without [elasticity] behaves as one of elasticity -2.0 in
    [predict_repeat_loss_by_segment]. *)
Theorem missing_field_defaults (s : Scenario) (g : Segment)
    (before after : list Segment) :
  (AcquisitionModel.predict_acquisition (set_new_price None s)
   = AcquisitionModel.predict_acquisition (set_new_price (Some 8.99) s)) /\
  (AcquisitionModel.predict_acquisition_by_segment (set_new_price None s) before
   = AcquisitionModel.predict_acquisition_by_segment
       (set_new_price (Some 8.99) s) before) /\
  (MigrationModel.predict_migration_matrix (set_new_price None s)
   = MigrationModel.predict_migration_matrix (set_new_price (Some 8.99) s)) /\
  (ChurnModel.predict_repeat_loss_by_horizon (set_new_price None s)
   = ChurnModel.predict_repeat_loss_by_horizon (set_new_price (Some 8.99) s)) /\
  (ChurnModel.predict_repeat_loss_by_segment (set_new_price None s) before
   = ChurnModel.predict_repeat_loss_by_segment (set_new_price (Some 8.99) s) before) /\
  (AcquisitionModel.predict_acquisition (set_segment_elasticity None s)
   = AcquisitionModel.predict_acquisition (set_segment_elasticity (Some (-1.8)) s)) /\
  (ChurnModel.predict_repeat_loss_by_horizon (set_baseline_repeat_loss None s)
   = ChurnModel.predict_repeat_loss_by_horizon
       (set_baseline_repeat_loss (Some 0.05) s)) /\
  (ChurnModel.predict_repeat_loss_by_segment (set_baseline_repeat_loss None s) before
   = ChurnModel.predict_repeat_loss_by_segment
       (set_baseline_repeat_loss (Some 0.05) s) before) /\
  (ChurnModel.predict_repeat_loss_by_segment s (before ++ set_elasticity None g :: after)
   = ChurnModel.predict_repeat_loss_by_segment s
       (before ++ set_elasticity (Some (-2.0)) g :: after)).
Proof.
  repeat split; try reflexivity.
  - unfold MigrationModel.predict_migration_matrix.
    rewrite detect_tier_config_new_price_default. reflexivity.
  - unfold ChurnModel.predict_repeat_loss_by_segment.
    apply for_each_replace. reflexivity.
Qed.

(** C5 as stated fails in the repeat-loss model: for the scenario
    [{price_change_pct: 16, baseline_repeat_loss: 0.05}], a segment
    without [elasticity] does not get the result of the same segment with
    elasticity -1.8 (its multiplier is 1.0, not 0.97). *)
Lemma repeat_loss_segment_default_is_not_minus_1_8 :
  ChurnModel.predict_repeat_loss_by_segment Examples.price_rise_scenario
    [Examples.segment_without_elasticity]
  <> ChurnModel.predict_repeat_loss_by_segment Examples.price_rise_scenario
       [set_elasticity (Some (-1.8)) Examples.segment_without_elasticity].
Proof.
  intros H. apply (f_equal first_horizon_value) in H.
  cbn [first_horizon_value ChurnModel.predict_repeat_loss_by_segment Py.for_each
       ChurnModel.predict_segment Py.item Py.bind seg_name seg_size
       Examples.segment_without_elasticity set_elasticity
       ChurnModel.sr_by_horizon ChurnModel.predict_repeat_loss_by_horizon
       ChurnModel.horizons map ChurnModel.horizon_result
       ChurnModel.repeat_loss_uplift_pp
       Examples.price_rise_scenario price_change_pct baseline_repeat_loss Py.get] in H.
  unfold ChurnModel.segment_multiplier in H.
  cbn [seg_elasticity Py.get Examples.segment_without_elasticity set_elasticity] in H.
  replace (Rabs (-2.0)) with 2 in H by (rewrite Rabs_left; lra).
  replace (Rabs (-1.8)) with 1.8 in H by (rewrite Rabs_left; lra).
  rewrite (Rmin_left 2 4.0) in H by lra.
  rewrite (Rmin_left 1.8 4.0) in H by lra.
  unfold ChurnModel.log_odds in H.
  cbn [ChurnModel.REPEAT_LOSS_COEFFICIENTS ChurnModel.intercept
       ChurnModel.price_change_pct_coef ChurnModel.price_x_0_4wks] in H.
  unfold ChurnModel.logistic in H.
  replace (exp (- (-2.944 + 0.01 * 16 + 0.006 * 16))) with (exp 2.688) in H
    by (f_equal; lra).
  pose proof exp_2_688_upper as Hup. pose proof (exp_pos 2.688) as Hpos.
  assert (Hl : / 15.72 <= 1 / (1 + exp 2.688)).
  { unfold Rdiv. rewrite Rmult_1_l. apply Rinv_le_contravar; lra. }
  assert (Hc : 0.06 <= / 15.72) by lra.
  set (q := 1 / (1 + exp 2.688)) in *.
  lra.
Qed.

End Defaults.

(** * Further properties *)

Section AcquisitionExtras.
Import AcquisitionModel.




(** X2. In [predict_acquisition] a promotion multiplies the predicted adds
    by exp(0.4 + 0.03 * discount_pct), the discount being 0 when the
    promotion has no [discount_pct]. *)
Theorem promotion_multiplies_predicted_adds (s : Scenario) (promo : Promotion) :
  promotion_truthy promo = true ->
  predicted_adds (predict_acquisition (set_promotion (Some promo) s))
  = predicted_adds (predict_acquisition (set_promotion None s))
    * exp (0.4 + 0.03 * Py.get (discount_pct promo) 0).
Proof.
  intros Ht. cbn [predict_acquisition predicted_adds].
  rewrite <- exp_plus. f_equal.
  unfold log_adds, promo_features, has_promotion.
  cbn [set_promotion promotion new_price segment_elasticity].
  rewrite Ht.
  cbn [ACQUISITION_COEFFICIENTS intercept price promo_discount is_promo
       segment_elasticity_factor]. lra.
Qed.

Lemma promotion_multiplies_predicted_adds_witness :
  predicted_adds (predict_acquisition
    (set_promotion (Some MoreExamples.spring_promotion) Examples.acquisition_scenario))
  = predicted_adds (predict_acquisition
      (set_promotion None Examples.acquisition_scenario))
    * exp (0.4 + 0.03 * Py.get (discount_pct MoreExamples.spring_promotion) 0).
Proof.
  apply promotion_multiplies_predicted_adds. reflexivity.
Defined.

(** X3. An empty promotion dictionary is no promotion: the acquisition and
    migration entry points return what they return for a scenario without
    the promotion key. *)
Theorem empty_promotion_is_no_promotion (s : Scenario) (segments : list Segment) :
  predict_acquisition (set_promotion (Some MoreExamples.empty_promotion) s)
  = predict_acquisition (set_promotion None s) /\
  predict_acquisition_by_segment (set_promotion (Some MoreExamples.empty_promotion) s) segments
  = predict_acquisition_by_segment (set_promotion None s) segments /\
  MigrationModel.predict_migration_matrix
    (set_promotion (Some MoreExamples.empty_promotion) s)
  = MigrationModel.predict_migration_matrix (set_promotion None s).
Proof.
  repeat split; reflexivity.
Qed.

(** X4. [predict_acquisition] depends on the segment elasticity only through
    its magnitude: e and -e give the same result. *)
Theorem predict_acquisition_elasticity_sign (s : Scenario) (e : R) :
  predict_acquisition (set_segment_elasticity (Some (- e)) s)
  = predict_acquisition (set_segment_elasticity (Some e) s).
Proof.
  assert (H : log_adds (set_segment_elasticity (Some (- e)) s)
              = log_adds (set_segment_elasticity (Some e) s)).
  { unfold log_adds.
    cbn [set_segment_elasticity new_price segment_elasticity Py.get].
    replace (promo_features (set_segment_elasticity (Some (- e)) s))
      with (promo_features (set_segment_elasticity (Some e) s)) by reflexivity.
    now rewrite Rabs_Ropp. }
  unfold predict_acquisition. rewrite H. reflexivity.
Qed.

End AcquisitionExtras.

Lemma for_each_returns {A B} (f : A -> Py.outcome B) xs ys :
  Py.for_each f xs = Py.Returns ys <-> Forall2 (fun x y => f x = Py.Returns y) xs ys.
Proof.
  revert ys. induction xs as [|x xs IH]; intros ys; cbn [Py.for_each].
  - split.
    + intros H. injection H as <-. constructor.
    + intros H. inversion H. reflexivity.
  - split.
    + destruct (f x) as [y|e] eqn:Hfx; cbn [Py.bind]; [|discriminate].
      destruct (Py.for_each f xs) as [ys'|e] eqn:Hrest; cbn [Py.bind]; [|discriminate].
      intros H. injection H as <-. constructor; [assumption | now apply IH].
    + intros H. inversion H as [|? y ? ys' Hfx Hrest]; subst.
      rewrite Hfx. cbn [Py.bind].
      apply IH in Hrest. rewrite Hrest. reflexivity.
Qed.

Lemma for_each_raises {A B} (f : A -> Py.outcome B) before x after e :
  (forall b, In b before -> exists y, f b = Py.Returns y) ->
  f x = Py.Raises e ->
  Py.for_each f (before ++ x :: after) = Py.Raises e.
Proof.
  intros Hbefore Hx. induction before as [|b before IH]; cbn [app Py.for_each].
  - now rewrite Hx.
  - destruct (Hbefore b (or_introl eq_refl)) as [y Hy]. rewrite Hy. cbn [Py.bind].
    rewrite IH; [reflexivity|]. intros b' Hin. apply Hbefore. now right.
Qed.

Section AcquisitionSegments.
Import AcquisitionModel.















End AcquisitionSegments.

Lemma exp_2_944_bounds : 18.99 <= exp 2.944 <= 18.995.
Proof.
  split.
  - exp_lower 1000000000000%Z 16%nat 1000044921875%Z.
  - exp_upper 1000000000000%Z 16%nat 1000044923895%Z.
Qed.

Section RepeatLossExtras.
Import ChurnModel.

Lemma logistic_increasing x y : x < y -> logistic x < logistic y.
Proof.
  intros Hxy. unfold logistic.
  pose proof (exp_pos (- x)) as Hx. pose proof (exp_pos (- y)) as Hy.
  assert (Hexp : exp (- y) < exp (- x)) by (apply exp_increasing; lra).
  unfold Rdiv. rewrite !Rmult_1_l.
  apply Rinv_lt_contravar; [apply Rmult_lt_0_compat|]; lra.
Qed.

Lemma logistic_bounds_strict x : 0 < logistic x < 1.
Proof.
  unfold logistic. pose proof (exp_pos (- x)) as Hx.
  split.
  - apply Rdiv_lt_0_compat; lra.
  - apply Rmult_lt_reg_r with (1 + exp (- x)); [lra|].
    unfold Rdiv. rewrite Rmult_assoc, Rinv_l by lra. lra.
Qed.

Lemma logistic_bounds x : 0 <= logistic x <= 1.
Proof. pose proof (logistic_bounds_strict x). lra. Qed.

Lemma logistic_le x y : x <= y -> logistic x <= logistic y.
Proof.
  intros [Hlt | ->]; [left; now apply logistic_increasing | right; reflexivity].
Qed.

(** X8. The result of [predict_repeat_loss_by_horizon] has the four horizons
    in order, every rate is a probability in [0, 1], the uplift is the rate
    minus the baseline (0.05 when absent) and the uplift in percentage
    points is 100 times the uplift. *)
Theorem predict_repeat_loss_by_horizon_shape (s : Scenario) :
  Py.keys (predict_repeat_loss_by_horizon s)
  = ["0-4 Weeks"; "4-8 Weeks"; "8-12 Weeks"; "12+ Weeks"] /\
  Forall (fun r =>
            0 <= repeat_loss_rate r <= 1 /\
            repeat_loss_uplift r
            = repeat_loss_rate r - Py.get (baseline_repeat_loss s) 0.05 /\
            repeat_loss_uplift_pp r = repeat_loss_uplift r * 100)
         (Py.values (predict_repeat_loss_by_horizon s)).
Proof.
  split; [reflexivity|].
  unfold predict_repeat_loss_by_horizon, horizons, Py.values. cbn [map snd].
  repeat (apply Forall_cons || apply Forall_nil);
    (split; [apply logistic_bounds | split; reflexivity]).
Qed.

Lemma rate_at_horizon s name coef :
  Py.lookup name horizons = Some coef ->
  rate_at name (predict_repeat_loss_by_horizon s)
  = logistic (log_odds (Py.get (price_change_pct s) 0) coef).
Proof.
  unfold rate_at, predict_repeat_loss_by_horizon, horizons.
  cbn [Py.lookup map].
  repeat (destruct (String.eqb _ name);
          [intros H; injection H as <-; reflexivity|]).
  discriminate.
Qed.

(** X9. At every price change the rates of the horizons are ordered along
    0-4, 12+, 4-8, 8-12 weeks: for a price rise no rate is lower than the
    one before it in that order, for a price cut none is higher. *)
Theorem repeat_loss_horizon_order (s : Scenario) :
  let pc := Py.get (price_change_pct s) 0 in
  let by_horizon := predict_repeat_loss_by_horizon s in
  0 <= pc * (rate_at "12+ Weeks" by_horizon - rate_at "0-4 Weeks" by_horizon) /\
  0 <= pc * (rate_at "4-8 Weeks" by_horizon - rate_at "12+ Weeks" by_horizon) /\
  0 <= pc * (rate_at "8-12 Weeks" by_horizon - rate_at "4-8 Weeks" by_horizon).
Proof.
  cbn zeta.
  rewrite (rate_at_horizon s "0-4 Weeks" _ eq_refl),
          (rate_at_horizon s "4-8 Weeks" _ eq_refl),
          (rate_at_horizon s "8-12 Weeks" _ eq_refl),
          (rate_at_horizon s "12+ Weeks" _ eq_refl).
  set (pc := Py.get (price_change_pct s) 0) in *.
  unfold log_odds.
  cbn [REPEAT_LOSS_COEFFICIENTS intercept price_change_pct_coef
       price_x_0_4wks price_x_4_8wks price_x_8_12wks price_x_12plus].
  destruct (Rle_dec 0 pc) as [Hpos | Hneg].
  - repeat split; apply Rmult_le_pos; try assumption;
      apply Rge_le, Rge_minus, Rle_ge; apply logistic_le; nra.
  - repeat split;
      match goal with
      | |- 0 <= pc * (?a - ?b) =>
          replace (pc * (a - b)) with ((- pc) * (b - a)) by ring
      end;
      (apply Rmult_le_pos; [lra|]);
      apply Rge_le, Rge_minus, Rle_ge; apply logistic_le; nra.
Qed.

(** X10. In [predict_repeat_loss_by_horizon] a larger price change never
    gives a smaller repeat-loss rate, at any horizon. *)
Theorem repeat_loss_rate_increases_with_price_change (s : Scenario) (pc1 pc2 : R) :
  pc1 <= pc2 ->
  Forall2 (fun lower higher =>
             fst lower = fst higher /\
             repeat_loss_rate (snd lower) <= repeat_loss_rate (snd higher))
          (predict_repeat_loss_by_horizon (set_price_change_pct (Some pc1) s))
          (predict_repeat_loss_by_horizon (set_price_change_pct (Some pc2) s)).
Proof.
  intros Hlt. unfold predict_repeat_loss_by_horizon, horizons.
  cbn [map set_price_change_pct price_change_pct baseline_repeat_loss Py.get].
  repeat (apply Forall2_cons || apply Forall2_nil);
    (split; [reflexivity|]);
    cbn [snd horizon_result repeat_loss_rate];
    apply logistic_le; unfold log_odds;
    cbn [REPEAT_LOSS_COEFFICIENTS intercept price_change_pct_coef
         price_x_0_4wks price_x_4_8wks price_x_8_12wks price_x_12plus]; nra.
Qed.

Lemma repeat_loss_rate_increases_with_price_change_witness :
  Forall2 (fun lower higher =>
             fst lower = fst higher /\
             repeat_loss_rate (snd lower) <= repeat_loss_rate (snd higher))
          (predict_repeat_loss_by_horizon
             (set_price_change_pct (Some 8) Examples.price_rise_scenario))
          (predict_repeat_loss_by_horizon
             (set_price_change_pct (Some 16) Examples.price_rise_scenario)).
Proof.
  apply repeat_loss_rate_increases_with_price_change. lra.
Defined.

(** X11. Without a price change and without a baseline in the scenario, the
    uplift of every horizon is positive and below 0.003 percentage points
    (the intercept -2.944 stands for 5.002%, the default baseline is 5%). *)
Theorem repeat_loss_no_change_uplift (s : Scenario) :
  Py.get (price_change_pct s) 0 = 0 ->
  baseline_repeat_loss s = None ->
  Forall (fun r => 0 < repeat_loss_uplift_pp r < 0.003)
         (Py.values (predict_repeat_loss_by_horizon s)).
Proof.
  intros Hpc Hb. unfold predict_repeat_loss_by_horizon, horizons, Py.values.
  rewrite Hpc, Hb. cbn [map snd Py.get].
  assert (H : forall coef,
             0 < repeat_loss_uplift_pp (horizon_result 0 0.05 coef) < 0.003).
  { intros coef. cbn [horizon_result repeat_loss_uplift_pp].
    unfold log_odds, logistic.
    cbn [REPEAT_LOSS_COEFFICIENTS intercept price_change_pct_coef].
    replace (exp (- (-2.944 + 0.01 * 0 + coef * 0))) with (exp 2.944)
      by (f_equal; lra).
    pose proof exp_2_944_bounds as [Hlo Hhi].
    assert (H1 : / 19.995 <= 1 / (1 + exp 2.944)).
    { unfold Rdiv. rewrite Rmult_1_l. apply Rinv_le_contravar; lra. }
    assert (H2 : 1 / (1 + exp 2.944) <= / 19.99).
    { unfold Rdiv. rewrite Rmult_1_l. apply Rinv_le_contravar; lra. }
    assert (H3 : 0.05001 <= / 19.995) by lra.
    assert (H4 : / 19.99 <= 0.050026) by lra.
    set (q := 1 / (1 + exp 2.944)) in *. lra. }
  repeat (apply Forall_cons || apply Forall_nil); apply H.
Qed.

Lemma repeat_loss_no_change_uplift_witness :
  Forall (fun r => 0 < repeat_loss_uplift_pp r < 0.003)
         (Py.values (predict_repeat_loss_by_horizon Examples.acquisition_scenario)).
Proof.
  apply repeat_loss_no_change_uplift; reflexivity.
Defined.

End RepeatLossExtras.

Section RepeatLossSegments.
Import ChurnModel.

(** X12. The segment multiplier of [predict_repeat_loss_by_segment] lies in
    [0.7, 1.3], depends only on the magnitude of the elasticity, does not
    decrease when the magnitude grows, and is 1.3 from magnitude 4 on. *)
Theorem segment_multiplier_range (g : Segment) (e e' : R) :
  0.7 <= segment_multiplier g <= 1.3 /\
  segment_multiplier (set_elasticity (Some (- e)) g)
  = segment_multiplier (set_elasticity (Some e) g) /\
  (Rabs e <= Rabs e' ->
   segment_multiplier (set_elasticity (Some e) g)
   <= segment_multiplier (set_elasticity (Some e') g)) /\
  (4 <= Rabs e -> segment_multiplier (set_elasticity (Some e) g) = 1.3).
Proof.
  unfold segment_multiplier. cbn [set_elasticity seg_elasticity Py.get].
  repeat split.
  - pose proof (Rabs_pos (Py.get (seg_elasticity g) (-2.0))) as Ha.
    assert (0 <= Rmin (Rabs (Py.get (seg_elasticity g) (-2.0))) 4.0)
      by (apply Rmin_glb; lra). lra.
  - pose proof (Rmin_r (Rabs (Py.get (seg_elasticity g) (-2.0))) 4.0). lra.
  - now rewrite Rabs_Ropp.
  - intros Hle.
    assert (Rmin (Rabs e) 4.0 <= Rmin (Rabs e') 4.0).
    { apply Rmin_glb.
      - eapply Rle_trans; [apply Rmin_l | assumption].
      - apply Rmin_r. }
    lra.
  - intros H4. rewrite Rmin_right by lra. lra.
Qed.

Lemma segment_multiplier_range_witness :
  0.7 <= segment_multiplier Examples.segment_without_elasticity <= 1.3 /\
  segment_multiplier (set_elasticity (Some (- 5)) Examples.segment_without_elasticity)
  = segment_multiplier (set_elasticity (Some 5) Examples.segment_without_elasticity) /\
  segment_multiplier (set_elasticity (Some 5) Examples.segment_without_elasticity)
  <= segment_multiplier (set_elasticity (Some (-6)) Examples.segment_without_elasticity) /\
  segment_multiplier (set_elasticity (Some 5) Examples.segment_without_elasticity) = 1.3.
Proof.
  destruct (segment_multiplier_range Examples.segment_without_elasticity 5 (-6))
    as (H1 & H2 & H3 & H4).
  split; [exact H1|]. split; [exact H2|]. split.
  - apply H3. rewrite Rabs_right by lra. rewrite Rabs_left by lra. lra.
  - apply H4. rewrite Rabs_right by lra. lra.
Defined.

Lemma repeat_loss_predict_segment_missing s g key :
  repeat_loss_missing_key g = Some key ->
  predict_segment s g = Py.Raises (Py.KeyError key).
Proof.
  unfold repeat_loss_missing_key, predict_segment.
  destruct (seg_name g), (seg_size g); cbn [Py.item Py.bind];
    intros H; try discriminate; injection H as <-; reflexivity.
Qed.

Lemma repeat_loss_predict_segment_complete s g :
  repeat_loss_missing_key g = None ->
  exists r, predict_segment s g = Py.Returns r.
Proof.
  unfold repeat_loss_missing_key, predict_segment.
  destruct (seg_name g), (seg_size g); cbn [Py.item Py.bind];
    intros H; try discriminate. eexists. reflexivity.
Qed.

(** X13. [predict_repeat_loss_by_segment] raises KeyError for the first
    segment without name or size, naming the first of the two that is
    missing; a missing elasticity raises nothing. *)
Theorem predict_repeat_loss_by_segment_key_error
    (s : Scenario) (before after : list Segment) (g : Segment) (key : string) :
  Forall (fun b => repeat_loss_missing_key b = None) before ->
  repeat_loss_missing_key g = Some key ->
  predict_repeat_loss_by_segment s (before ++ g :: after)
  = Py.Raises (Py.KeyError key).
Proof.
  intros Hbefore Hg. unfold predict_repeat_loss_by_segment.
  apply for_each_raises.
  - rewrite Forall_forall in Hbefore. intros b Hin.
    apply repeat_loss_predict_segment_complete. now apply Hbefore.
  - now apply repeat_loss_predict_segment_missing.
Qed.

Lemma predict_repeat_loss_by_segment_key_error_witness :
  predict_repeat_loss_by_segment Examples.price_rise_scenario
    ([Examples.segment_without_elasticity]
       ++ {| seg_name := Some "dormant_customers"; seg_size := None;
             seg_elasticity := Some (-2.4) |} :: [])
  = Py.Raises (Py.KeyError "size").
Proof.
  apply predict_repeat_loss_by_segment_key_error.
  - repeat constructor.
  - reflexivity.
Defined.

Lemma repeat_loss_predict_segment_result s g r :
  predict_segment s g = Py.Returns r ->
  seg_name g = Some (sr_name r) /\
  seg_size g = Some (sr_size r) /\
  Py.keys (sr_by_horizon r)
  = ["repeat_loss_0_4_weeks"; "repeat_loss_4_8_weeks";
     "repeat_loss_8_12_weeks"; "repeat_loss_12plus_weeks"] /\
  Forall2 (fun v h => v = repeat_loss_uplift_pp h * segment_multiplier g)
          (Py.values (sr_by_horizon r))
          (Py.values (predict_repeat_loss_by_horizon s)).
Proof.
  unfold predict_segment.
  destruct (seg_name g) as [n|], (seg_size g) as [z|];
    cbn [Py.item Py.bind]; intros H; try discriminate.
  injection H as <-. cbn [sr_name sr_size sr_by_horizon].
  repeat split.
  unfold predict_repeat_loss_by_horizon, horizons, Py.values.
  cbn [map snd]. repeat constructor.
Qed.

(** X14. When [predict_repeat_loss_by_segment] returns, there is one result
    per segment, in order, with the name and size of the segment and the
    four keys repeat_loss_0_4_weeks, repeat_loss_4_8_weeks,
    repeat_loss_8_12_weeks and repeat_loss_12plus_weeks, whose values are
    the uplifts in percentage points of [predict_repeat_loss_by_horizon]
    times the segment multiplier. *)
Theorem predict_repeat_loss_by_segment_results
    (s : Scenario) (segments : list Segment) (results : list SegmentRepeatLoss) :
  predict_repeat_loss_by_segment s segments = Py.Returns results ->
  Forall2 (fun g r =>
    seg_name g = Some (sr_name r) /\
    seg_size g = Some (sr_size r) /\
    Py.keys (sr_by_horizon r)
    = ["repeat_loss_0_4_weeks"; "repeat_loss_4_8_weeks";
       "repeat_loss_8_12_weeks"; "repeat_loss_12plus_weeks"] /\
    Forall2 (fun v h => v = repeat_loss_uplift_pp h * segment_multiplier g)
            (Py.values (sr_by_horizon r))
            (Py.values (predict_repeat_loss_by_horizon s)))
    segments results.
Proof.
  intros H. apply for_each_returns in H.
  induction H as [|g r gs rs Hgr _ IH]; constructor; [|assumption].
  now apply repeat_loss_predict_segment_result.
Qed.

Lemma predict_repeat_loss_by_segment_results_witness :
  exists results,
    predict_repeat_loss_by_segment Examples.price_rise_scenario
      [Examples.segment_without_elasticity] = Py.Returns results /\
    Forall2 (fun g r =>
      seg_name g = Some (sr_name r) /\
      seg_size g = Some (sr_size r) /\
      Py.keys (sr_by_horizon r)
      = ["repeat_loss_0_4_weeks"; "repeat_loss_4_8_weeks";
         "repeat_loss_8_12_weeks"; "repeat_loss_12plus_weeks"] /\
      Forall2 (fun v h => v = repeat_loss_uplift_pp h * segment_multiplier g)
              (Py.values (sr_by_horizon r))
              (Py.values (predict_repeat_loss_by_horizon Examples.price_rise_scenario)))
      [Examples.segment_without_elasticity] results.
Proof.
  eexists. split.
  - reflexivity.
  - apply predict_repeat_loss_by_segment_results. reflexivity.
Defined.

End RepeatLossSegments.

Section SoftmaxExtras.
Import MigrationModel.

Lemma sum_map_mult (c : R) xs : Py.sum (map (fun e => e * c) xs) = Py.sum xs * c.
Proof.
  induction xs as [|x xs IH]; cbn [map].
  - rewrite sum_nil. ring.
  - rewrite !sum_cons, IH. ring.
Qed.

Lemma sum_exp_pos x : x <> [] -> 0 < Py.sum (map exp x).
Proof.
  destruct x as [|v x]; intros Hne; [contradiction|].
  cbn [map]. rewrite sum_cons.
  assert (0 <= Py.sum (map exp x)).
  { apply sum_nonneg. apply Forall_forall. intros e Hin.
    apply in_map_iff in Hin. destruct Hin as [u [<- _]]. left. apply exp_pos. }
  pose proof (exp_pos v). lra.
Qed.

Lemma softmax_closed_form x :
  softmax x = map (fun v => exp v / Py.sum (map exp x)) x.
Proof.
  destruct x as [|x0 rest] eqn:Hx; [reflexivity|]. rewrite <- Hx.
  assert (Hne : x <> []) by (rewrite Hx; discriminate).
  unfold softmax.
  set (m := np_max x).
  assert (Hexps : map (fun v => exp (v - m)) x = map (fun e => e * exp (- m)) (map exp x)).
  { rewrite map_map. apply map_ext. intros v.
    unfold Rminus. apply exp_plus. }
  rewrite Hexps, sum_map_mult, !map_map.
  apply map_ext. intros v.
  pose proof (sum_exp_pos x Hne). pose proof (exp_pos (- m)).
  field. split; lra.
Qed.

(** X15. Softmax is the normalized exponential: subtracting the maximum
    changes nothing, and adding a constant to every utility leaves the
    probabilities unchanged. *)
Theorem softmax_shift_invariant (x : list R) (c : R) :
  softmax x = map (fun v => exp v / Py.sum (map exp x)) x /\
  softmax (map (fun v => v + c) x) = softmax x.
Proof.
  split; [apply softmax_closed_form|].
  rewrite !softmax_closed_form, !map_map.
  destruct x as [|x0 rest] eqn:Hx; [reflexivity|]. rewrite <- Hx.
  assert (Hne : x <> []) by (rewrite Hx; discriminate).
  assert (Hs : Py.sum (map (fun v => exp (v + c)) x) = Py.sum (map exp x) * exp c).
  { rewrite <- sum_map_mult, map_map. f_equal. apply map_ext. intros v. apply exp_plus. }
  rewrite Hs. apply map_ext. intros v. rewrite exp_plus.
  pose proof (sum_exp_pos x Hne). pose proof (exp_pos c).
  field. split; lra.
Qed.

Lemma softmax_at x i v :
  nth_error x i = Some v -> at_ (softmax x) i = exp v / Py.sum (map exp x).
Proof.
  intros Hnth. unfold at_. rewrite softmax_closed_form.
  apply nth_error_nth.
  now apply (map_nth_error (fun u => exp u / Py.sum (map exp x))).
Qed.

(** X16. No softmax probability is negative or above 1, and a destination
    of higher utility never gets a lower probability. *)
Theorem softmax_monotone (x : list R) (i j : nat) (u v : R) :
  nth_error x i = Some u -> nth_error x j = Some v -> u <= v ->
  0 <= at_ (softmax x) i <= at_ (softmax x) j /\ at_ (softmax x) j <= 1.
Proof.
  intros Hi Hj Huv.
  rewrite (softmax_at x i u Hi), (softmax_at x j v Hj).
  assert (Hne : x <> []) by (intros ->; destruct i; discriminate).
  pose proof (sum_exp_pos x Hne) as HS.
  repeat split.
  - left. apply Rdiv_lt_0_compat; [apply exp_pos | assumption].
  - apply Rmult_le_compat_r; [left; now apply Rinv_0_lt_compat|].
    now apply exp_le_compat.
  - apply Rmult_le_reg_r with (Py.sum (map exp x)); [assumption|].
    unfold Rdiv. rewrite Rmult_assoc, Rinv_l, Rmult_1_r, Rmult_1_l by lra.
    apply sum_ge_member.
    + apply Forall_forall. intros e Hin.
      apply in_map_iff in Hin. destruct Hin as [w [<- _]]. left. apply exp_pos.
    + apply in_map. eapply nth_error_In. exact Hj.
Qed.

Lemma softmax_monotone_witness :
  0 <= at_ (softmax [0; -1.62; -999; -2.59]) 2
    <= at_ (softmax [0; -1.62; -999; -2.59]) 1 /\
  at_ (softmax [0; -1.62; -999; -2.59]) 1 <= 1.
Proof.
  apply (softmax_monotone _ 2 1 (-999) (-1.62)); [reflexivity | reflexivity | lra].
Defined.

End SoftmaxExtras.

Section MigrationExtras.
Import MigrationModel.

(** X17. The 3-tier models read nothing of the scenario but whether it has a
    promotion. *)
Theorem three_tier_models_ignore_prices (s s' : Scenario) :
  has_promotion s = has_promotion s' ->
  predict_3tier_bundle s = predict_3tier_bundle s' /\
  predict_3tier_basic s = predict_3tier_basic s'.
Proof.
  intros H.
  assert (Hf : promo_flag s = promo_flag s') by (unfold promo_flag; now rewrite H).
  unfold predict_3tier_bundle, predict_3tier_basic,
    bundle_utilities_from_ad_supported, bundle_utilities_from_ad_free,
    bundle_utilities_from_bundle, basic_utilities_from_basic,
    basic_utilities_from_ad_supported, basic_utilities_from_ad_free.
  rewrite Hf. split; reflexivity.
Qed.

Lemma three_tier_models_ignore_prices_witness :
  predict_3tier_bundle (Examples.priced (Some "bundle") 14.99)
  = predict_3tier_bundle Examples.two_tier_scenario /\
  predict_3tier_basic (Examples.priced (Some "bundle") 14.99)
  = predict_3tier_basic Examples.two_tier_scenario.
Proof.
  apply three_tier_models_ignore_prices. reflexivity.
Defined.

(** X18. The tier_config entry of the matrix returned by
    [predict_migration_matrix] is the detected configuration, the origin
    tiers are those of that configuration, and every origin has five
    destinations, the first being stay and the last cancel. *)
Theorem migration_matrix_shape (s : Scenario) :
  tier_config (predict_migration_matrix s) = detect_tier_config s /\
  Py.keys (origins (predict_migration_matrix s)) = origins_of (detect_tier_config s) /\
  Forall (fun dests =>
            exists k1 k2 k3, Py.keys dests = ["stay"; k1; k2; k3; "cancel"])
         (Py.values (origins (predict_migration_matrix s))).
Proof.
  unfold predict_migration_matrix.
  destruct (detect_tier_config_cases s) as [[_ ->] | [(_ & _ & ->) | (_ & _ & ->)]];
    cbn [String.eqb Ascii.eqb Bool.eqb];
    (split; [reflexivity|]); (split; [reflexivity|]);
    cbv [Py.values predict_3tier_bundle predict_3tier_basic predict_2tier origins
         map snd];
    repeat (apply Forall_cons || apply Forall_nil);
    do 3 eexists; reflexivity.
Qed.

Lemma Rdiv_lt_cross n1 d1 n2 d2 :
  0 < d1 -> 0 < d2 -> n1 * d2 < n2 * d1 -> n1 / d1 < n2 / d2.
Proof.
  intros H1 H2 H.
  apply Rmult_lt_reg_r with (d1 * d2); [now apply Rmult_lt_0_compat|].
  replace (n1 / d1 * (d1 * d2)) with (n1 * d2) by (field; lra).
  replace (n2 / d2 * (d1 * d2)) with (n2 * d1) by (field; lra).
  assumption.
Qed.

Lemma two_tier_probabilities s :
  let a := utilities_from_ad_supported s in
  let f := utilities_from_ad_free s in
  probability "from_ad_supported" "stay" (predict_2tier s)
    = exp (at_ a 0) / Py.sum (map exp a) /\
  probability "from_ad_supported" "to_ad_free" (predict_2tier s)
    = exp (at_ a 1) / Py.sum (map exp a) /\
  probability "from_ad_supported" "cancel" (predict_2tier s)
    = exp (at_ a 3) / Py.sum (map exp a) /\
  probability "from_ad_free" "stay" (predict_2tier s)
    = exp (at_ f 0) / Py.sum (map exp f) /\
  probability "from_ad_free" "to_ad_supported" (predict_2tier s)
    = exp (at_ f 2) / Py.sum (map exp f) /\
  probability "from_ad_free" "cancel" (predict_2tier s)
    = exp (at_ f 3) / Py.sum (map exp f).
Proof.
  cbn zeta. unfold probability, predict_2tier.
  cbn [origins Py.lookup String.eqb Ascii.eqb Bool.eqb Py.get].
  repeat split; apply softmax_at; reflexivity.
Qed.

Lemma exp_gt_1 x : 0 < x -> 1 < exp x.
Proof. intros H. rewrite <- exp_0. now apply exp_increasing. Qed.

Lemma exp_lt_1 x : x < 0 -> exp x < 1.
Proof. intros H. rewrite <- exp_0. now apply exp_increasing. Qed.

(** The utilities of the 2-tier model as functions of the price gap and
    the promotion flag. *)
Lemma two_tier_utilities_values s :
  utilities_from_ad_supported s
  = [0; -1.5 + -0.08 * tier_price_gap s + 0.4 * promo_flag s + 0.01 * 12;
     -999; -2.5 + 0.05 * tier_price_gap s + -0.2 * promo_flag s + -0.02 * 12] /\
  utilities_from_ad_free s
  = [0; -999;
     -2.8 + 0.08 * Rabs (tier_price_gap s) + -0.3 * promo_flag s + -0.015 * 12;
     -2.5 + 0.05 * Rabs (tier_price_gap s) + -0.2 * promo_flag s + -0.02 * 12].
Proof. split; reflexivity. Qed.

(** X19. In the 2-tier model, for a price gap of at most 100 in magnitude,
    a promotion raises the probability to upgrade and lowers the
    probability to cancel from ad-supported; from ad-free it lowers the
    probability to downgrade and raises the probability to stay.  (For gaps
    of many hundreds the probabilities are 0.0 and 1.0 in binary64, with
    and without a promotion.) *)
Theorem two_tier_promotion_effect (s : Scenario) (promo : Promotion) :
  promotion_truthy promo = true ->
  Rabs (tier_price_gap s) <= 100 ->
  let without := predict_2tier (set_promotion None s) in
  let with_ := predict_2tier (set_promotion (Some promo) s) in
  probability "from_ad_supported" "to_ad_free" without
  < probability "from_ad_supported" "to_ad_free" with_ /\
  probability "from_ad_supported" "cancel" with_
  < probability "from_ad_supported" "cancel" without /\
  probability "from_ad_free" "to_ad_supported" with_
  < probability "from_ad_free" "to_ad_supported" without /\
  probability "from_ad_free" "stay" without
  < probability "from_ad_free" "stay" with_.
Proof.
  intros Ht _. cbn zeta.
  destruct (two_tier_probabilities (set_promotion None s)) as (_ & U0 & C0 & S0 & D0 & K0).
  destruct (two_tier_probabilities (set_promotion (Some promo) s))
    as (_ & U1 & C1 & S1 & D1 & K1).
  rewrite U0, C0, S0, D0, U1, C1, S1, D1.
  destruct (two_tier_utilities_values (set_promotion None s)) as [-> ->].
  destruct (two_tier_utilities_values (set_promotion (Some promo) s)) as [-> ->].
  replace (tier_price_gap (set_promotion (Some promo) s)) with (tier_price_gap s)
    by reflexivity.
  replace (tier_price_gap (set_promotion None s)) with (tier_price_gap s)
    by reflexivity.
  assert (F0 : promo_flag (set_promotion None s) = 0) by reflexivity.
  assert (F1 : promo_flag (set_promotion (Some promo) s) = 1).
  { unfold promo_flag, has_promotion. cbn [set_promotion promotion]. now rewrite Ht. }
  rewrite F0, F1.
  set (g := tier_price_gap s).
  unfold at_. cbn [nth map]. rewrite !sum_cons, sum_nil.
  set (u := -1.5 + -0.08 * g + 0.01 * 12).
  set (c := -2.5 + 0.05 * g + -0.02 * 12).
  set (d := -2.8 + 0.08 * Rabs g + -0.015 * 12).
  set (k := -2.5 + 0.05 * Rabs g + -0.02 * 12).
  replace (-1.5 + -0.08 * g + 0.4 * 0 + 0.01 * 12) with u by (unfold u; ring).
  replace (-1.5 + -0.08 * g + 0.4 * 1 + 0.01 * 12) with (u + 0.4) by (unfold u; ring).
  replace (-2.5 + 0.05 * g + -0.2 * 0 + -0.02 * 12) with c by (unfold c; ring).
  replace (-2.5 + 0.05 * g + -0.2 * 1 + -0.02 * 12) with (c + -0.2) by (unfold c; ring).
  replace (-2.8 + 0.08 * Rabs g + -0.3 * 0 + -0.015 * 12) with d by (unfold d; ring).
  replace (-2.8 + 0.08 * Rabs g + -0.3 * 1 + -0.015 * 12) with (d + -0.3)
    by (unfold d; ring).
  replace (-2.5 + 0.05 * Rabs g + -0.2 * 0 + -0.02 * 12) with k by (unfold k; ring).
  replace (-2.5 + 0.05 * Rabs g + -0.2 * 1 + -0.02 * 12) with (k + -0.2)
    by (unfold k; ring).
  rewrite !exp_plus, exp_0.
  pose proof (exp_pos u) as Hu. pose proof (exp_pos c) as Hc.
  pose proof (exp_pos d) as Hd. pose proof (exp_pos k) as Hk.
  pose proof (exp_pos (-999)) as Hb.
  pose proof (exp_gt_1 0.4 ltac:(lra)) as H4.
  pose proof (exp_lt_1 (-0.2) ltac:(lra)) as H2. pose proof (exp_pos (-0.2)) as H2p.
  pose proof (exp_pos (-0.3)) as H3p.
  assert (H32 : exp (-0.3) < exp (-0.2)) by (apply exp_increasing; lra).
  set (eu := exp u) in *. set (ec := exp c) in *. set (ed := exp d) in *.
  set (ek := exp k) in *. set (eb := exp (-999)) in *.
  set (x4 := exp 0.4) in *. set (x2 := exp (-0.2)) in *. set (x3 := exp (-0.3)) in *.
  assert (Pu : 0 < eu * x4) by (apply Rmult_lt_0_compat; lra).
  assert (Pc : 0 < ec * x2) by (apply Rmult_lt_0_compat; lra).
  assert (Pd : 0 < ed * x3) by (apply Rmult_lt_0_compat; lra).
  assert (Pk : 0 < ek * x2) by (apply Rmult_lt_0_compat; lra).
  assert (B1 : 1 * (1 + eb) < x4 * (1 + eb)) by (apply Rmult_lt_compat_r; lra).
  assert (B2 : x2 * (1 + eb) < 1 * (1 + eb)) by (apply Rmult_lt_compat_r; lra).
  assert (B3 : x3 * (1 + eb) < 1 * (1 + eb)) by (apply Rmult_lt_compat_r; lra).
  assert (E1 : ec * x2 < ec * x4) by (apply Rmult_lt_compat_l; lra).
  assert (E2 : eu * x2 < eu * x4) by (apply Rmult_lt_compat_l; lra).
  assert (E3 : ek * x3 < ek * x2) by (apply Rmult_lt_compat_l; lra).
  assert (E4 : ed * x3 < ed * 1) by (apply Rmult_lt_compat_l; lra).
  assert (E5 : ek * x2 < ek * 1) by (apply Rmult_lt_compat_l; lra).
  assert (M1 : eu * ((1 + eb) + ec * x2) < eu * (x4 * (1 + eb) + x4 * ec))
    by (apply Rmult_lt_compat_l; lra).
  assert (M2 : ec * (x2 * (1 + eb) + x2 * eu) < ec * ((1 + eb) + eu * x4))
    by (apply Rmult_lt_compat_l; lra).
  assert (M3 : ed * (x3 * (1 + eb) + x3 * ek) < ed * ((1 + eb) + ek * x2))
    by (apply Rmult_lt_compat_l; lra).
  repeat split; apply Rdiv_lt_cross; lra.
Qed.

Lemma two_tier_promotion_effect_witness :
  let without := predict_2tier (set_promotion None Examples.two_tier_scenario) in
  let with_ :=
    predict_2tier
      (set_promotion (Some MoreExamples.spring_promotion) Examples.two_tier_scenario) in
  probability "from_ad_supported" "to_ad_free" without
  < probability "from_ad_supported" "to_ad_free" with_ /\
  probability "from_ad_supported" "cancel" with_
  < probability "from_ad_supported" "cancel" without /\
  probability "from_ad_free" "to_ad_supported" with_
  < probability "from_ad_free" "to_ad_supported" without /\
  probability "from_ad_free" "stay" without
  < probability "from_ad_free" "stay" with_.
Proof.
  apply (two_tier_promotion_effect Examples.two_tier_scenario
           MoreExamples.spring_promotion).
  - reflexivity.
  - unfold tier_price_gap. cbn [Examples.two_tier_scenario ad_free_price
                                  ad_supported_price Py.get].
    apply Rabs_le. lra.
Defined.

(** X20. In the 2-tier model, for prices between 0 and 100, an ad-free
    price higher by a cent or more (a wider price gap) lowers the
    probability to upgrade and raises the probability to cancel from
    ad-supported. *)
Theorem two_tier_price_gap_effect (s : Scenario) (p1 p2 : R) :
  0 <= Py.get (ad_supported_price s) 5.99 <= 100 ->
  0 <= p1 -> p1 + 0.01 <= p2 -> p2 <= 100 ->
  let narrow := predict_2tier (set_ad_free_price (Some p1) s) in
  let wide := predict_2tier (set_ad_free_price (Some p2) s) in
  probability "from_ad_supported" "to_ad_free" wide
  < probability "from_ad_supported" "to_ad_free" narrow /\
  probability "from_ad_supported" "cancel" narrow
  < probability "from_ad_supported" "cancel" wide.
Proof.
  intros _ _ Hcent _. assert (Hlt : p1 < p2) by lra. cbn zeta.
  destruct (two_tier_probabilities (set_ad_free_price (Some p1) s)) as (_ & U0 & C0 & _).
  destruct (two_tier_probabilities (set_ad_free_price (Some p2) s)) as (_ & U1 & C1 & _).
  rewrite U0, C0, U1, C1.
  destruct (two_tier_utilities_values (set_ad_free_price (Some p1) s)) as [-> _].
  destruct (two_tier_utilities_values (set_ad_free_price (Some p2) s)) as [-> _].
  replace (promo_flag (set_ad_free_price (Some p1) s)) with (promo_flag s) by reflexivity.
  replace (promo_flag (set_ad_free_price (Some p2) s)) with (promo_flag s) by reflexivity.
  unfold tier_price_gap. cbn [set_ad_free_price ad_free_price ad_supported_price Py.get].
  set (a := Py.get (ad_supported_price s) 5.99). set (h := promo_flag s).
  unfold at_. cbn [nth map]. rewrite !sum_cons, sum_nil.
  set (u := -1.5 + -0.08 * (p1 - a) + 0.4 * h + 0.01 * 12).
  set (c := -2.5 + 0.05 * (p1 - a) + -0.2 * h + -0.02 * 12).
  replace (-1.5 + -0.08 * (p2 - a) + 0.4 * h + 0.01 * 12)
    with (u + -0.08 * (p2 - p1)) by (unfold u; ring).
  replace (-2.5 + 0.05 * (p2 - a) + -0.2 * h + -0.02 * 12)
    with (c + 0.05 * (p2 - p1)) by (unfold c; ring).
  rewrite !exp_plus, exp_0.
  pose proof (exp_pos u) as Hu. pose proof (exp_pos c) as Hc.
  pose proof (exp_pos (-999)) as Hb.
  pose proof (exp_lt_1 (-0.08 * (p2 - p1)) ltac:(nra)) as Hk.
  pose proof (exp_pos (-0.08 * (p2 - p1))) as Hkp.
  pose proof (exp_gt_1 (0.05 * (p2 - p1)) ltac:(nra)) as Hd.
  set (eu := exp u) in *. set (ec := exp c) in *. set (eb := exp (-999)) in *.
  set (k := exp (-0.08 * (p2 - p1))) in *. set (q := exp (0.05 * (p2 - p1))) in *.
  assert (Pu : 0 < eu * k) by (apply Rmult_lt_0_compat; lra).
  assert (Pc : 0 < ec * q) by (apply Rmult_lt_0_compat; lra).
  assert (B1 : k * (1 + eb) < 1 * (1 + eb)) by (apply Rmult_lt_compat_r; lra).
  assert (B2 : 1 * (1 + eb) < q * (1 + eb)) by (apply Rmult_lt_compat_r; lra).
  assert (E1 : ec * k < ec * q) by (apply Rmult_lt_compat_l; lra).
  assert (E2 : eu * k < eu * q) by (apply Rmult_lt_compat_l; lra).
  assert (M1 : eu * (k * (1 + eb) + k * ec) < eu * ((1 + eb) + ec * q))
    by (apply Rmult_lt_compat_l; lra).
  assert (M2 : ec * ((1 + eb) + eu * k) < ec * (q * (1 + eb) + q * eu))
    by (apply Rmult_lt_compat_l; lra).
  split; apply Rdiv_lt_cross; lra.
Qed.

Lemma two_tier_price_gap_effect_witness :
  let narrow := predict_2tier (set_ad_free_price (Some 8.99) Examples.two_tier_scenario) in
  let wide := predict_2tier (set_ad_free_price (Some 10.99) Examples.two_tier_scenario) in
  probability "from_ad_supported" "to_ad_free" wide
  < probability "from_ad_supported" "to_ad_free" narrow /\
  probability "from_ad_supported" "cancel" narrow
  < probability "from_ad_supported" "cancel" wide.
Proof.
  apply (two_tier_price_gap_effect Examples.two_tier_scenario 8.99 10.99);
    cbn [Examples.two_tier_scenario ad_supported_price Py.get]; lra.
Defined.

End MigrationExtras.

Section MixerExtras.
Import RegenerateData.

Lemma keys_normalize d : Py.keys (normalize d) = Py.keys d.
Proof.
  unfold normalize. destruct (Py.gt _ 0); [|reflexivity].
  unfold Py.keys. rewrite map_map. apply map_ext. now intros [k v].
Qed.

Lemma nonneg_normalize d : nonneg d -> nonneg (normalize d).
Proof.
  intros Hn. unfold normalize.
  destruct (Py.gt (Py.sum (Py.values d)) 0) eqn:Hgt; [|assumption].
  apply gt_true_iff in Hgt.
  unfold nonneg. rewrite values_normalized.
  unfold nonneg in Hn. rewrite Forall_forall in *.
  intros w Hin. apply in_map_iff in Hin. destruct Hin as [v [<- Hv]].
  apply Rmult_le_pos; [now apply Hn | left; now apply Rinv_0_lt_compat].
Qed.

Lemma profile_weights_ok_of d :
  Py.keys d = archetypes -> nonneg d -> profile_weights_ok d.
Proof.
  intros Hk Hn. unfold profile_weights_ok. apply Forall_forall. intros [k w] Hin.
  unfold nonneg in Hn. rewrite Forall_forall in Hn. split.
  - assert (Hcat : Py.keys ELASTICITY_PROFILES = archetypes) by reflexivity.
    rewrite Hcat, <- Hk. unfold Py.keys. apply in_map_iff. now exists (k, w).
  - apply Hn. unfold Py.values. apply in_map_iff. now exists (k, w).
Qed.

Lemma get_profile_weights_ok a e m :
  exists w,
    get_profile_weights a e m = Py.Returns w /\
    Py.keys w = archetypes /\ nonneg w /\ profile_weights_ok w.
Proof.
  destruct (accumulated_weights_spec a e m) as (Hk & Hn & _).
  exists (normalize (accumulated_weights a e m)).
  split; [reflexivity|].
  assert (Hk' : Py.keys (normalize (accumulated_weights a e m)) = archetypes)
    by now rewrite keys_normalize.
  pose proof (nonneg_normalize _ Hn) as Hn'.
  repeat split; try assumption. now apply profile_weights_ok_of.
Qed.

Lemma calculate_returns noise pw :
  profile_weights_ok pw -> pw <> [] ->
  exists r, calculate_segment_elasticity noise pw = Py.Returns r /\
            profile_weights_of r = pw.
Proof.
  intros Hok Hne.
  destruct (resolve_returns _ Hok) as (items & Hitems & _ & _).
  destruct (max_item_returns _ Hne) as ([dominant w] & Hmax & Hin).
  assert (Hdom : In dominant (Py.keys ELASTICITY_PROFILES)).
  { unfold profile_weights_ok in Hok. rewrite Forall_forall in Hok.
    apply (Hok _ Hin). }
  destruct (profile_item_catalog _ Hdom) as (pd & Hpd & _).
  unfold calculate_segment_elasticity.
  rewrite Hitems. cbn [Py.bind]. rewrite Hmax. cbn [Py.bind fst].
  rewrite Hpd. cbn [Py.bind].
  eexists. split; reflexivity.
Qed.

(** X21. For all segment values, known or not, [get_profile_weights] returns
    a dictionary over the seven archetypes in catalog order, and
    [calculate_segment_elasticity] returns on it without an error, with the
    weights passed through. *)
Theorem profile_mixing_never_raises (a e m : string) (noise : R) :
  exists w r,
    get_profile_weights a e m = Py.Returns w /\
    Py.keys w = ["ultra_loyal"; "value_conscious"; "deal_hunter"; "content_driven";
                 "tier_flexible"; "premium_seeker"; "at_risk"] /\
    calculate_segment_elasticity noise w = Py.Returns r /\
    profile_weights_of r = w.
Proof.
  destruct (get_profile_weights_ok a e m) as (w & Hw & Hk & _ & Hok).
  assert (Hne : w <> []).
  { intros ->. discriminate. }
  destruct (calculate_returns noise w Hok Hne) as (r & Hr & Hpw).
  exists w, r. repeat split; assumption.
Qed.

(** *** The dominant profile is the first of largest weight *)

Lemma best_first_max (rest : Py.dict R) : forall first,
  exists before after : Py.dict R,
    first :: rest = (before ++ best rest first :: after)%list /\
    Forall (fun it => snd it < snd (best rest first)) before /\
    Forall (fun it => snd it <= snd (best rest first)) after.
Proof.
  unfold best.
  induction rest as [|it rest IH]; intros first; cbn [fold_left].
  - exists [], []. repeat split; constructor.
  - destruct (Py.gt (snd it) (snd first)) eqn:Hgt.
    + apply gt_true_iff in Hgt.
      destruct (IH it) as (b & a & Heq & Hb & Ha).
      exists (first :: b), a. split; [cbn [app]; now rewrite <- Heq|].
      split; [|assumption]. constructor; [|assumption].
      destruct b as [|b0 b]; cbn [app] in Heq.
      * injection Heq as Heq _. rewrite <- Heq. assumption.
      * injection Heq as Heq _. subst b0.
        inversion_clear Hb as [|? ? Hit _]. lra.
    + assert (Hle : snd it <= snd first).
      { destruct (Rle_dec (snd it) (snd first)) as [H|H]; [assumption|].
        assert (Hlt : snd first < snd it) by lra.
        apply gt_true_iff in Hlt. congruence. }
      destruct (IH first) as (b & a & Heq & Hb & Ha).
      destruct b as [|b0 b]; cbn [app] in Heq.
      * injection Heq as Heq Hrest. exists [], (it :: a).
        split; [cbn [app]; rewrite <- Heq, Hrest; reflexivity|].
        split; [constructor|]. constructor; [now rewrite <- Heq | assumption].
      * injection Heq as Heq Hrest. subst b0.
        exists (first :: it :: b), a.
        split; [cbn [app]; do 2 f_equal; exact Hrest|].
        split; [|assumption].
        inversion_clear Hb as [|? ? Hf Hb'].
        constructor; [assumption|]. constructor; [lra | assumption].
Qed.

(** X22. The curve type returned by [calculate_segment_elasticity] is that
    of the dominant archetype: the first entry of the weight dictionary
    whose weight is the largest (an earlier entry has a strictly smaller
    weight, no entry a larger one). *)
Theorem dominant_curve_type (noise : R) (pw : Py.dict R) (r : SegmentElasticity) :
  calculate_segment_elasticity noise pw = Py.Returns r ->
  exists (before : Py.dict R) name weight (after : Py.dict R) p,
    pw = (before ++ (name, weight) :: after)%list /\
    Forall (fun it => snd it < weight) before /\
    Forall (fun it => snd it <= weight) after /\
    Py.lookup name ELASTICITY_PROFILES = Some p /\
    rl_repeat_loss_curve_type (repeat_loss_axis_of r) = repeat_loss_curve_type p.
Proof.
  unfold calculate_segment_elasticity.
  destruct (resolve pw) as [items|err]; cbn [Py.bind]; [|discriminate].
  destruct pw as [|first rest]; cbn [max_item Py.bind]; [discriminate|].
  fold (best rest first).
  destruct (best_first_max rest first) as (b & a & Heq & Hb & Ha).
  destruct (best rest first) as [name weight] eqn:Hbest. cbn [fst snd] in *.
  unfold profile_item.
  destruct (Py.lookup name ELASTICITY_PROFILES) as [p|] eqn:Hp;
    cbn [Py.item Py.bind]; [|discriminate].
  intros H. injection H as <-.
  exists b, name, weight, a, p. repeat split; assumption.
Qed.

Lemma dominant_curve_type_witness :
  exists r (before : Py.dict R) name weight (after : Py.dict R) p,
    calculate_segment_elasticity 0.01
      [("ultra_loyal", 0.2); ("deal_hunter", 0.4); ("at_risk", 0.4)] = Py.Returns r /\
    [("ultra_loyal", 0.2); ("deal_hunter", 0.4); ("at_risk", 0.4)]
    = (before ++ (name, weight) :: after)%list /\
    Forall (fun it => snd it < weight) before /\
    Forall (fun it => snd it <= weight) after /\
    Py.lookup name ELASTICITY_PROFILES = Some p /\
    rl_repeat_loss_curve_type (repeat_loss_axis_of r) = repeat_loss_curve_type p.
Proof.
  destruct (calculate_returns 0.01
              [("ultra_loyal", 0.2); ("deal_hunter", 0.4); ("at_risk", 0.4)])
    as (r & Hr & _).
  - repeat (apply Forall_cons || apply Forall_nil); (split; [cbn; tauto | lra]).
  - discriminate.
  - exists r.
    destruct (dominant_curve_type _ _ _ Hr) as (b & n & w & a & p & H).
    exists b, n, w, a, p. split; [exact Hr | exact H].
Defined.

Lemma best_of_equal_weights (rest : Py.dict R) first :
  Forall (fun it => snd it <= snd first) rest -> best rest first = first.
Proof.
  unfold best. induction 1 as [|it rest Hit _ IH]; cbn [fold_left]; [reflexivity|].
  assert (Hgt : Py.gt (snd it) (snd first) = false).
  { unfold Py.gt. destruct (Rlt_dec (snd first) (snd it)); [lra | reflexivity]. }
  now rewrite Hgt.
Qed.

Lemma unrecognised_weights a e m :
  contributions a e m = [] ->
  get_profile_weights a e m = Py.Returns initial_weights.
Proof.
  intros Hnil. unfold contributions in Hnil.
  apply app_eq_nil in Hnil. destruct Hnil as [Ea Hnil].
  apply app_eq_nil in Hnil. destruct Hnil as [Ee Em].
  unfold get_profile_weights, accumulated_weights. rewrite Ea, Ee, Em.
  cbn [add_all fold_left]. f_equal.
  apply normalize_zero_total. apply initial_weights_total.
Qed.

Lemma mix_zero_weights (f : Profile -> R) items :
  Forall (fun it : Profile * R => snd it = 0) items -> mix f items = 0.
Proof.
  unfold mix. induction 1 as [|[p w] items Hw _ IH]; cbn [map].
  - apply sum_nil.
  - rewrite sum_cons, IH. cbn [snd] in Hw. rewrite Hw. ring.
Qed.

Lemma mix_time_lag_zero_weights items : forall acc,
  Forall (fun it : Profile * R => snd it = 0) items ->
  Forall (fun b => b = 0) (buckets acc) ->
  Forall (fun b => b = 0) (buckets (fold_left add_time_lag items acc)).
Proof.
  induction items as [|[p w] items IH]; intros acc Hall Hacc; cbn [fold_left].
  - assumption.
  - inversion_clear Hall as [|? ? Hw Hrest]. cbn [snd] in Hw. subst w.
    apply IH; [assumption|].
    unfold buckets in *. cbn [add_time_lag weeks_0_4 weeks_4_8 weeks_8_12
                              weeks_12_16 weeks_16_20].
    repeat match goal with
           | H : Forall _ (_ :: _) |- _ => inversion_clear H
           end.
    repeat (apply Forall_cons || apply Forall_nil); lra.
Qed.

(** X23. For segment values none of which is in its axis table, the mixed
    result is degenerate instead of an error: both elasticities and the
    three migration scalars are 0, the time-lag buckets are all 0 (they do
    not add up to 1), and the curve type is that of the first archetype,
    delayed_ramp. *)
Theorem unrecognised_segment_mixes_to_zero (a e m : string) (noise : R) :
  contributions a e m = [] ->
  exists w r,
    get_profile_weights a e m = Py.Returns w /\
    calculate_segment_elasticity noise w = Py.Returns r /\
    aa_elasticity (acquisition_axis_of r) = 0 /\
    rl_elasticity (repeat_loss_axis_of r) = 0 /\
    upgrade_willingness (migration_axis_of r) = 0 /\
    downgrade_propensity (migration_axis_of r) = 0 /\
    asymmetry_factor (migration_axis_of r) = 0 /\
    Forall (fun b => b = 0) (buckets (rl_time_lag_distribution (repeat_loss_axis_of r))) /\
    rl_repeat_loss_curve_type (repeat_loss_axis_of r) = "delayed_ramp".
Proof.
  intros Hnil. exists initial_weights.
  rewrite (unrecognised_weights a e m Hnil).
  eexists. split; [reflexivity|]. split.
  { unfold calculate_segment_elasticity.
    change (resolve initial_weights) with
      (Py.Returns [(ultra_loyal, 0.0); (value_conscious, 0.0); (deal_hunter, 0.0);
                   (content_driven, 0.0); (tier_flexible, 0.0);
                   (premium_seeker, 0.0); (at_risk, 0.0)]).
    cbn [Py.bind].
    assert (Hmax : max_item initial_weights = Py.Returns ("ultra_loyal", 0.0)).
    { unfold max_item, initial_weights. f_equal.
      apply (best_of_equal_weights _ ("ultra_loyal", 0.0)).
      repeat (apply Forall_cons || apply Forall_nil); cbn [snd]; lra. }
    rewrite Hmax. cbn [Py.bind fst].
    change (profile_item "ultra_loyal") with (Py.Returns ultra_loyal).
    cbn [Py.bind]. reflexivity. }
  cbn [acquisition_axis_of repeat_loss_axis_of migration_axis_of aa_elasticity
       rl_elasticity upgrade_willingness downgrade_propensity asymmetry_factor
       rl_time_lag_distribution rl_repeat_loss_curve_type].
  match goal with
  | |- context [mix _ ?items] =>
      assert (Hz : Forall (fun it : Profile * R => snd it = 0) items)
        by (repeat (apply Forall_cons || apply Forall_nil); cbn [snd]; lra)
  end.
  rewrite !(mix_zero_weights _ _ Hz).
  repeat split; try ring.
  apply mix_time_lag_zero_weights; [exact Hz|].
  cbv [buckets zero_time_lag weeks_0_4 weeks_4_8 weeks_8_12 weeks_12_16 weeks_16_20].
  repeat (apply Forall_cons || apply Forall_nil); lra.
Qed.

Lemma unrecognised_segment_mixes_to_zero_witness :
  exists w r,
    get_profile_weights "students" "" "gift_card_buyers" = Py.Returns w /\
    calculate_segment_elasticity 0.03 w = Py.Returns r /\
    aa_elasticity (acquisition_axis_of r) = 0 /\
    rl_elasticity (repeat_loss_axis_of r) = 0 /\
    upgrade_willingness (migration_axis_of r) = 0 /\
    downgrade_propensity (migration_axis_of r) = 0 /\
    asymmetry_factor (migration_axis_of r) = 0 /\
    Forall (fun b => b = 0) (buckets (rl_time_lag_distribution (repeat_loss_axis_of r))) /\
    rl_repeat_loss_curve_type (repeat_loss_axis_of r) = "delayed_ramp".
Proof.
  apply unrecognised_segment_mixes_to_zero. reflexivity.
Defined.


End MixerExtras.

Section MixerBounds.
Import RegenerateData.

Lemma catalog_in_range : Forall profile_in_range (Py.values ELASTICITY_PROFILES).
Proof.
  unfold ELASTICITY_PROFILES, Py.values. cbn [map snd].
  repeat (apply Forall_cons || apply Forall_nil);
    cbv [profile_in_range base_acquisition_elasticity base_repeat_loss_elasticity
         base_migration_upgrade base_migration_downgrade migration_asymmetry_factor
         ultra_loyal value_conscious deal_hunter content_driven tier_flexible
         premium_seeker at_risk];
    lra.
Qed.

Lemma resolve_in_catalog pw :
  profile_weights_ok pw ->
  exists items,
    resolve pw = Py.Returns items /\
    map snd items = Py.values pw /\
    Forall (fun it => In (fst it) (Py.values ELASTICITY_PROFILES) /\ 0 <= snd it) items.
Proof.
  unfold resolve, profile_weights_ok.
  induction pw as [|[profile weight] rest IH]; intros Hok.
  - exists []. repeat split. apply Forall_nil.
  - inversion_clear Hok as [|? ? Hhd Hrest]. destruct Hhd as [Hin Hw].
    destruct (lookup_key _ _ Hin) as [p Hp].
    destruct (IH Hrest) as (items & Hitems & Hsnd & Hall).
    exists ((p, weight) :: items).
    assert (Hp' : profile_item profile = Py.Returns p)
      by (unfold profile_item; now rewrite Hp).
    cbn [Py.for_each]. rewrite Hp'. cbn [Py.bind]. rewrite Hitems. cbn [Py.bind].
    repeat split.
    + cbn [map snd Py.values]. f_equal. exact Hsnd.
    + apply Forall_cons; [|assumption]. cbn [fst snd]. split; [|assumption].
      eapply lookup_in_values. eassumption.
Qed.

(** A mix with non-negative weights stays between the bounds of the
    mixed parameter, scaled by the total weight. *)
Lemma mix_bounds (f : Profile -> R) lo hi items :
  Forall (fun it : Profile * R => lo <= f (fst it) <= hi /\ 0 <= snd it) items ->
  lo * Py.sum (map snd items) <= mix f items <= hi * Py.sum (map snd items).
Proof.
  unfold mix. induction 1 as [|[p w] items [Hf Hw] _ IH]; cbn [map snd].
  - rewrite sum_nil. lra.
  - rewrite !sum_cons. cbn [fst snd] in *. nra.
Qed.

Lemma mix_in_range (f : Profile -> R) lo hi items :
  Forall (fun p => lo <= f p <= hi) (Py.values ELASTICITY_PROFILES) ->
  Forall (fun it => In (fst it) (Py.values ELASTICITY_PROFILES) /\ 0 <= snd it) items ->
  Py.sum (map snd items) = 1 ->
  lo <= mix f items <= hi.
Proof.
  intros Hcat Hitems Hsum.
  pose proof (mix_bounds f lo hi items) as H. rewrite Hsum in H.
  rewrite !Rmult_1_r in H. apply H.
  rewrite Forall_forall in *. intros it Hin.
  destruct (Hitems it Hin) as [Hp Hw]. split; [now apply Hcat | assumption].
Qed.

(** What [calculate_segment_elasticity] returns on normalized weights. *)
Lemma calculate_on_normalized_weights (noise : R) (pw : Py.dict R) :
  profile_weights_ok pw ->
  Py.sum (Py.values pw) = 1 ->
  -0.05 <= noise <= 0.05 ->
  exists r,
    calculate_segment_elasticity noise pw = Py.Returns r /\
    elasticity_in_range r /\
    valid_distribution (rl_time_lag_distribution (repeat_loss_axis_of r)).
Proof.
  intros Hok Hsum Hnoise.
  destruct (resolve_in_catalog _ Hok) as (items & Hitems & Hsnd & Hall).
  destruct (resolve_returns _ Hok) as (items' & Hitems' & _ & Hvalid).
  rewrite Hitems in Hitems'. injection Hitems' as <-.
  assert (Hne : pw <> []).
  { intros ->. cbn in Hsum. lra. }
  destruct (max_item_returns _ Hne) as ([dominant w] & Hmax & Hin).
  assert (Hdom : In dominant (Py.keys ELASTICITY_PROFILES)).
  { unfold profile_weights_ok in Hok. rewrite Forall_forall in Hok.
    apply (Hok _ Hin). }
  destruct (profile_item_catalog _ Hdom) as (pd & Hpd & _).
  unfold calculate_segment_elasticity.
  rewrite Hitems. cbn [Py.bind]. rewrite Hmax. cbn [Py.bind fst].
  rewrite Hpd. cbn [Py.bind].
  eexists. split; [reflexivity|].
  rewrite <- Hsnd in Hsum.
  pose proof catalog_in_range as Hcat.
  assert (H1 : -3.5 <= mix base_acquisition_elasticity items <= -0.65).
  { apply mix_in_range; try assumption.
    eapply Forall_impl; [|exact Hcat]. intros p Hp. apply Hp. }
  assert (H2 : 0.25 <= mix base_repeat_loss_elasticity items <= 1.6).
  { apply mix_in_range; try assumption.
    eapply Forall_impl; [|exact Hcat]. intros p Hp. apply Hp. }
  assert (H3 : 0.4 <= mix base_migration_upgrade items <= 1.6).
  { apply mix_in_range; try assumption.
    eapply Forall_impl; [|exact Hcat]. intros p Hp. apply Hp. }
  assert (H4 : 0.4 <= mix base_migration_downgrade items <= 2.7).
  { apply mix_in_range; try assumption.
    eapply Forall_impl; [|exact Hcat]. intros p Hp. apply Hp. }
  assert (H5 : 0.8 <= mix migration_asymmetry_factor items <= 4.5).
  { apply mix_in_range; try assumption.
    eapply Forall_impl; [|exact Hcat]. intros p Hp. apply Hp. }
  split.
  - unfold elasticity_in_range.
    cbn [acquisition_axis_of repeat_loss_axis_of migration_axis_of aa_elasticity
         rl_elasticity upgrade_willingness downgrade_propensity asymmetry_factor].
    repeat split; try lra; nra.
  - cbn [repeat_loss_axis_of rl_time_lag_distribution].
    now apply mix_time_lag_valid.
Qed.

(** X24. For weights over archetype names that are non-negative and add up
    to 1 and a noise of at most 5%, every blended scalar lies in the range
    the catalog spans: the acquisition elasticity in [-3.675, -0.6175] (so
    it is negative), the repeat-loss elasticity in [0.2375, 1.68] (so it is
    positive), upgrade willingness in [0.4, 1.6], downgrade propensity in
    [0.4, 2.7], the asymmetry factor in [0.8, 4.5]. *)
Theorem blended_elasticities_in_range (noise : R) (pw : Py.dict R) :
  profile_weights_ok pw ->
  Py.sum (Py.values pw) = 1 ->
  -0.05 <= noise <= 0.05 ->
  exists r,
    calculate_segment_elasticity noise pw = Py.Returns r /\
    elasticity_in_range r.
Proof.
  intros Hok Hsum Hnoise.
  destruct (calculate_on_normalized_weights noise pw Hok Hsum Hnoise)
    as (r & Hr & Hrange & _).
  exists r. split; assumption.
Qed.

Lemma blended_elasticities_in_range_witness :
  exists r,
    calculate_segment_elasticity (-0.05) [("deal_hunter", 0.75); ("at_risk", 0.25)]
    = Py.Returns r /\
    elasticity_in_range r.
Proof.
  apply blended_elasticities_in_range.
  - repeat (apply Forall_cons || apply Forall_nil); (split; [cbn; tauto | lra]).
  - cbn [Py.values map snd]. rewrite !sum_cons, sum_nil. lra.
  - lra.
Defined.


Lemma setitem_new {V} key (v : V) d :
  ~ In key (Py.keys d) -> Py.setitem key v d = (d ++ [(key, v)])%list.
Proof.
  unfold Py.keys. induction d as [|[k u] d IH]; intros Hnin; [reflexivity|].
  cbn [Py.setitem app]. destruct (String.eqb_spec k key) as [-> | Hne].
  - exfalso. apply Hnin. now left.
  - f_equal. apply IH. intros Hin. apply Hnin. now right.
Qed.

Lemma generate_segments_spec draw tier_ (Q : SegmentElasticity -> Prop) combos :
  (forall n combo, In combo combos ->
     exists data,
       generate_segment draw tier_ n combo = Py.Returns (composite_key combo, data) /\
       Q data) ->
  forall n acc,
    NoDup (Py.keys acc ++ map composite_key combos) ->
    Forall Q (Py.values acc) ->
    exists segs,
      generate_segments draw tier_ n combos acc
      = Py.Returns (segs, (n + length combos)%nat) /\
      Py.keys segs = (Py.keys acc ++ map composite_key combos)%list /\
      Forall Q (Py.values segs).
Proof.
  induction combos as [|combo combos IH]; intros Hbody n acc Hnd HQ.
  - exists acc. cbn [generate_segments map length].
    rewrite Nat.add_0_r, app_nil_r. repeat split; assumption.
  - destruct (Hbody n combo (or_introl eq_refl)) as (data & Hgen & Hdata).
    cbn [generate_segments]. rewrite Hgen. cbn [Py.bind fst snd].
    cbn [map] in Hnd.
    assert (Hnin : ~ In (composite_key combo) (Py.keys acc)).
    { intros Hin. apply NoDup_remove_2 in Hnd. apply Hnd.
      apply in_or_app. now left. }
    rewrite (setitem_new _ _ _ Hnin).
    destruct (IH (fun n' c Hc => Hbody n' c (or_intror Hc)) (S n)
                 (acc ++ [(composite_key combo, data)])%list)
      as (segs & Hsegs & Hkeys & Hall).
    + unfold Py.keys. rewrite map_app. cbn [map fst].
      rewrite <- app_assoc. exact Hnd.
    + unfold Py.values. rewrite map_app. apply Forall_app. split; [exact HQ|].
      cbn [map snd]. now constructor.
    + exists segs. rewrite Hsegs.
      split; [f_equal; f_equal; cbn [length]; lia|].
      split; [|assumption].
      rewrite Hkeys. unfold Py.keys. rewrite map_app. cbn [map fst].
      now rewrite <- app_assoc.
Qed.

Lemma distinct_NoDup l : distinct l = true -> NoDup l.
Proof.
  induction l as [|x l IH]; cbn [distinct]; intros H; [constructor|].
  apply andb_true_iff in H. destruct H as [Hx Hl].
  constructor; [|now apply IH].
  intros Hin. apply negb_true_iff in Hx.
  assert (Hex : existsb (String.eqb x) l = true).
  { apply existsb_exists. exists x. split; [assumption | apply String.eqb_refl]. }
  congruence.
Qed.

Lemma composite_keys_distinct : NoDup (map composite_key segment_combinations).
Proof. apply distinct_NoDup. vm_compute. reflexivity. Qed.

Lemma combination_recognised acq eng mon :
  In (acq, eng, mon) segment_combinations -> contributions acq eng mon <> [].
Proof.
  intros Hin. unfold segment_combinations in Hin.
  apply in_flat_map in Hin. destruct Hin as (acq' & Hacq & Hin).
  apply in_flat_map in Hin. destruct Hin as (eng' & Heng & Hin).
  apply in_map_iff in Hin. destruct Hin as (mon' & Heq & Hmon).
  injection Heq as <- <- <-.
  unfold contributions. intros Happ. apply app_eq_nil in Happ.
  destruct Happ as [Ha _].
  unfold acquisition_segments in Hacq. cbn [In] in Hacq.
  repeat (destruct Hacq as [<- | Hacq]; [discriminate|]). destruct Hacq.
Qed.

Lemma adjust_for_tier_ok tier_ data :
  elasticity_in_range data ->
  valid_distribution (rl_time_lag_distribution (repeat_loss_axis_of data)) ->
  generated_segment_ok (adjust_for_tier tier_ data).
Proof.
  unfold elasticity_in_range, generated_segment_ok, adjust_for_tier.
  intros (Ha & Hr & _) Hv.
  destruct (String.eqb tier_ "ad_free");
    cbn [acquisition_axis_of repeat_loss_axis_of aa_elasticity rl_elasticity
         rl_time_lag_distribution];
    repeat split; try apply Hv; lra.
Qed.

Lemma generate_segment_ok draw tier_ n combo :
  (forall i, -0.05 <= draw i <= 0.05) ->
  In combo segment_combinations ->
  exists data,
    generate_segment draw tier_ n combo = Py.Returns (composite_key combo, data) /\
    generated_segment_ok data.
Proof.
  intros Hdraw Hin. destruct combo as [[acq eng] mon].
  pose proof (combination_recognised _ _ _ Hin) as Hrec.
  destruct (accumulated_weights_spec acq eng mon) as (Hk & Hn & _).
  assert (Htot : 0 < total (accumulated_weights acq eng mon)).
  { destruct (accumulated_total_cases acq eng mon) as [[Hnil _] | [_ Hone]];
      [contradiction | lra]. }
  destruct (normalize_spec _ Hn Htot) as [_ Hsum].
  assert (Hok : profile_weights_ok (normalize (accumulated_weights acq eng mon))).
  { apply profile_weights_ok_of; [now rewrite keys_normalize | now apply nonneg_normalize]. }
  destruct (calculate_on_normalized_weights (draw n) _ Hok Hsum (Hdraw n))
    as (r & Hr & Hrange & Hvalid).
  exists (adjust_for_tier tier_ r). split.
  - unfold generate_segment, get_profile_weights. cbn [Py.bind].
    rewrite Hr. reflexivity.
  - now apply adjust_for_tier_ok.
Qed.

Lemma generate_segment_returns draw tier_ n combo :
  exists data,
    generate_segment draw tier_ n combo = Py.Returns (composite_key combo, data) /\
    True.
Proof.
  destruct combo as [[acq eng] mon].
  destruct (get_profile_weights_ok acq eng mon) as (w & Hw & Hk & _ & Hok).
  assert (Hne : w <> []) by (intros ->; discriminate).
  destruct (calculate_returns (draw n) w Hok Hne) as (r & Hr & _).
  exists (adjust_for_tier tier_ r). split; [|exact I].
  unfold generate_segment. rewrite Hw. cbn [Py.bind]. rewrite Hr. reflexivity.
Qed.

Lemma generate_json_spec draw (Q : SegmentElasticity -> Prop) :
  (forall tier_ n combo, In combo segment_combinations ->
     exists data,
       generate_segment draw tier_ n combo = Py.Returns (composite_key combo, data) /\
       Q data) ->
  exists output,
    generate_segment_elasticity_json draw = Py.Returns output /\
    Py.keys output = ["ad_supported"; "ad_free"] /\
    Forall (fun segs =>
              Py.keys segs = map composite_key segment_combinations /\
              Forall Q (Py.values segs))
           (Py.values output).
Proof.
  intros Hbody.
  unfold generate_segment_elasticity_json, tiers. cbn [generate_tiers].
  destruct (generate_segments_spec draw "ad_supported" Q segment_combinations
              (Hbody "ad_supported") 0%nat [] composite_keys_distinct (Forall_nil _))
    as (segs1 & H1 & K1 & Q1).
  rewrite H1. cbn [Py.bind fst snd Py.setitem].
  destruct (generate_segments_spec draw "ad_free" Q segment_combinations
              (Hbody "ad_free") (0 + length segment_combinations)%nat []
              composite_keys_distinct (Forall_nil _))
    as (segs2 & H2 & K2 & Q2).
  rewrite H2. cbn [Py.bind fst snd Py.setitem String.eqb Ascii.eqb Bool.eqb].
  eexists. split; [reflexivity|]. split; [reflexivity|].
  cbn [Py.values map snd].
  repeat (apply Forall_cons || apply Forall_nil); split; assumption.
Qed.

(** X25. For every random source [generate_segment_elasticity_json] returns,
    without an error, a dictionary with the tiers ad_supported and ad_free,
    and each tier has one entry per combination of the three segment axes,
    keyed acq|eng|mon in loop order: 125 entries per tier, 250 in all. *)
Theorem generation_shape (draw : nat -> R) :
  exists output,
    generate_segment_elasticity_json draw = Py.Returns output /\
    Py.keys output = ["ad_supported"; "ad_free"] /\
    Forall (fun segs =>
              Py.keys segs = map composite_key segment_combinations /\
              length segs = 125%nat)
           (Py.values output).
Proof.
  destruct (generate_json_spec draw (fun _ => True)) as (output & Hout & Hk & Hall).
  - intros tier_ n combo _. apply generate_segment_returns.
  - exists output. split; [assumption|]. split; [assumption|].
    eapply Forall_impl; [|exact Hall]. cbn beta. intros segs [Hkeys _].
    split; [assumption|].
    assert (Hlen : length (Py.keys segs) = 125%nat) by (rewrite Hkeys; reflexivity).
    unfold Py.keys in Hlen. now rewrite length_map in Hlen.
Qed.

(** X26. When every draw of the random source is within 5%, every generated
    segment of both tiers has a negative acquisition elasticity not below
    -3.675, a positive repeat-loss elasticity not above 1.68, and a time-lag
    distribution with non-negative buckets of sum 1. *)
Theorem generation_in_range (draw : nat -> R) :
  (forall i, -0.05 <= draw i <= 0.05) ->
  exists output,
    generate_segment_elasticity_json draw = Py.Returns output /\
    Forall (fun segs => Forall generated_segment_ok (Py.values segs))
           (Py.values output).
Proof.
  intros Hdraw.
  destruct (generate_json_spec draw generated_segment_ok) as (output & Hout & _ & Hall).
  - intros tier_ n combo Hin. now apply generate_segment_ok.
  - exists output. split; [assumption|].
    eapply Forall_impl; [|exact Hall]. cbn beta. intros segs [_ H]. exact H.
Qed.

Lemma generation_in_range_witness :
  exists output,
    generate_segment_elasticity_json (fun i => if Nat.even i then 0.05 else -0.05)
    = Py.Returns output /\
    Forall (fun segs => Forall generated_segment_ok (Py.values segs))
           (Py.values output).
Proof.
  apply generation_in_range.
  intros i. destruct (Nat.even i); lra.
Defined.

End MixerBounds.

Lemma lt_true_iff x y : Py.lt x y = true <-> x < y.
Proof.
  unfold Py.lt. destruct (Rlt_dec x y); split; intros; try discriminate; tauto.
Qed.

Lemma lt_false_iff x y : Py.lt x y = false <-> y <= x.
Proof.
  unfold Py.lt. destruct (Rlt_dec x y); split; intros; try discriminate; lra || reflexivity.
Qed.

Section Crossover.
Import ValidateMigrationCrossover.

Lemma upgrade_pct_eq g : upgrade_pct g = 10 / (1 + exp (-0.75 * (g - 2.5))).
Proof. reflexivity. Qed.

Lemma downgrade_pct_below g :
  g < 4.5 -> downgrade_pct g = 0.8 + 3.5 * (g / 4.5) ^ 2.
Proof.
  intros H. unfold downgrade_pct.
  destruct (lt_true_iff g 4.5) as [_ ->]; [reflexivity | assumption].
Qed.

Lemma downgrade_pct_above g :
  4.5 <= g -> downgrade_pct g = 0.8 + 3.5 + 4.0 * exp (0.35 * (g - 4.5)).
Proof.
  intros H. unfold downgrade_pct.
  destruct (lt_false_iff g 4.5) as [_ ->]; [reflexivity | assumption].
Qed.

Lemma upgrade_pct_increasing g1 g2 : g1 < g2 -> upgrade_pct g1 < upgrade_pct g2.
Proof.
  intros H. rewrite !upgrade_pct_eq.
  pose proof (exp_pos (-0.75 * (g1 - 2.5))). pose proof (exp_pos (-0.75 * (g2 - 2.5))).
  assert (exp (-0.75 * (g2 - 2.5)) < exp (-0.75 * (g1 - 2.5)))
    by (apply exp_increasing; lra).
  unfold Rdiv. apply Rmult_lt_compat_l; [lra|].
  apply Rinv_lt_contravar; [apply Rmult_lt_0_compat|]; lra.
Qed.

Lemma upgrade_pct_le g1 g2 : g1 <= g2 -> upgrade_pct g1 <= upgrade_pct g2.
Proof.
  intros [Hlt | ->]; [left; now apply upgrade_pct_increasing | right; reflexivity].
Qed.

Lemma math_exp_returns x : x <= 700 -> math_exp x = Py.Returns (exp x).
Proof.
  intros Hx. unfold math_exp.
  destruct (Rle_dec (-700) x) as [Hlo | Hlo].
  - pose proof (exp_in_range x ltac:(lra)). pose proof overflow_threshold_bounds.
    destruct (Rle_dec Binary64.overflow_threshold (exp x)); [lra | reflexivity].
  - pose proof (exp_lt_1 x ltac:(lra)). pose proof overflow_threshold_bounds.
    destruct (Rle_dec Binary64.overflow_threshold (exp x)); [lra | reflexivity].
Qed.

Lemma math_exp_raises x : 720 <= x -> math_exp x = Py.Raises Py.OverflowError.
Proof.
  intros Hx. unfold math_exp. pose proof (exp_overflows x Hx).
  destruct (Rle_dec Binary64.overflow_threshold (exp x)); [reflexivity | lra].
Qed.

Lemma math_exp_spec x e : math_exp x = Py.Returns e -> e = exp x.
Proof.
  unfold math_exp.
  destruct (Rle_dec Binary64.overflow_threshold (exp x)); [discriminate|].
  intros H. now injection H as <-.
Qed.

Lemma square_returns x : Rabs x <= 1000 -> square x = Py.Returns (x ^ 2).
Proof.
  intros Hx. unfold square. pose proof overflow_threshold_bounds.
  assert (x ^ 2 <= 1000000).
  { pose proof (Rle_abs x) as H1. pose proof (Rle_abs (- x)) as H2.
    rewrite Rabs_Ropp in H2. simpl. nra. }
  destruct (Rle_dec Binary64.overflow_threshold (x ^ 2)); [lra | reflexivity].
Qed.

Lemma square_spec x q : square x = Py.Returns q -> q = x ^ 2.
Proof.
  unfold square.
  destruct (Rle_dec Binary64.overflow_threshold (x ^ 2)); [discriminate|].
  intros H. now injection H as <-.
Qed.

(** Where [calculate_migration_rates] returns, it returns the two
    curves. *)
Lemma calculate_migration_rates_spec g u d :
  calculate_migration_rates g = Py.Returns (u, d) ->
  u = upgrade_pct g /\ d = downgrade_pct g.
Proof.
  unfold calculate_migration_rates, upgrade_pct, downgrade_pct.
  destruct (math_exp (-0.75 * (g - 2.5))) as [e|] eqn:He; cbn [Py.bind];
    [|discriminate].
  apply math_exp_spec in He. subst e.
  destruct (Py.lt g 4.5).
  - destruct (square (g / 4.5)) as [q|] eqn:Hq; cbn [Py.bind]; [|discriminate].
    apply square_spec in Hq. subst q.
    intros H. injection H as <- <-. split; [f_equal; lra | reflexivity].
  - destruct (math_exp (0.35 * (g - 4.5))) as [e|] eqn:He; cbn [Py.bind];
      [|discriminate].
    apply math_exp_spec in He. subst e.
    intros H. injection H as <- <-. split; [f_equal; lra | reflexivity].
Qed.

Lemma calculate_migration_rates_returns g :
  -900 <= g <= 2000 ->
  calculate_migration_rates g = Py.Returns (upgrade_pct g, downgrade_pct g).
Proof.
  intros [Hlo Hhi]. unfold calculate_migration_rates, upgrade_pct, downgrade_pct.
  rewrite math_exp_returns by lra. cbn [Py.bind].
  destruct (Py.lt g 4.5) eqn:Hlt.
  - apply lt_true_iff in Hlt.
    rewrite square_returns by (apply Rabs_le; lra). cbn [Py.bind].
    do 2 f_equal. f_equal. lra.
  - apply lt_false_iff in Hlt.
    rewrite math_exp_returns by lra. cbn [Py.bind].
    do 2 f_equal. f_equal. lra.
Qed.

Lemma calculate_migration_rates_raises g :
  g <= -960 \/ 2062 <= g ->
  calculate_migration_rates g = Py.Raises Py.OverflowError.
Proof.
  intros [Hg | Hg]; unfold calculate_migration_rates.
  - rewrite math_exp_raises by lra. reflexivity.
  - rewrite math_exp_returns by lra. cbn [Py.bind].
    destruct (lt_false_iff g 4.5) as [_ ->]; [|lra].
    rewrite math_exp_raises by lra. reflexivity.
Qed.

Lemma upgrade_pct_bounds g : 0 < upgrade_pct g < 10.
Proof.
  rewrite upgrade_pct_eq. pose proof (exp_pos (-0.75 * (g - 2.5))). split.
  - apply Rdiv_lt_0_compat; lra.
  - apply Rmult_lt_reg_r with (1 + exp (-0.75 * (g - 2.5))); [lra|].
    unfold Rdiv. rewrite Rmult_assoc, Rinv_l by lra. lra.
Qed.

(** X27. [calculate_migration_rates] returns for every gap between -900 and
    2000.  The upgrade rate it returns is positive and at most 10, is 5 at
    the midpoint 2.5 and never decreases when the gap grows; the downgrade
    rate is at least 0.8, at most 4.3 for a gap in [0, 4.5) and more than
    8.29 from 4.5 on: it jumps by 4 at the threshold. *)
Theorem migration_rate_curves (g g' : R) :
  -900 <= g <= 2000 -> -900 <= g' <= 2000 ->
  exists u d u' d',
    calculate_migration_rates g = Py.Returns (u, d) /\
    calculate_migration_rates g' = Py.Returns (u', d') /\
    0 < u <= 10 /\
    (g = 2.5 -> u = 5) /\
    (g <= g' -> u <= u') /\
    0.8 <= d /\
    (0 <= g < 4.5 -> d <= 4.3) /\
    (4.5 <= g -> 8.29 < d).
Proof.
  intros Hg Hg'.
  exists (upgrade_pct g), (downgrade_pct g), (upgrade_pct g'), (downgrade_pct g').
  split; [now apply calculate_migration_rates_returns|].
  split; [now apply calculate_migration_rates_returns|].
  repeat split.
  - apply upgrade_pct_bounds.
  - left. apply upgrade_pct_bounds.
  - intros ->. rewrite upgrade_pct_eq. replace (-0.75 * (2.5 - 2.5)) with 0 by lra.
    rewrite exp_0. lra.
  - apply upgrade_pct_le.
  - destruct (Rlt_dec g 4.5) as [Hlt | Hge].
    + rewrite downgrade_pct_below by assumption.
      pose proof (pow2_ge_0 (g / 4.5)). lra.
    + rewrite downgrade_pct_above by lra.
      pose proof (exp_pos (0.35 * (g - 4.5))). lra.
  - intros [H0 H1]. rewrite downgrade_pct_below by assumption.
    assert (0 <= g / 4.5 < 1) by (split; [apply Rmult_le_pos; lra | lra]).
    assert ((g / 4.5) ^ 2 < 1) by (simpl; nra). lra.
  - intros H. rewrite downgrade_pct_above by assumption.
    pose proof (exp_ineq1_le (0.35 * (g - 4.5))). lra.
Qed.

Lemma migration_rate_curves_witness :
  exists u d u' d',
    calculate_migration_rates 4 = Py.Returns (u, d) /\
    calculate_migration_rates 4.5 = Py.Returns (u', d') /\
    0 < u <= 10 /\
    (4 = 2.5 -> u = 5) /\
    (4 <= 4.5 -> u <= u') /\
    0.8 <= d /\
    (0 <= 4 < 4.5 -> d <= 4.3) /\
    (4.5 <= 4 -> 8.29 < d).
Proof.
  apply (migration_rate_curves 4 4.5); lra.
Defined.

(** X28. [calculate_migration_rates] is partial: it returns for every gap
    between -900 and 2000 and raises OverflowError, from [math.exp], for
    every gap of 2062 or more and every gap of -960 or less. *)
Theorem migration_rates_domain (g : R) :
  (-900 <= g <= 2000 ->
   exists u d, calculate_migration_rates g = Py.Returns (u, d)) /\
  (2062 <= g -> calculate_migration_rates g = Py.Raises Py.OverflowError) /\
  (g <= -960 -> calculate_migration_rates g = Py.Raises Py.OverflowError).
Proof.
  repeat split.
  - intros Hg. exists (upgrade_pct g), (downgrade_pct g).
    now apply calculate_migration_rates_returns.
  - intros Hg. apply calculate_migration_rates_raises. now right.
  - intros Hg. apply calculate_migration_rates_raises. now left.
Qed.

Lemma migration_rates_domain_witness :
  (exists u d, calculate_migration_rates 8 = Py.Returns (u, d)) /\
  calculate_migration_rates 1e6 = Py.Raises Py.OverflowError /\
  calculate_migration_rates (-1000) = Py.Raises Py.OverflowError.
Proof.
  destruct (migration_rates_domain 8) as (Hin & _ & _).
  destruct (migration_rates_domain 1e6) as (_ & Hhigh & _).
  destruct (migration_rates_domain (-1000)) as (_ & _ & Hlow).
  split; [apply Hin; lra|]. split; [apply Hhigh; lra | apply Hlow; lra].
Defined.

(** On [a, b] inside [0, 4.5) the net flow is at least
    upgrade(a) - downgrade(b). *)
Lemma net_flow_on_interval a b E g :
  0 <= a -> a <= g <= b -> b < 4.5 ->
  exp (-0.75 * (a - 2.5)) <= E ->
  10 / (1 + E) - (0.8 + 3.5 * (b / 4.5) ^ 2) <= upgrade_pct g - downgrade_pct g.
Proof.
  intros Ha [Hag Hgb] Hb HE.
  assert (Hu : 10 / (1 + E) <= upgrade_pct g).
  { rewrite upgrade_pct_eq.
    pose proof (exp_pos (-0.75 * (g - 2.5))). pose proof (exp_pos (-0.75 * (a - 2.5))).
    assert (exp (-0.75 * (g - 2.5)) <= exp (-0.75 * (a - 2.5)))
      by (apply exp_le_compat; lra).
    unfold Rdiv. apply Rmult_le_compat_l; [lra|].
    apply Rinv_le_contravar; lra. }
  assert (Hd : downgrade_pct g <= 0.8 + 3.5 * (b / 4.5) ^ 2).
  { rewrite downgrade_pct_below by lra.
    assert (0 <= g / 4.5 <= b / 4.5)
      by (split; [apply Rmult_le_pos; lra | apply Rmult_le_compat_r; lra]).
    assert ((g / 4.5) ^ 2 <= (b / 4.5) ^ 2) by (simpl; nra). lra. }
  lra.
Qed.

Lemma exp_1_875_upper : exp 1.875 <= 6.521.
Proof. exp_upper 1000000000000%Z 16%nat 1000028611050%Z. Qed.
Lemma exp_1_575_upper : exp 1.575 <= 4.831.
Proof. exp_upper 1000000000000%Z 16%nat 1000024033172%Z. Qed.
Lemma exp_0_975_upper : exp 0.975 <= 2.652.
Proof. exp_upper 1000000000000%Z 16%nat 1000014877542%Z. Qed.
Lemma exp_0_075_upper : exp 0.075 <= 1.078.
Proof. exp_upper 1000000000000%Z 16%nat 1000001144412%Z. Qed.
Lemma exp_1_5_upper : exp 1.5 <= 4.482.
Proof. exp_upper 1000000000000%Z 16%nat 1000022888709%Z. Qed.
Lemma exp_0_825_lower : 2.281 <= exp 0.825.
Proof. exp_lower 1000000000000%Z 16%nat 1000012588500%Z. Qed.

Lemma net_upgrade_below_threshold g :
  0 <= g < 4.5 -> 0.5 < upgrade_pct g - downgrade_pct g.
Proof.
  intros [H0 H1].
  destruct (Rle_dec g 0.4) as [I1|I1].
  { pose proof (net_flow_on_interval 0 0.4 6.521 g) as H.
    eapply Rlt_le_trans; [|apply H; try lra].
    - simpl. lra.
    - replace (-0.75 * (0 - 2.5)) with 1.875 by lra. apply exp_1_875_upper. }
  destruct (Rle_dec g 1.2) as [I2|I2].
  { pose proof (net_flow_on_interval 0.4 1.2 4.831 g) as H.
    eapply Rlt_le_trans; [|apply H; try lra].
    - simpl. lra.
    - replace (-0.75 * (0.4 - 2.5)) with 1.575 by lra. apply exp_1_575_upper. }
  destruct (Rle_dec g 2.4) as [I3|I3].
  { pose proof (net_flow_on_interval 1.2 2.4 2.652 g) as H.
    eapply Rlt_le_trans; [|apply H; try lra].
    - simpl. lra.
    - replace (-0.75 * (1.2 - 2.5)) with 0.975 by lra. apply exp_0_975_upper. }
  destruct (Rle_dec g 3.6) as [I4|I4].
  { pose proof (net_flow_on_interval 2.4 3.6 1.078 g) as H.
    eapply Rlt_le_trans; [|apply H; try lra].
    - simpl. lra.
    - replace (-0.75 * (2.4 - 2.5)) with 0.075 by lra. apply exp_0_075_upper. }
  assert (Hu : 10 / (1 + 0.4385) <= upgrade_pct g).
  { rewrite upgrade_pct_eq.
    pose proof (exp_pos (-0.75 * (g - 2.5))).
    assert (exp (-0.75 * (g - 2.5)) <= exp (Ropp 0.825))
      by (apply exp_le_compat; lra).
    assert (exp (Ropp 0.825) <= 0.4385).
    { rewrite exp_Ropp. pose proof exp_0_825_lower.
      apply Rle_trans with (/ 2.281); [apply Rinv_le_contravar; lra | lra]. }
    unfold Rdiv. apply Rmult_le_compat_l; [lra|].
    apply Rinv_le_contravar; lra. }
  assert (Hd : downgrade_pct g < 4.3).
  { rewrite downgrade_pct_below by assumption.
    assert (0 <= g / 4.5 < 1) by (split; [apply Rmult_le_pos; lra | lra]).
    assert ((g / 4.5) ^ 2 < 1) by (simpl; nra). lra. }
  lra.
Qed.

Lemma net_downgrade_from_threshold g :
  4.5 <= g -> upgrade_pct g < downgrade_pct g.
Proof.
  intros H. rewrite downgrade_pct_above by assumption.
  set (t := g - 4.5). assert (Ht : 0 <= t) by (unfold t; lra).
  pose proof (exp_ineq1_le (0.35 * t)) as Hd.
  destruct (Rle_dec 1.3 t) as [Hbig | Hsmall].
  - assert (Hu : upgrade_pct g < 10).
    { rewrite upgrade_pct_eq. pose proof (exp_pos (-0.75 * (g - 2.5))).
      apply Rmult_lt_reg_r with (1 + exp (-0.75 * (g - 2.5))); [lra|].
      unfold Rdiv. rewrite Rmult_assoc, Rinv_l by lra. lra. }
    lra.
  - rewrite upgrade_pct_eq.
    replace (-0.75 * (g - 2.5)) with (Ropp 1.5 + -0.75 * t) by (unfold t; lra).
    rewrite exp_plus, exp_Ropp.
    pose proof exp_1_5_upper as H15. pose proof (exp_pos 1.5) as H15p.
    assert (Hc : 0.223 <= / exp 1.5).
    { apply Rle_trans with (/ 4.482); [lra | apply Rinv_le_contravar; lra]. }
    pose proof (exp_ineq1_le (-0.75 * t)) as Hk.
    set (c := / exp 1.5) in *. set (k := exp (-0.75 * t)) in *.
    assert (Hck : 0.223 * (1 - 0.75 * t) <= c * k).
    { apply Rmult_le_compat; lra. }
    apply Rlt_le_trans with (8.3 + 1.4 * t); [|lra].
    apply Rmult_lt_reg_r with (1 + c * k); [nra|].
    unfold Rdiv. rewrite Rmult_assoc, Rinv_l by nra.
    assert (10 < (8.3 + 1.4 * t) * (1 + 0.223 * (1 - 0.75 * t))) by nra.
    assert ((8.3 + 1.4 * t) * (1 + 0.223 * (1 - 0.75 * t))
            <= (8.3 + 1.4 * t) * (1 + c * k))
      by (apply Rmult_le_compat_l; lra).
    lra.
Qed.

(** X29. The curves of [calculate_migration_rates] do not cross near a gap
    of 4: for every gap in [0, 4.5) upgrades exceed downgrades by at least
    0.5 points and the status is a net upgrade; for every gap from the
    threshold 4.5 up to 2000 downgrades exceed upgrades and the status is
    equilibrium or net downgrade; for a gap of 2062 or more there is no
    status, the calculation raises OverflowError. *)
Theorem migration_crossover_at_threshold (g : R) :
  (0 <= g < 4.5 -> flow_status g = Py.Returns NetUpgrade) /\
  (4.5 <= g <= 2000 ->
   exists u d st,
     calculate_migration_rates g = Py.Returns (u, d) /\ u < d /\
     flow_status g = Py.Returns st /\ st <> NetUpgrade) /\
  (2062 <= g -> flow_status g = Py.Raises Py.OverflowError).
Proof.
  unfold flow_status. repeat split.
  - intros Hg. rewrite calculate_migration_rates_returns by lra. cbn [Py.bind].
    pose proof (net_upgrade_below_threshold g Hg) as Hnet.
    destruct (lt_false_iff (Rabs (upgrade_pct g - downgrade_pct g)) 0.5) as [_ ->].
    + destruct (gt_true_iff (upgrade_pct g - downgrade_pct g) 0) as [_ ->];
        [reflexivity | lra].
    + rewrite Rabs_right by lra. lra.
  - intros [Hg Hhi]. pose proof (net_downgrade_from_threshold g Hg) as Hnet.
    exists (upgrade_pct g), (downgrade_pct g).
    rewrite calculate_migration_rates_returns by lra. cbn [Py.bind].
    assert (Hgt : Py.gt (upgrade_pct g - downgrade_pct g) 0 = false).
    { unfold Py.gt. destruct (Rlt_dec 0 (upgrade_pct g - downgrade_pct g));
        [lra | reflexivity]. }
    rewrite Hgt.
    destruct (Py.lt _ 0.5); eexists;
      (split; [reflexivity|]); (split; [assumption|]);
      (split; [reflexivity | discriminate]).
  - intros Hg. rewrite calculate_migration_rates_raises by (right; lra).
    reflexivity.
Qed.

Lemma migration_crossover_at_threshold_witness :
  flow_status 4 = Py.Returns NetUpgrade /\
  (exists u d st,
     calculate_migration_rates 4.5 = Py.Returns (u, d) /\ u < d /\
     flow_status 4.5 = Py.Returns st /\ st <> NetUpgrade) /\
  flow_status 1e6 = Py.Raises Py.OverflowError.
Proof.
  destruct (migration_crossover_at_threshold 4) as (Hbelow & _ & _).
  destruct (migration_crossover_at_threshold 4.5) as (_ & Habove & _).
  destruct (migration_crossover_at_threshold 1e6) as (_ & _ & Hout).
  split; [apply Hbelow; lra|]. split; [apply Habove; lra | apply Hout; lra].
Defined.

End Crossover.
